(** * Guild settings of the bot: server_settings.py

    A shallow embedding of the per-guild settings manager
    (src/server_settings.py): the setting codec, the AutoDailySettings and
    GuildSettings entities, the GuildSettingsCollection and the free
    functions over the [serversettings] table, followed by the properties
    stated about them. *)

From Stdlib Require Import ZArith String Ascii List Bool Lia.
From stdpp Require Import base option list strings gmap.

Local Open Scope string_scope.
Local Open Scope Z_scope.

(** ** Python values used by the module *)

(** [str.lower()].  Strings are sequences of UTF-8 bytes; the ASCII letters
    are folded, every other byte is kept.  (Unicode folds further cased
    letters, but none of them to a letter of the tokens compared below.) *)
Definition lower_ascii (c : ascii) : ascii :=
  let n := nat_of_ascii c in
  if (Nat.leb 65 n && Nat.leb n 90)%bool then ascii_of_nat (n + 32)%nat else c.

Fixpoint lower (s : string) : string :=
  match s with
  | EmptyString => EmptyString
  | String c r => String (lower_ascii c) (lower r)
  end.

(** Truthiness of the optional values the code tests with [if x], [not x]
    and [x or y]. *)
Definition truthy_int (x : option Z) : bool :=
  match x with
  | Some n => negb (n =? 0)
  | None => false
  end.

Definition truthy_str (x : option string) : bool :=
  match x with
  | Some s => negb (String.eqb s "")
  | None => false
  end.

(** [x or None] *)
Definition int_or_None (x : option Z) : option Z :=
  if truthy_int x then x else None.

Definition str_or_None (x : option string) : option string :=
  if truthy_str x then x else None.

(** [datetime.datetime]: always truthy; [.day] is the day of the month. *)
Record datetime : Type := mk_datetime {
  year : Z;
  month : Z;
  day : Z;
  hour : Z;
  minute : Z;
  second : Z
}.

#[global] Instance datetime_eq_dec : EqDecision datetime.
Proof. solve_decision. Defined.

(** The exceptions the module can raise. *)
Inductive PyError : Type :=
  | KeyError
  | TypeError
  | ValueError
  | AttributeError.

Inductive Result (A : Type) : Type :=
  | Ok (a : A)
  | Raise (e : PyError).
Arguments Ok {A} a.
Arguments Raise {A} e.

(** ** Constants and enums *)

(** [_VALID_PAGINATION_SWITCH_VALUES].  The two emoji keys are written as
    their UTF-8 bytes. *)
Definition thumbs_up : string :=
  String (ascii_of_nat 240) (String (ascii_of_nat 159)
    (String (ascii_of_nat 145) (String (ascii_of_nat 141) EmptyString))).

Definition thumbs_down : string :=
  String (ascii_of_nat 240) (String (ascii_of_nat 159)
    (String (ascii_of_nat 145) (String (ascii_of_nat 142) EmptyString))).

Definition _VALID_PAGINATION_SWITCH_VALUES : list (string * bool) :=
  [ ("on", true); ("true", true); ("1", true); ("yes", true);
    (thumbs_up, true);
    ("off", false); ("false", false); ("0", false); ("no", false);
    (thumbs_down, false) ].

(** Lookup in a dict literal kept as an association list. *)
Fixpoint dict_get {V : Type} (d : list (string * V)) (k : string) : option V :=
  match d with
  | [] => None
  | (k', v) :: r => if String.eqb k k' then Some v else dict_get r k
  end.

Inductive AutoDailyNotifyType : Type :=
  | USER
  | ROLE.

Inductive AutoDailyChangeMode : Type :=
  | POST_NEW
  | DELETE_AND_POST_NEW
  | EDIT.

#[global] Instance AutoDailyNotifyType_eq_dec : EqDecision AutoDailyNotifyType.
Proof. solve_decision. Defined.

#[global] Instance AutoDailyChangeMode_eq_dec : EqDecision AutoDailyChangeMode.
Proof. solve_decision. Defined.

(** [member.value] of the two IntEnums. *)
Definition notify_type_value (t : AutoDailyNotifyType) : Z :=
  match t with
  | USER => 1
  | ROLE => 2
  end.

Definition change_mode_value (m : AutoDailyChangeMode) : Z :=
  match m with
  | POST_NEW => 1
  | DELETE_AND_POST_NEW => 2
  | EDIT => 3
  end.

(** [AutoDailyChangeMode(n)]: the member with that value, ValueError when
    there is none. *)
Definition AutoDailyChangeMode_call (n : Z) : Result AutoDailyChangeMode :=
  if n =? 1 then Ok POST_NEW
  else if n =? 2 then Ok DELETE_AND_POST_NEW
  else if n =? 3 then Ok EDIT
  else Raise ValueError.

Definition DEFAULT_AUTODAILY_CHANGE_MODE : AutoDailyChangeMode := POST_NEW.

(** ** Setting codec *)

Definition convert_from_autodaily_notify_type
    (notify_type : option AutoDailyNotifyType) : option Z :=
  match notify_type with
  | Some t => Some (notify_type_value t)
  | None => None
  end.

Definition convert_from_on_off (switch : option string) : option bool :=
  match switch with
  | None => None
  | Some s => dict_get _VALID_PAGINATION_SWITCH_VALUES (lower s)
  end.

Definition convert_to_autodaily_notify_type
    (notify_type : option Z) : option AutoDailyNotifyType :=
  if truthy_int notify_type then
    match notify_type with
    | Some 1 => Some USER
    | Some 2 => Some ROLE
    | _ => None
    end
  else None.

Definition convert_to_on_off (value : option bool) : string :=
  match value with
  | Some true => "ON"
  | Some false => "OFF"
  | None => "<NOT SET>"
  end.

Definition on_tokens : list string := ["on"; "true"; "1"; "yes"; thumbs_up].
Definition off_tokens : list string := ["off"; "false"; "0"; "no"; thumbs_down].

(** ** The chat platform's objects (discord) *)

Record TextChannel : Type := mk_channel {
  TextChannel_id : Z;
  TextChannel_name : string
}.

Record Member : Type := mk_member { Member_id : Z }.
Record User : Type := mk_user { User_id : Z }.
Record Role : Type := mk_role { Role_id : Z }.

Record Guild : Type := mk_guild {
  Guild_id : Z;
  Guild_members : list Member;
  Guild_roles : list Role
}.

Record Message : Type := mk_message {
  Message_id : Z;
  Message_created_at : datetime;
  Message_edited_at : option datetime
}.

(** The object behind a notify setting: a member, a user or a role. *)
Inductive Mention : Type :=
  | MentionMember (m : Member)
  | MentionUser (u : User)
  | MentionRole (r : Role).

Definition mention_id (n : Mention) : Z :=
  match n with
  | MentionMember m => Member_id m
  | MentionUser u => User_id u
  | MentionRole r => Role_id r
  end.

(** What a caller can pass for [notify]: [None], one of the three kinds
    above, or any other object, of which only its truthiness and its [id]
    attribute (if it has one) matter. *)
Inductive PyObject : Type :=
  | PyNone
  | PyMention (n : Mention)
  | PyOther (truthy : bool) (id_attr : option Z).

(** The directory the bot offers: [get_channel], [get_guild] and, on a
    guild, [get_member] and [get_role]; a missing id gives [None]. *)
Record Bot : Type := mk_bot {
  bot_channels : list TextChannel;
  bot_guilds : list Guild
}.

Definition get_channel (bot : Bot) (id : option Z) : option TextChannel :=
  match id with
  | Some i => find (fun c => TextChannel_id c =? i) (bot_channels bot)
  | None => None
  end.

Definition get_guild (bot : Bot) (id : Z) : option Guild :=
  find (fun g => Guild_id g =? id) (bot_guilds bot).

Definition get_member (g : Guild) (id : Z) : option Member :=
  find (fun m => Member_id m =? id) (Guild_members g).

Definition get_role (g : Guild) (id : Z) : option Role :=
  find (fun r => Role_id r =? id) (Guild_roles g).

(** ** The table [serversettings] *)

Inductive Column : Type :=
  | _COLUMN_NAME_GUILD_ID
  | _COLUMN_NAME_DAILY_CAN_POST
  | _COLUMN_NAME_DAILY_CHANNEL_ID
  | _COLUMN_NAME_DAILY_LATEST_MESSAGE_ID
  | _COLUMN_NAME_USE_PAGINATION
  | _COLUMN_NAME_PREFIX
  | _COLUMN_NAME_DAILY_CHANGE_MODE
  | _COLUMN_NAME_DAILY_NOTIFY_ID
  | _COLUMN_NAME_DAILY_NOTIFY_TYPE
  | _COLUMN_NAME_DAILY_LATEST_MESSAGE_CREATED_AT
  | _COLUMN_NAME_DAILY_LATEST_MESSAGE_MODIFIED_AT
  | _COLUMN_NAME_BOT_NEWS_CHANNEL_ID.

#[global] Instance Column_eq_dec : EqDecision Column.
Proof. solve_decision. Defined.

Definition column_name (c : Column) : string :=
  match c with
  | _COLUMN_NAME_GUILD_ID => "guildid"
  | _COLUMN_NAME_DAILY_CAN_POST => "dailycanpost"
  | _COLUMN_NAME_DAILY_CHANNEL_ID => "dailychannelid"
  | _COLUMN_NAME_DAILY_LATEST_MESSAGE_ID => "dailylatestmessageid"
  | _COLUMN_NAME_USE_PAGINATION => "usepagination"
  | _COLUMN_NAME_PREFIX => "prefix"
  | _COLUMN_NAME_DAILY_CHANGE_MODE => "dailychangemode"
  | _COLUMN_NAME_DAILY_NOTIFY_ID => "dailynotifyid"
  | _COLUMN_NAME_DAILY_NOTIFY_TYPE => "dailynotifytype"
  | _COLUMN_NAME_DAILY_LATEST_MESSAGE_CREATED_AT => "dailylatestmessagecreatedate"
  | _COLUMN_NAME_DAILY_LATEST_MESSAGE_MODIFIED_AT => "dailylatestmessagemodifydate"
  | _COLUMN_NAME_BOT_NEWS_CHANNEL_ID => "botnewschannelid"
  end.

(** A value bound to a [$n] placeholder. *)
Inductive Value : Type :=
  | VNone
  | VInt (n : Z)
  | VBool (b : bool)
  | VStr (s : string)
  | VTime (t : datetime).

Definition of_int (x : option Z) : Value :=
  match x with Some n => VInt n | None => VNone end.
Definition of_bool (x : option bool) : Value :=
  match x with Some b => VBool b | None => VNone end.
Definition of_str (x : option string) : Value :=
  match x with Some s => VStr s | None => VNone end.
Definition of_time (x : option datetime) : Value :=
  match x with Some t => VTime t | None => VNone end.

(** The typed reading of a value; the outer [None] is a value of another
    type. *)
Definition as_int (v : Value) : option (option Z) :=
  match v with VNone => Some None | VInt n => Some (Some n) | _ => None end.
Definition as_bool (v : Value) : option (option bool) :=
  match v with VNone => Some None | VBool b => Some (Some b) | _ => None end.
Definition as_str (v : Value) : option (option string) :=
  match v with VNone => Some None | VStr s => Some (Some s) | _ => None end.
Definition as_time (v : Value) : option (option datetime) :=
  match v with VNone => Some None | VTime t => Some (Some t) | _ => None end.

(** One row; every column but the key is nullable. *)
Record Row : Type := mk_row {
  guildid : Z;
  prefix : option string;
  usepagination : option bool;
  dailycanpost : option bool;
  dailychannelid : option Z;
  dailylatestmessageid : option Z;
  dailychangemode : option Z;
  dailynotifyid : option Z;
  dailynotifytype : option Z;
  dailylatestmessagecreatedate : option datetime;
  dailylatestmessagemodifydate : option datetime;
  botnewschannelid : option Z
}.

(** [row.get(column)] *)
Definition row_get (r : Row) (c : Column) : Value :=
  match c with
  | _COLUMN_NAME_GUILD_ID => VInt (guildid r)
  | _COLUMN_NAME_DAILY_CAN_POST => of_bool (dailycanpost r)
  | _COLUMN_NAME_DAILY_CHANNEL_ID => of_int (dailychannelid r)
  | _COLUMN_NAME_DAILY_LATEST_MESSAGE_ID => of_int (dailylatestmessageid r)
  | _COLUMN_NAME_USE_PAGINATION => of_bool (usepagination r)
  | _COLUMN_NAME_PREFIX => of_str (prefix r)
  | _COLUMN_NAME_DAILY_CHANGE_MODE => of_int (dailychangemode r)
  | _COLUMN_NAME_DAILY_NOTIFY_ID => of_int (dailynotifyid r)
  | _COLUMN_NAME_DAILY_NOTIFY_TYPE => of_int (dailynotifytype r)
  | _COLUMN_NAME_DAILY_LATEST_MESSAGE_CREATED_AT =>
      of_time (dailylatestmessagecreatedate r)
  | _COLUMN_NAME_DAILY_LATEST_MESSAGE_MODIFIED_AT =>
      of_time (dailylatestmessagemodifydate r)
  | _COLUMN_NAME_BOT_NEWS_CHANNEL_ID => of_int (botnewschannelid r)
  end.

(** [SET column = value] on one row; [None] when the value does not have
    the column's type (the key itself is never assigned). *)
Definition set_column (c : Column) (v : Value) (r : Row) : option Row :=
  let '(mk_row g p up cp ch lm cm ni nt ca ma bn) := r in
  match c with
  | _COLUMN_NAME_GUILD_ID => None
  | _COLUMN_NAME_DAILY_CAN_POST =>
      x ← as_bool v; Some (mk_row g p up x ch lm cm ni nt ca ma bn)
  | _COLUMN_NAME_DAILY_CHANNEL_ID =>
      x ← as_int v; Some (mk_row g p up cp x lm cm ni nt ca ma bn)
  | _COLUMN_NAME_DAILY_LATEST_MESSAGE_ID =>
      x ← as_int v; Some (mk_row g p up cp ch x cm ni nt ca ma bn)
  | _COLUMN_NAME_USE_PAGINATION =>
      x ← as_bool v; Some (mk_row g p x cp ch lm cm ni nt ca ma bn)
  | _COLUMN_NAME_PREFIX =>
      x ← as_str v; Some (mk_row g x up cp ch lm cm ni nt ca ma bn)
  | _COLUMN_NAME_DAILY_CHANGE_MODE =>
      x ← as_int v; Some (mk_row g p up cp ch lm x ni nt ca ma bn)
  | _COLUMN_NAME_DAILY_NOTIFY_ID =>
      x ← as_int v; Some (mk_row g p up cp ch lm cm x nt ca ma bn)
  | _COLUMN_NAME_DAILY_NOTIFY_TYPE =>
      x ← as_int v; Some (mk_row g p up cp ch lm cm ni x ca ma bn)
  | _COLUMN_NAME_DAILY_LATEST_MESSAGE_CREATED_AT =>
      x ← as_time v; Some (mk_row g p up cp ch lm cm ni nt x ma bn)
  | _COLUMN_NAME_DAILY_LATEST_MESSAGE_MODIFIED_AT =>
      x ← as_time v; Some (mk_row g p up cp ch lm cm ni nt ca x bn)
  | _COLUMN_NAME_BOT_NEWS_CHANNEL_ID =>
      x ← as_int v; Some (mk_row g p up cp ch lm cm ni nt ca ma x)
  end.

(** A settings dict: column name to new value, in insertion order. *)
Definition Settings : Type := list (Column * Value).

Fixpoint settings_get (settings : Settings) (c : Column) : option Value :=
  match settings with
  | [] => None
  | (c', v) :: r => if decide (c = c') then Some v else settings_get r c
  end.

Fixpoint set_columns (settings : Settings) (r : Row) : option Row :=
  match settings with
  | [] => Some r
  | (c, v) :: rest => r' ← set_column c v r; set_columns rest r'
  end.

(** ** The Persistence Gateway *)

(** The three shapes of write statement the module sends: the INSERT of a
    default row, the UPDATE built by [_db_update_server_settings] and the
    DELETE of a guild's row. *)
Inductive Statement : Type :=
  | INSERT (guild : Z) (change_mode : Value)
  | UPDATE (settings : Settings) (guild : option Z)
  | DELETE (guild : Z).

(** The row an INSERT of (guildid, dailychangemode) creates: the other
    columns are unset. *)
Definition inserted_row (guild : Z) (change_mode : option Z) : Row :=
  mk_row guild None None None None None change_mode None None None None None.

Definition has_row (guild : Z) (table : list Row) : bool :=
  existsb (fun r => guildid r =? guild) table.

Fixpoint update_rows (settings : Settings) (guild : Z) (table : list Row)
  : option (list Row) :=
  match table with
  | [] => Some []
  | r :: rest =>
      r' ← (if guildid r =? guild then set_columns settings r else Some r);
      rest' ← update_rows settings guild rest;
      Some (r' :: rest')
  end.

(** Modelled from the spec: the Persistence Gateway (module [database],
    section 6) is not among the sources.  [executeWrite] reports success as a
    boolean and [fetchRows] returns rows; a call that fails at the Gateway
    gives [false], respectively no rows, and leaves the table as it was
    (section 7).  The guild id is the primary key, so inserting a second row
    for a guild fails; an UPDATE or DELETE that matches no row succeeds. *)
Definition run_statement (s : Statement) (table : list Row) : option (list Row) :=
  match s with
  | INSERT guild change_mode =>
      if has_row guild table then None
      else cm ← as_int change_mode; Some (table ++ [inserted_row guild cm])%list
  | UPDATE settings (Some guild) => update_rows settings guild table
  | UPDATE settings None => Some table
  | DELETE guild => Some (filter (fun r => guildid r ≠ guild) table)
  end.

(** Modelled from the spec: the state of the Gateway.  [faults] scripts the
    outcome of the coming calls, one entry per call, in order ([false]: the
    call fails at the Gateway; no entry: it goes through); [journal] keeps
    every write statement sent, with its outcome. *)
Record Gateway : Type := mk_gateway {
  table : list Row;
  faults : list bool;
  journal : list (Statement * bool)
}.

(** The module's coroutines: a computation over the Gateway that returns or
    raises. *)
Definition M (A : Type) : Type := Gateway → Result A * Gateway.

#[global] Instance M_ret : MRet M := λ A a g, (Ok a, g).

#[global] Instance M_bind : MBind M := λ A B f m g,
  match m g with
  | (Ok a, g') => f a g'
  | (Raise e, g') => (Raise e, g')
  end.

Definition raise {A : Type} (e : PyError) : M A := λ g, (Raise e, g).

(** Modelled from the spec: [db.try_execute(query, args)], the Gateway's
    [executeWrite]. *)
Definition try_execute (s : Statement) : M bool := λ g,
  let ok := hd true (faults g) in
  match (if ok then run_statement s (table g) else None) with
  | Some table' =>
      (Ok true, mk_gateway table' (tl (faults g)) (journal g ++ [(s, true)])%list)
  | None =>
      (Ok false, mk_gateway (table g) (tl (faults g)) (journal g ++ [(s, false)])%list)
  end.

(** Modelled from the spec: [db.fetchall(query, args)], the Gateway's
    [fetchRows], for [SELECT ... FROM serversettings] with or without
    [WHERE guildid = $1]. *)
Definition fetchall (guild : option Z) : M (list Row) := λ g,
  let ok := hd true (faults g) in
  let rows :=
    match guild with
    | Some i => filter (fun r => guildid r = i) (table g)
    | None => table g
    end in
  (Ok (if ok then rows else []),
   mk_gateway (table g) (tl (faults g)) (journal g)).

(** ** Utilities *)

Definition _db_get_server_settings (guild_id : option Z) : M (list Row) :=
  records ← fetchall guild_id;
  match records with
  | [] => mret []
  | _ => mret records
  end.

Definition _db_get_server_setting (guild_id : option Z) : M (option Row) :=
  settings ← _db_get_server_settings guild_id;
  match settings with
  | setting :: _ => mret (Some setting)
  | [] => mret None
  end.

Definition _db_update_server_settings (guild_id : option Z) (settings : Settings)
  : M bool :=
  match settings with
  | [] => mret true
  | _ => try_execute (UPDATE settings guild_id)
  end.

(** ** DB functions *)

Definition db_get_has_settings (guild_id : Z) : M bool :=
  results ← _db_get_server_settings (Some guild_id);
  match results with
  | [] => mret false
  | _ => mret true
  end.

Definition db_create_server_settings (guild_id : Z) : M bool :=
  has ← db_get_has_settings guild_id;
  if has : bool then mret true
  else
    try_execute
      (INSERT guild_id (VInt (change_mode_value DEFAULT_AUTODAILY_CHANGE_MODE))).

Definition db_delete_server_settings (guild_id : Z) : M bool :=
  try_execute (DELETE guild_id).

Definition db_get_prefix (guild_id : Z) : M (option string) :=
  _ ← db_create_server_settings guild_id;
  result ← _db_get_server_setting (Some guild_id);
  match result with
  | Some row => mret (str_or_None (prefix row))
  | None => raise TypeError
  end.

(** The module [settings] ([app_settings]) is configuration outside the
    sources; its two constants are taken as given. *)
Class AppSettings : Type := {
  DEFAULT_PREFIX : string;
  DEFAULT_USE_EMOJI_PAGINATOR : bool
}.

Definition get_prefix_or_default `{AppSettings} (guild_id : Z) : M string :=
  result ← db_get_prefix guild_id;
  match result with
  | None => mret DEFAULT_PREFIX
  | Some s => if String.eqb (lower s) "none" then mret DEFAULT_PREFIX else mret s
  end.

(** [x is not None] *)
Definition is_set {A : Type} (x : option A) : bool :=
  match x with
  | Some _ => true
  | None => false
  end.

(** The module [pss_assert] is outside the sources: its check
    [valid_parameter_value(value, name, min_length=1, allowed_values=...)]
    is taken as given; it returns, or raises the error it answers with. *)
Class PssAssert : Type := {
  valid_parameter_value :
    string → string → option (list string) → option PyError
}.

(** [not current or new != current] on strings. *)
Definition str_differs (current : option string) (new : string) : bool :=
  negb (truthy_str current) ||
  match current with
  | Some c => negb (String.eqb new c)
  | None => true
  end.

Definition db_update_prefix (guild_id : Z) (prefix : string) : M bool :=
  current_prefix ← db_get_prefix guild_id;
  if str_differs current_prefix prefix then
    _db_update_server_settings (Some guild_id) [ (_COLUMN_NAME_PREFIX, VStr prefix) ]
  else mret true.

Definition db_reset_prefix (guild_id : Z) : M bool :=
  current_prefix ← db_get_prefix guild_id;
  match current_prefix with
  | Some _ =>
      _db_update_server_settings (Some guild_id) [ (_COLUMN_NAME_PREFIX, VNone) ]
  | None => mret true
  end.

Definition reset_prefix (guild_id : Z) : M bool := db_reset_prefix guild_id.

Definition set_prefix (guild_id : Z) (prefix : string) : M bool :=
  _ ← db_create_server_settings guild_id;
  db_update_prefix guild_id prefix.

Definition db_get_use_pagination `{AppSettings} (guild : option Guild) : M bool :=
  match guild with
  | Some guild =>
      settings ← _db_get_server_settings (Some (Guild_id guild));
      match settings with
      | setting :: _ =>
          match usepagination setting with
          | None => mret true
          | Some result => mret result
          end
      | [] => mret DEFAULT_USE_EMOJI_PAGINATOR
      end
  | None => mret DEFAULT_USE_EMOJI_PAGINATOR
  end.

Definition get_pagination_mode `{AppSettings} (guild : option Guild) : M string :=
  use_pagination_mode ← db_get_use_pagination guild;
  mret (convert_to_on_off (Some use_pagination_mode)).

(** [str.startswith(' ')] *)
Definition startswith_space (s : string) : bool :=
  match s with
  | String c _ => Ascii.eqb c " "%char
  | EmptyString => false
  end.

(** [str.lstrip()]: drops the leading whitespace.  On the UTF-8 bytes of the
    string: the ASCII whitespace (tab to carriage return, the four
    separators 28 to 31 and the space) and the encodings of the other
    characters Python counts as whitespace (U+0085, U+00A0, U+1680, U+2000
    to U+200A, U+2028, U+2029, U+202F, U+205F, U+3000). *)
Definition is_ascii_space (c : ascii) : bool :=
  let n := N_of_ascii c in
  ((9 <=? n) && (n <=? 13) || (28 <=? n) && (n <=? 32))%N.

Fixpoint lstrip (s : string) : string :=
  match s with
  | EmptyString => EmptyString
  | String c r =>
      if is_ascii_space c then lstrip r
      else
        match r with
        | String d r' =>
            let c := N_of_ascii c in
            let d := N_of_ascii d in
            if ((c =? 194) && ((d =? 133) || (d =? 160)))%N then lstrip r'
            else
              match r' with
              | String e r'' =>
                  let e := N_of_ascii e in
                  if ((c =? 225) && (d =? 154) && (e =? 128)
                      || (c =? 226) && (d =? 128)
                         && ((128 <=? e) && (e <=? 138)
                             || (e =? 168) || (e =? 169) || (e =? 175))
                      || (c =? 226) && (d =? 129) && (e =? 159)
                      || (c =? 227) && (d =? 128) && (e =? 128))%N
                  then lstrip r''
                  else s
              | EmptyString => s
              end
        | EmptyString => s
        end
  end.

Fixpoint fix_prefixes_loop (all_prefixes : list Row) (all_success : bool) : M bool :=
  match all_prefixes with
  | [] => mret all_success
  | row :: rest =>
      let guild_id := guildid row in
      if (negb (guild_id =? 0) && truthy_str (prefix row)
          && startswith_space (default "" (prefix row)))%bool
      then
        let new_prefix := lstrip (default "" (prefix row)) in
        success ←
          (if negb (String.eqb new_prefix "")
           then set_prefix guild_id new_prefix
           else reset_prefix guild_id);
        fix_prefixes_loop rest (if success : bool then all_success else false)
      else fix_prefixes_loop rest all_success
  end.

Definition fix_prefixes : M bool :=
  all_prefixes ← _db_get_server_settings None;
  fix_prefixes_loop all_prefixes true.

(** ** Classes *)

Module AutoDailySettings.

(** The instance attributes.  [__delete_on_change] is not set by
    [__init__]: it exists only once a method has assigned it. *)
Record t : Type := mk {
  __can_post : option bool;
  __channel : option TextChannel;
  __change_mode : Z;
  __guild : option Guild;
  __latest_message_id : option Z;
  __latest_message_created_at : option datetime;
  __latest_message_modified_at : option datetime;
  __notify : option Mention;
  __notify_type : option AutoDailyNotifyType;
  __delete_on_change : option (option Z)
}.

Definition __init__ (guild : option Guild) (channel : option TextChannel)
    (can_post : option bool) (latest_message_id : option Z)
    (change_mode : option Z) (notify : option Mention)
    (latest_message_created_at latest_message_modified_at : option datetime)
  : t :=
  {| __can_post := can_post;
     __channel := channel;
     __change_mode :=
       match change_mode with
       | Some n => if n =? 0 then change_mode_value POST_NEW else n
       | None => change_mode_value POST_NEW
       end;
     __guild := guild;
     __latest_message_id := int_or_None latest_message_id;
     __latest_message_created_at := latest_message_created_at;
     __latest_message_modified_at := latest_message_modified_at;
     __notify := notify;
     __notify_type :=
       match notify with
       | Some (MentionMember _) => Some USER
       | Some (MentionRole _) => Some ROLE
       | _ => None
       end;
     __delete_on_change := None |}.

(** Properties *)
Definition can_post (self : t) : option bool := __can_post self.
Definition change_mode (self : t) : Z := __change_mode self.
Definition channel (self : t) : option TextChannel := __channel self.

Definition channel_id (self : t) : option Z :=
  match channel self with
  | Some c => Some (TextChannel_id c)
  | None => None
  end.

Definition guild (self : t) : option Guild := __guild self.

Definition guild_id (self : t) : option Z :=
  match guild self with
  | Some g => Some (Guild_id g)
  | None => None
  end.

Definition latest_message_id (self : t) : option Z :=
  __latest_message_id self.
Definition latest_message_created_at (self : t) : option datetime :=
  __latest_message_created_at self.
Definition latest_message_modified_at (self : t) : option datetime :=
  __latest_message_modified_at self.
Definition notify (self : t) : option Mention := __notify self.

Definition notify_id (self : t) : option Z :=
  match notify self with
  | Some n => Some (mention_id n)
  | None => None
  end.

Definition notify_type (self : t) : option AutoDailyNotifyType :=
  match notify self with
  | Some (MentionRole _) => Some ROLE
  | Some (MentionMember _) | Some (MentionUser _) => Some USER
  | None => None
  end.

(** Attribute assignments [self.__x = v]. *)
Definition with_channel (v : option TextChannel) (self : t) : t :=
  mk (__can_post self) v (__change_mode self) (__guild self)
     (__latest_message_id self) (__latest_message_created_at self)
     (__latest_message_modified_at self) (__notify self)
     (__notify_type self) (__delete_on_change self).

Definition with_change_mode (v : Z) (self : t) : t :=
  mk (__can_post self) (__channel self) v (__guild self)
     (__latest_message_id self) (__latest_message_created_at self)
     (__latest_message_modified_at self) (__notify self)
     (__notify_type self) (__delete_on_change self).

Definition with_latest_message_id (v : option Z) (self : t) : t :=
  mk (__can_post self) (__channel self) (__change_mode self) (__guild self)
     v (__latest_message_created_at self)
     (__latest_message_modified_at self) (__notify self)
     (__notify_type self) (__delete_on_change self).

Definition with_latest_message_created_at (v : option datetime) (self : t) : t :=
  mk (__can_post self) (__channel self) (__change_mode self) (__guild self)
     (__latest_message_id self) v
     (__latest_message_modified_at self) (__notify self)
     (__notify_type self) (__delete_on_change self).

Definition with_latest_message_modified_at (v : option datetime) (self : t) : t :=
  mk (__can_post self) (__channel self) (__change_mode self) (__guild self)
     (__latest_message_id self) (__latest_message_created_at self)
     v (__notify self)
     (__notify_type self) (__delete_on_change self).

Definition with_notify (v : option Mention) (self : t) : t :=
  mk (__can_post self) (__channel self) (__change_mode self) (__guild self)
     (__latest_message_id self) (__latest_message_created_at self)
     (__latest_message_modified_at self) v
     (__notify_type self) (__delete_on_change self).

Definition with_delete_on_change (v : option Z) (self : t) : t :=
  mk (__can_post self) (__channel self) (__change_mode self) (__guild self)
     (__latest_message_id self) (__latest_message_created_at self)
     (__latest_message_modified_at self) (__notify self)
     (__notify_type self) (Some v).

Definition reset (self : t) : M (bool * t) :=
  let settings := [
    (_COLUMN_NAME_DAILY_CHANNEL_ID, VNone);
    (_COLUMN_NAME_DAILY_LATEST_MESSAGE_ID, VNone);
    (_COLUMN_NAME_DAILY_CHANGE_MODE,
       VInt (change_mode_value DEFAULT_AUTODAILY_CHANGE_MODE));
    (_COLUMN_NAME_DAILY_NOTIFY_ID, VNone);
    (_COLUMN_NAME_DAILY_NOTIFY_TYPE, VNone);
    (_COLUMN_NAME_DAILY_LATEST_MESSAGE_CREATED_AT, VNone);
    (_COLUMN_NAME_DAILY_LATEST_MESSAGE_MODIFIED_AT, VNone) ] in
  success ← _db_update_server_settings (guild_id self) settings;
  if success : bool then
    let self := with_channel None self in
    let self := with_delete_on_change None self in
    let self := with_notify None self in
    let self := with_latest_message_id None self in
    let self := with_latest_message_created_at None self in
    let self := with_latest_message_modified_at None self in
    mret (success, self)
  else mret (success, self).

Definition reset_channel (self : t) : M (bool * t) :=
  let settings := [
    (_COLUMN_NAME_DAILY_CHANNEL_ID, VNone);
    (_COLUMN_NAME_DAILY_LATEST_MESSAGE_ID, VNone);
    (_COLUMN_NAME_DAILY_LATEST_MESSAGE_CREATED_AT, VNone);
    (_COLUMN_NAME_DAILY_LATEST_MESSAGE_MODIFIED_AT, VNone) ] in
  success ← _db_update_server_settings (guild_id self) settings;
  if success : bool then
    let self := with_channel None self in
    let self := with_latest_message_id None self in
    let self := with_latest_message_created_at None self in
    let self := with_latest_message_modified_at None self in
    mret (success, self)
  else mret (success, self).

Definition reset_daily_delete_on_change (self : t) : M (bool * t) :=
  let settings := [
    (_COLUMN_NAME_DAILY_CHANGE_MODE,
       VInt (change_mode_value DEFAULT_AUTODAILY_CHANGE_MODE)) ] in
  success ← _db_update_server_settings (guild_id self) settings;
  if success : bool then mret (success, with_delete_on_change None self)
  else mret (success, self).

Definition reset_latest_message (self : t) : M (bool * t) :=
  let settings := [
    (_COLUMN_NAME_DAILY_LATEST_MESSAGE_ID, VNone);
    (_COLUMN_NAME_DAILY_LATEST_MESSAGE_CREATED_AT, VNone);
    (_COLUMN_NAME_DAILY_LATEST_MESSAGE_MODIFIED_AT, VNone) ] in
  success ← _db_update_server_settings (guild_id self) settings;
  if success : bool then
    let self := with_latest_message_id None self in
    let self := with_latest_message_created_at None self in
    let self := with_latest_message_modified_at None self in
    mret (success, self)
  else mret (success, self).

Definition reset_notify (self : t) : M (bool * t) :=
  let settings := [
    (_COLUMN_NAME_DAILY_NOTIFY_ID, VNone);
    (_COLUMN_NAME_DAILY_NOTIFY_TYPE, VNone) ] in
  success ← _db_update_server_settings (guild_id self) settings;
  if success : bool then mret (success, with_notify None self)
  else mret (success, self).

(** [not self.x_id or new_id != self.x_id] *)
Definition differs (current : option Z) (new : Z) : bool :=
  negb (truthy_int current) ||
  match current with
  | Some c => negb (new =? c)
  | None => true
  end.

Definition set_channel (self : t) (channel : TextChannel) : M (bool * t) :=
  if differs (channel_id self) (TextChannel_id channel) then
    let settings := [
      (_COLUMN_NAME_DAILY_CHANNEL_ID, VInt (TextChannel_id channel));
      (_COLUMN_NAME_DAILY_LATEST_MESSAGE_ID, VNone) ] in
    success ← _db_update_server_settings (guild_id self) settings;
    if success : bool then mret (success, with_channel (Some channel) self)
    else mret (success, self)
  else mret (true, self).

(** [settings[column]]: KeyError when the dict has no such key. *)
Definition settings_item (settings : Settings) (c : Column) : M Value :=
  match settings_get settings c with
  | Some v => mret v
  | None => raise KeyError
  end.

Definition set_latest_message (self : t) (message : option Message)
  : M (bool * t) :=
  let settings : Settings :=
    match message with
    | Some message =>
        let new_day :=
          match latest_message_created_at self with
          | None => true
          | Some stored => negb (day (Message_created_at message) =? day stored)
          end in
        let modified_at :=
          if new_day then Message_created_at message
          else default (Message_created_at message) (Message_edited_at message) in
        if differs (latest_message_id self) (Message_id message) then
          ([ (_COLUMN_NAME_DAILY_LATEST_MESSAGE_ID, VInt (Message_id message));
             (_COLUMN_NAME_DAILY_LATEST_MESSAGE_MODIFIED_AT, VTime modified_at) ]
           ++
           (if new_day then
              [ (_COLUMN_NAME_DAILY_LATEST_MESSAGE_CREATED_AT,
                 VTime (Message_created_at message)) ]
            else []))%list
        else []
    | None =>
        [ (_COLUMN_NAME_DAILY_LATEST_MESSAGE_ID, VNone);
          (_COLUMN_NAME_DAILY_LATEST_MESSAGE_MODIFIED_AT, VNone);
          (_COLUMN_NAME_DAILY_LATEST_MESSAGE_CREATED_AT, VNone) ]
    end in
  match settings with
  | [] => mret (true, self)
  | _ =>
      success ← _db_update_server_settings (guild_id self) settings;
      if success : bool then
        id ← settings_item settings _COLUMN_NAME_DAILY_LATEST_MESSAGE_ID;
        let self := with_latest_message_id (default None (as_int id)) self in
        modified ←
          settings_item settings _COLUMN_NAME_DAILY_LATEST_MESSAGE_MODIFIED_AT;
        let self :=
          with_latest_message_modified_at (default None (as_time modified)) self in
        match settings_get settings _COLUMN_NAME_DAILY_LATEST_MESSAGE_CREATED_AT with
        | Some created =>
            mret (success,
                  with_latest_message_created_at
                    (default None (as_time created)) self)
        | None => mret (success, self)
        end
      else mret (success, self)
  end.

Definition set_notify (self : t) (notify : PyObject) : M (bool * t) :=
  match notify with
  | PyNone => mret (false, self)
  | PyOther false _ => mret (false, self)
  | PyOther true None => raise AttributeError
  | PyOther true (Some _) => raise TypeError
  | PyMention n =>
      let new_id := mention_id n in
      let new_type :=
        match n with
        | MentionRole _ => ROLE
        | MentionMember _ | MentionUser _ => USER
        end in
      if differs (notify_id self) new_id then
        let settings := [
          (_COLUMN_NAME_DAILY_NOTIFY_ID, VInt new_id);
          (_COLUMN_NAME_DAILY_NOTIFY_TYPE,
             of_int (convert_from_autodaily_notify_type (Some new_type))) ] in
        success ← _db_update_server_settings (guild_id self) settings;
        if success : bool then mret (success, with_notify (Some n) self)
        else mret (success, self)
      else mret (true, self)
  end.

Definition toggle_change_mode (self : t) : M (bool * t) :=
  let int_value := change_mode self in
  match AutoDailyChangeMode_call ((int_value mod 3) + 1) with
  | Raise e => raise e
  | Ok new_value =>
      let settings := [
        (_COLUMN_NAME_DAILY_CHANGE_MODE, VInt (change_mode_value new_value)) ] in
      success ← _db_update_server_settings (guild_id self) settings;
      if success : bool then
        mret (success, with_change_mode (change_mode_value new_value) self)
      else mret (success, self)
  end.

End AutoDailySettings.

Module GuildSettings.

Record t : Type := mk {
  __guild_id : Z;
  __prefix : option string;
  __use_pagination : option bool;
  __bot_news_channel_id : option Z;
  __guild : option Guild;
  __bot_news_channel : option TextChannel;
  __autodaily_settings : AutoDailySettings.t
}.

Definition __init__ (bot : Bot) (row : Row) : t :=
  let guild_id := guildid row in
  let bot_news_channel_id := botnewschannelid row in
  let daily_channel_id := dailychannelid row in
  let can_post_daily := dailycanpost row in
  let daily_latest_message_id := dailylatestmessageid row in
  let daily_post_mode := dailychangemode row in
  let daily_notify_id := dailynotifyid row in
  let daily_notify_type := convert_to_autodaily_notify_type (dailynotifytype row) in
  let daily_latest_message_created_at := dailylatestmessagecreatedate row in
  let daily_latest_message_modified_at := dailylatestmessagemodifydate row in
  let channel := get_channel bot daily_channel_id in
  let guild := get_guild bot guild_id in
  let bot_news_channel := get_channel bot bot_news_channel_id in
  let notify :=
    match daily_notify_id, daily_notify_type, guild with
    | Some id, Some type, Some g =>
        if id =? 0 then None
        else
          match type with
          | USER => MentionMember <$> get_member g id
          | ROLE => MentionRole <$> get_role g id
          end
    | _, _, _ => None
    end in
  {| __guild_id := guild_id;
     __prefix := prefix row;
     __use_pagination := usepagination row;
     __bot_news_channel_id := bot_news_channel_id;
     __guild := guild;
     __bot_news_channel := bot_news_channel;
     __autodaily_settings :=
       AutoDailySettings.__init__ guild channel can_post_daily
         daily_latest_message_id daily_post_mode notify
         daily_latest_message_created_at daily_latest_message_modified_at |}.

(** Properties *)
Definition autodaily (self : t) : AutoDailySettings.t :=
  __autodaily_settings self.
Definition bot_news_channel (self : t) : option TextChannel :=
  __bot_news_channel self.
Definition bot_news_channel_id (self : t) : option Z :=
  __bot_news_channel_id self.
Definition guild (self : t) : option Guild := __guild self.
Definition id (self : t) : Z := __guild_id self.

Definition prefix `{AppSettings} (self : t) : string :=
  if truthy_str (__prefix self) then default DEFAULT_PREFIX (__prefix self)
  else DEFAULT_PREFIX.

Definition use_pagination `{AppSettings} (self : t) : bool :=
  match __use_pagination self with
  | None => DEFAULT_USE_EMOJI_PAGINATOR
  | Some b => b
  end.

Definition pretty_use_pagination `{AppSettings} (self : t) : string :=
  convert_to_on_off (Some (use_pagination self)).

(** Attribute assignments. *)
Definition with_prefix (v : option string) (self : t) : t :=
  mk (__guild_id self) v (__use_pagination self) (__bot_news_channel_id self)
     (__guild self) (__bot_news_channel self) (__autodaily_settings self).

Definition with_use_pagination (v : option bool) (self : t) : t :=
  mk (__guild_id self) (__prefix self) v (__bot_news_channel_id self)
     (__guild self) (__bot_news_channel self) (__autodaily_settings self).

Definition with_bot_news_channel_id (v : option Z) (self : t) : t :=
  mk (__guild_id self) (__prefix self) (__use_pagination self) v
     (__guild self) (__bot_news_channel self) (__autodaily_settings self).

Definition with_bot_news_channel (v : option TextChannel) (self : t) : t :=
  mk (__guild_id self) (__prefix self) (__use_pagination self)
     (__bot_news_channel_id self) (__guild self) v
     (__autodaily_settings self).

Definition with_autodaily (v : AutoDailySettings.t) (self : t) : t :=
  mk (__guild_id self) (__prefix self) (__use_pagination self)
     (__bot_news_channel_id self) (__guild self) (__bot_news_channel self) v.

Definition reset_bot_news_channel (self : t) : M (bool * t) :=
  if truthy_int (__bot_news_channel_id self) then
    let settings := [ (_COLUMN_NAME_BOT_NEWS_CHANNEL_ID, VNone) ] in
    success ← _db_update_server_settings (Some (__guild_id self)) settings;
    if success : bool then
      let self := with_bot_news_channel_id None self in
      let self := with_bot_news_channel None self in
      mret (success, self)
    else mret (success, self)
  else mret (true, self).

Definition reset_prefix (self : t) : M (bool * t) :=
  if truthy_str (__prefix self) then
    let settings := [ (_COLUMN_NAME_PREFIX, VNone) ] in
    success ← _db_update_server_settings (Some (__guild_id self)) settings;
    if success : bool then mret (success, with_prefix None self)
    else mret (success, self)
  else mret (true, self).

Definition reset_use_pagination (self : t) : M (bool * t) :=
  match __use_pagination self with
  | Some _ =>
      let settings := [ (_COLUMN_NAME_USE_PAGINATION, VNone) ] in
      success ← _db_update_server_settings (Some (__guild_id self)) settings;
      if success : bool then mret (success, with_use_pagination None self)
      else mret (success, self)
  | None => mret (true, self)
  end.

(** The sub-settings object is shared with the entity: what
    [self.autodaily.reset()] changes is seen through [self]. *)
Definition reset (self : t) : M ((bool * bool * bool * bool) * t) :=
  '(success_prefix, self) ← reset_prefix self;
  '(success_pagination, self) ← reset_use_pagination self;
  '(success_autodaily, autodaily') ← AutoDailySettings.reset (autodaily self);
  let self := with_autodaily autodaily' self in
  '(success_bot_channel, self) ← reset_bot_news_channel self;
  mret ((success_prefix, success_pagination, success_autodaily,
         success_bot_channel), self).

Definition set_bot_news_channel (self : t) (channel : option TextChannel)
  : M (bool * t) :=
  match channel with
  | None => raise ValueError
  | Some channel =>
      if AutoDailySettings.differs (__bot_news_channel_id self) (TextChannel_id channel)
      then
        let settings := [
          (_COLUMN_NAME_BOT_NEWS_CHANNEL_ID, VInt (TextChannel_id channel)) ] in
        success ← _db_update_server_settings (Some (__guild_id self)) settings;
        if success : bool then
          let self := with_bot_news_channel_id (Some (TextChannel_id channel)) self in
          let self := with_bot_news_channel (Some channel) self in
          mret (success, self)
        else mret (success, self)
      else mret (true, self)
  end.

Definition set_prefix `{PssAssert} (self : t) (prefix : string) : M (bool * t) :=
  match valid_parameter_value prefix (column_name _COLUMN_NAME_PREFIX) None with
  | Some e => raise e
  | None =>
      if str_differs (__prefix self) prefix then
        let settings := [ (_COLUMN_NAME_PREFIX, VStr prefix) ] in
        success ← _db_update_server_settings (Some (__guild_id self)) settings;
        if success : bool then mret (success, with_prefix (Some prefix) self)
        else mret (success, self)
      else mret (true, self)
  end.

Definition set_use_pagination `{AppSettings} `{PssAssert} (self : t)
    (use_pagination : option string) : M (bool * t) :=
  use_pagination ←
    match use_pagination with
    | None =>
        let use_pagination :=
          match __use_pagination self with
          | None => DEFAULT_USE_EMOJI_PAGINATOR
          | Some b => b
          end in
        mret (Some (negb use_pagination))
    | Some switch =>
        match valid_parameter_value switch "use_pagination"
                (Some (_VALID_PAGINATION_SWITCH_VALUES.*1)) with
        | Some e => raise e
        | None => mret (convert_from_on_off (Some switch))
        end
    end;
  if (negb (is_set (__use_pagination self))
      || bool_decide (use_pagination ≠ __use_pagination self))%bool
  then
    let settings := [ (_COLUMN_NAME_USE_PAGINATION, of_bool use_pagination) ] in
    success ← _db_update_server_settings (Some (id self)) settings;
    if success : bool then mret (success, with_use_pagination use_pagination self)
    else mret (success, self)
  else mret (true, self).

End GuildSettings.

Module GuildSettingsCollection.

(** [self.__data]: guild id to entity. *)
Abbreviation t := (gmap Z GuildSettings.t).

Definition __init__ : t := ∅.

Definition autodaily_settings (self : t) : list AutoDailySettings.t :=
  GuildSettings.autodaily <$> (snd <$> map_to_list self).

Definition create_guild_settings (self : t) (bot : Bot) (guild_id : Z)
  : M (bool * t) :=
  success ← db_create_server_settings guild_id;
  if success : bool then
    new_server_settings ← _db_get_server_settings (Some guild_id);
    match new_server_settings with
    | row :: _ =>
        mret (success, <[guild_id := GuildSettings.__init__ bot row]> self)
    | [] => mret (false, self)
    end
  else mret (success, self).

Definition delete_guild_settings (self : t) (guild_id : Z) : M (bool * t) :=
  success ← db_delete_server_settings guild_id;
  if success : bool then mret (success, delete guild_id self)
  else mret (success, self).

Definition get (self : t) (bot : Bot) (guild_id : Z)
  : M (GuildSettings.t * t) :=
  self ←
    match self !! guild_id with
    | None => '(_, self) ← create_guild_settings self bot guild_id; mret self
    | Some _ => mret self
    end;
  match self !! guild_id with
  | Some guild_settings => mret (guild_settings, self)
  | None => raise KeyError
  end.

(** The order of the values of a Python dict is the order of insertion; a
    [gmap] lists its entries by key.  Statements about the two listings
    below speak of membership only. *)
Definition bot_news_channels (self : t) : list TextChannel :=
  omap (λ kv, GuildSettings.bot_news_channel kv.2) (map_to_list self).

Definition init (self : t) (bot : Bot) : M t :=
  server_settings ← _db_get_server_settings None;
  mret (foldl (λ data row, <[guildid row := GuildSettings.__init__ bot row]> data)
              self server_settings).

End GuildSettingsCollection.

(** [get_prefix(bot, message)] for a message in a guild channel. *)
Definition get_prefix `{AppSettings} (self : gmap Z GuildSettings.t)
    (bot : Bot) (guild_id : Z) : M (string * gmap Z GuildSettings.t) :=
  '(guild_settings, self) ← GuildSettingsCollection.get self bot guild_id;
  mret (GuildSettings.prefix guild_settings, self).

(** What [get_autodaily_settings] collects: with a guild id the entity that
    [GUILD_SETTINGS.get] returns, a GuildSettings; without one the
    sub-settings of the cached entities. *)
Inductive SettingsObject : Type :=
  | GuildSettingsObject (guild_settings : GuildSettings.t)
  | AutoDailySettingsObject (autodaily_settings : AutoDailySettings.t).

(** [obj.latest_message_created_at]: a GuildSettings has no such
    attribute. *)
Definition attr_latest_message_created_at (obj : SettingsObject)
  : Result (option datetime) :=
  match obj with
  | GuildSettingsObject _ => Raise AttributeError
  | AutoDailySettingsObject a => Ok (AutoDailySettings.latest_message_created_at a)
  end.

Fixpoint get_autodaily_settings_loop (utc_now : datetime) (no_post_yet : bool)
    (autodaily_settings_collection result : list SettingsObject)
  : Result (list SettingsObject) :=
  match autodaily_settings_collection with
  | [] => Ok result
  | autodaily_settings :: rest =>
      if no_post_yet then
        match attr_latest_message_created_at autodaily_settings with
        | Raise e => Raise e
        | Ok (Some created) =>
            if day created =? day utc_now
            then get_autodaily_settings_loop utc_now no_post_yet rest result
            else get_autodaily_settings_loop utc_now no_post_yet rest
                   (result ++ [autodaily_settings])%list
        | Ok None =>
            get_autodaily_settings_loop utc_now no_post_yet rest
              (result ++ [autodaily_settings])%list
        end
      else
        get_autodaily_settings_loop utc_now no_post_yet rest
          (result ++ [autodaily_settings])%list
  end.

(** [utc_now] is what [util.get_utcnow()] answers at the call. *)
Definition get_autodaily_settings (self : gmap Z GuildSettings.t) (bot : Bot)
    (utc_now : datetime) (guild_id : option Z) (no_post_yet : bool)
  : M (list SettingsObject * gmap Z GuildSettings.t) :=
  '(autodaily_settings_collection, self) ←
    (if truthy_int guild_id then
       '(guild_settings, self) ←
         GuildSettingsCollection.get self bot (default 0 guild_id);
       mret ([GuildSettingsObject guild_settings], self)
     else
       mret (AutoDailySettingsObject <$>
               filter (λ settings, is_set (AutoDailySettings.channel settings) = true)
                      (GuildSettingsCollection.autodaily_settings self),
             self));
  match get_autodaily_settings_loop utc_now no_post_yet
          autodaily_settings_collection [] with
  | Ok result => mret (result, self)
  | Raise e => raise e
  end.

(** [guild not in current_guilds]: discord's guilds compare by id. *)
Definition guild_not_in (guild : Guild) (current_guilds : list Guild) : bool :=
  negb (existsb (λ g, Guild_id g =? Guild_id guild) current_guilds).

Fixpoint clean_up_loop (invalid_guild_ids : list Z) (self : gmap Z GuildSettings.t)
  : M (gmap Z GuildSettings.t) :=
  match invalid_guild_ids with
  | [] => mret self
  | invalid_guild_id :: rest =>
      '(_, self) ← GuildSettingsCollection.delete_guild_settings self invalid_guild_id;
      clean_up_loop rest self
  end.

(** [guild_settings.guild is None or guild_settings.guild not in current_guilds] *)
Definition is_invalid (current_guilds : list Guild)
    (guild_settings : GuildSettings.t) : bool :=
  match GuildSettings.guild guild_settings with
  | None => true
  | Some guild => guild_not_in guild current_guilds
  end.

Definition clean_up_invalid_server_settings (self : gmap Z GuildSettings.t)
    (bot : Bot) : M (gmap Z GuildSettings.t) :=
  let current_guilds := bot_guilds bot in
  let invalid_guild_ids :=
    GuildSettings.id <$>
      filter (λ guild_settings, is_invalid current_guilds guild_settings = true)
             ((map_to_list self).*2) in
  clean_up_loop invalid_guild_ids self.

Definition db_get_daily_latest_message_create_date (guild_id : Z)
  : M (option datetime) :=
  result ← _db_get_server_setting (Some guild_id);
  match result with
  | Some row => mret (dailylatestmessagecreatedate row)
  | None => mret None
  end.

Definition db_get_daily_latest_message_id (guild_id : Z) : M (option Z) :=
  result ← _db_get_server_setting (Some guild_id);
  match result with
  | Some row => mret (int_or_None (dailylatestmessageid row))
  | None => mret None
  end.

(** The module [utility] is outside the sources: the SQL condition that
    [util.db_get_where_string(column, column_value=value)] builds is kept as
    the test it makes on a row, and [util.db_get_where_and_string] as the
    conjunction of the tests. *)
Class Utility : Type := {
  db_get_where_string : Column → Value → Row → bool
}.

(** Modelled from the spec: [db.fetchall(query, args)] for a SELECT with
    further conditions in its WHERE clause; as [fetchall], on the rows that
    pass every condition. *)
Definition fetchall_where (guild : option Z) (wheres : list (Row → bool))
  : M (list Row) := λ g,
  let ok := hd true (faults g) in
  let rows :=
    match guild with
    | Some i => filter (fun r => guildid r = i) (table g)
    | None => table g
    end in
  (Ok (if ok then filter (λ r, forallb (λ w, w r) wheres = true) rows else []),
   mk_gateway (table g) (tl (faults g)) (journal g)).

(** [_db_get_server_settings] with [additional_wheres]. *)
Definition _db_get_server_settings_where (guild_id : option Z)
    (additional_wheres : list (Row → bool)) : M (list Row) :=
  records ← fetchall_where guild_id additional_wheres;
  match records with
  | [] => mret []
  | _ => mret records
  end.

(** The nine-tuples of [db_get_autodaily_settings]. *)
Record AutoDailyTuple : Type := mk_tuple {
  tuple_guild_id : option Z;
  tuple_channel_id : option Z;
  tuple_can_post : option bool;
  tuple_latest_message_id : option Z;
  tuple_change_mode : option Z;
  tuple_notify_id : option Z;
  tuple_notify_type : option AutoDailyNotifyType;
  tuple_latest_message_create_date : option datetime;
  tuple_latest_message_modify_date : option datetime
}.

Definition db_get_autodaily_settings `{Utility} (guild_id : option Z)
    (can_post : option bool) (only_guild_ids no_post_yet : bool)
  : M (list AutoDailyTuple) :=
  let wheres :=
    ([ λ r, is_set (dailychannelid r) || is_set (dailynotifyid r) ]
     ++ match guild_id with
        | Some i => [ db_get_where_string _COLUMN_NAME_GUILD_ID (VInt i) ]
        | None => []
        end
     ++ match can_post with
        | Some b => [ db_get_where_string _COLUMN_NAME_DAILY_CAN_POST (VBool b) ]
        | None => []
        end
     ++ (if no_post_yet
         then [ db_get_where_string _COLUMN_NAME_DAILY_LATEST_MESSAGE_CREATED_AT VNone ]
         else []))%list in
  settings ← _db_get_server_settings_where guild_id wheres;
  let result :=
    (λ setting,
       if only_guild_ids
       then mk_tuple (Some (guildid setting)) None None None None None None None None
       else mk_tuple (Some (guildid setting)) (dailychannelid setting)
              (dailycanpost setting) (dailylatestmessageid setting)
              (dailychangemode setting) (dailynotifyid setting)
              (convert_to_autodaily_notify_type (dailynotifytype setting))
              (dailylatestmessagecreatedate setting)
              (dailylatestmessagemodifydate setting)) <$> settings in
  match result with
  | [] =>
      if truthy_int guild_id
      then mret [ mk_tuple guild_id None None None None None None None None ]
      else mret [ mk_tuple None None None None None None None None None ]
  | _ => mret result
  end.

(** The body shared by the five [db_reset_autodaily_...] functions: the
    first tuple of the current settings (a tuple is never [None]) decides,
    and without a tuple the function returns true. *)
Definition db_reset_autodaily `{Utility} (guild_id : Z) (settings : Settings)
  : M bool :=
  current_autodaily_settings ← db_get_autodaily_settings (Some guild_id) None false false;
  match current_autodaily_settings with
  | current_setting :: _ => _db_update_server_settings (Some guild_id) settings
  | [] => mret true
  end.

Definition db_reset_autodaily_channel `{Utility} (guild_id : Z) : M bool :=
  db_reset_autodaily guild_id [
    (_COLUMN_NAME_DAILY_CHANNEL_ID, VNone);
    (_COLUMN_NAME_DAILY_LATEST_MESSAGE_ID, VNone);
    (_COLUMN_NAME_DAILY_LATEST_MESSAGE_CREATED_AT, VNone);
    (_COLUMN_NAME_DAILY_LATEST_MESSAGE_MODIFIED_AT, VNone) ].

Definition db_reset_autodaily_latest_message_id `{Utility} (guild_id : Z) : M bool :=
  db_reset_autodaily guild_id [
    (_COLUMN_NAME_DAILY_LATEST_MESSAGE_ID, VNone);
    (_COLUMN_NAME_DAILY_LATEST_MESSAGE_CREATED_AT, VNone);
    (_COLUMN_NAME_DAILY_LATEST_MESSAGE_MODIFIED_AT, VNone) ].

Definition db_reset_autodaily_mode `{Utility} (guild_id : Z) : M bool :=
  db_reset_autodaily guild_id [
    (_COLUMN_NAME_DAILY_CHANGE_MODE,
       VInt (change_mode_value DEFAULT_AUTODAILY_CHANGE_MODE)) ].

Definition db_reset_autodaily_notify `{Utility} (guild_id : Z) : M bool :=
  db_reset_autodaily guild_id [
    (_COLUMN_NAME_DAILY_NOTIFY_ID, VNone);
    (_COLUMN_NAME_DAILY_NOTIFY_TYPE, VNone) ].

Definition db_reset_autodaily_settings `{Utility} (guild_id : Z) : M bool :=
  db_reset_autodaily guild_id [
    (_COLUMN_NAME_DAILY_CHANNEL_ID, VNone);
    (_COLUMN_NAME_DAILY_LATEST_MESSAGE_ID, VNone);
    (_COLUMN_NAME_DAILY_CHANGE_MODE,
       VInt (change_mode_value DEFAULT_AUTODAILY_CHANGE_MODE));
    (_COLUMN_NAME_DAILY_NOTIFY_ID, VNone);
    (_COLUMN_NAME_DAILY_NOTIFY_TYPE, VNone);
    (_COLUMN_NAME_DAILY_LATEST_MESSAGE_CREATED_AT, VNone);
    (_COLUMN_NAME_DAILY_LATEST_MESSAGE_MODIFIED_AT, VNone) ].

Definition db_update_daily_latest_message `{Utility} (guild_id : Z)
    (message : option Message) : M bool :=
  match message with
  | Some message =>
      current_daily_latest_message_id ← db_get_daily_latest_message_id guild_id;
      current_daily_latest_message_create_date ←
        db_get_daily_latest_message_create_date guild_id;
      let new_day :=
        match current_daily_latest_message_create_date with
        | None => true
        | Some stored => negb (day (Message_created_at message) =? day stored)
        end in
      let modify_date :=
        if new_day then Message_created_at message
        else default (Message_created_at message) (Message_edited_at message) in
      if AutoDailySettings.differs current_daily_latest_message_id
           (Message_id message)
      then
        let settings :=
          ([ (_COLUMN_NAME_DAILY_LATEST_MESSAGE_ID, VInt (Message_id message));
             (_COLUMN_NAME_DAILY_LATEST_MESSAGE_MODIFIED_AT, VTime modify_date) ]
           ++
           (if new_day then
              [ (_COLUMN_NAME_DAILY_LATEST_MESSAGE_CREATED_AT,
                 VTime (Message_created_at message)) ]
            else []))%list in
        _db_update_server_settings (Some guild_id) settings
      else mret true
  | None => db_reset_autodaily_latest_message_id guild_id
  end.

(** [result or None]: the record of the two columns, or [None] when the
    guild has no row. *)
Definition db_get_daily_notify_settings (guild_id : Z)
  : M (option (option Z * option Z)) :=
  result ← _db_get_server_setting (Some guild_id);
  match result with
  | Some row => mret (Some (dailynotifyid row, dailynotifytype row))
  | None => mret None
  end.

(** [current_daily_notify_id, _ = await db_get_daily_notify_settings(...)]:
    unpacking [None] raises TypeError. *)
Definition db_update_daily_notify_settings (guild_id : Z) (notify_id : Z)
    (notify_type : option AutoDailyNotifyType) : M bool :=
  current ← db_get_daily_notify_settings guild_id;
  match current with
  | None => raise TypeError
  | Some (current_daily_notify_id, _) =>
      if AutoDailySettings.differs current_daily_notify_id notify_id then
        let settings := [
          (_COLUMN_NAME_DAILY_NOTIFY_ID, VInt notify_id);
          (_COLUMN_NAME_DAILY_NOTIFY_TYPE,
             of_int (convert_from_autodaily_notify_type notify_type)) ] in
        _db_update_server_settings (Some guild_id) settings
      else mret true
  end.

Definition set_autodaily_notify (guild_id : Z) (notify_id : Z)
    (notify_type : option AutoDailyNotifyType) : M bool :=
  _ ← db_create_server_settings guild_id;
  db_update_daily_notify_settings guild_id notify_id notify_type.

(** ** Notions used in the statements *)

(** No coming Gateway call is scripted to fail. *)
Definition healthy (g : Gateway) : Prop := Forall (λ b, b = true) (faults g).

(** The Gateway's answer to its next call, and its state after a write
    statement was sent and a read was made. *)
Definition next_ok (g : Gateway) : bool := hd true (faults g).

Definition after_write (s : Statement) (g : Gateway) : Gateway :=
  let ok := next_ok g in
  mk_gateway
    (if ok then default (table g) (run_statement s (table g)) else table g)
    (tl (faults g))
    (journal g ++ [(s, ok)])%list.

Definition after_read (g : Gateway) : Gateway :=
  mk_gateway (table g) (tl (faults g)) (journal g).

(** Every value of the settings dict has the type of its column, on every
    row. *)
Definition well_typed (settings : Settings) : Prop :=
  ∀ r, is_Some (set_columns settings r).

(** The rows of a guild and the prefix stored for it. *)
Definition rows_of (guild : Z) (tbl : list Row) : list Row :=
  filter (λ r, guildid r = guild) tbl.

Definition stored_prefix (guild : Z) (tbl : list Row) : option string :=
  match rows_of guild tbl with
  | r :: _ => prefix r
  | [] => None
  end.

(** The cycle of change modes as the specification gives it. *)
Definition next_mode (m : AutoDailyChangeMode) : AutoDailyChangeMode :=
  match m with
  | POST_NEW => DELETE_AND_POST_NEW
  | DELETE_AND_POST_NEW => EDIT
  | EDIT => POST_NEW
  end.

(** A new day, as [set_latest_message] decides it: no stored creation time,
    or another day of the month. *)
Definition new_day (stored : option datetime) (created : datetime) : bool :=
  match stored with
  | None => true
  | Some s => negb (day created =? day s)
  end.

(** The modification time [set_latest_message] records. *)
Definition recorded_modified_at (stored : option datetime) (m : Message)
  : datetime :=
  if new_day stored (Message_created_at m) then Message_created_at m
  else default (Message_created_at m) (Message_edited_at m).

(** The same calendar day. *)
Definition same_date (a b : datetime) : Prop :=
  year a = year b ∧ month a = month b ∧ day a = day b.

(** The same-day part of the temporal merge law, in the specification's
    words: a message created on the stored day whose edit time differs from
    the stored modification time moves the modification time to the edit
    time (the creation time if never edited) and keeps the creation time. *)
Definition same_day_edit_as_specified : Prop :=
  ∀ (self : AutoDailySettings.t) (m : Message) (stored : datetime) (g : Gateway),
    healthy g →
    AutoDailySettings.latest_message_created_at self = Some stored →
    same_date (Message_created_at m) stored →
    AutoDailySettings.latest_message_modified_at self
      ≠ Some (default (Message_created_at m) (Message_edited_at m)) →
    ∃ self' g',
      AutoDailySettings.set_latest_message self (Some m) g = (Ok (true, self'), g') ∧
      AutoDailySettings.latest_message_modified_at self'
        = Some (default (Message_created_at m) (Message_edited_at m)) ∧
      AutoDailySettings.latest_message_created_at self' = Some stored.

(** The argument check of [set_notify], in the specification's words: an
    argument that is neither a user or member nor a role makes the call
    fail with an error. *)
Definition notify_check_as_specified : Prop :=
  ∀ (self : AutoDailySettings.t) (notify : PyObject) (g : Gateway),
    (∀ n, notify ≠ PyMention n) →
    ∃ e g', AutoDailySettings.set_notify self notify g = (Raise e, g').

(** [get_prefix_or_default], in the words of its description: the default
    for a null stored prefix and for one that reads "none" in any case, the
    stored prefix otherwise. *)
Definition prefix_or_default_as_specified `{AppSettings} : Prop :=
  ∀ (guild_id : Z) (g : Gateway),
    healthy g →
    (get_prefix_or_default guild_id g).1 =
      Ok (match stored_prefix guild_id (table g) with
          | None => DEFAULT_PREFIX
          | Some s => if String.eqb (lower s) "none" then DEFAULT_PREFIX else s
          end).

(** The settings dict [set_latest_message] builds for a message it records. *)
Definition latest_message_settings (stored : option datetime) (m : Message)
  : Settings :=
  ([ (_COLUMN_NAME_DAILY_LATEST_MESSAGE_ID, VInt (Message_id m));
     (_COLUMN_NAME_DAILY_LATEST_MESSAGE_MODIFIED_AT,
        VTime (recorded_modified_at stored m)) ]
   ++
   (if new_day stored (Message_created_at m)
    then [ (_COLUMN_NAME_DAILY_LATEST_MESSAGE_CREATED_AT,
              VTime (Message_created_at m)) ]
    else []))%list.

(** The kind [set_notify] derives from its argument, and the settings dict
    it writes. *)
Definition mention_kind (n : Mention) : AutoDailyNotifyType :=
  match n with
  | MentionRole _ => ROLE
  | MentionMember _ | MentionUser _ => USER
  end.

Definition notify_settings (n : Mention) : Settings :=
  [ (_COLUMN_NAME_DAILY_NOTIFY_ID, VInt (mention_id n));
    (_COLUMN_NAME_DAILY_NOTIFY_TYPE, VInt (notify_type_value (mention_kind n))) ].

(** The settings dict of [set_channel]. *)
Definition channel_settings (c : TextChannel) : Settings :=
  [ (_COLUMN_NAME_DAILY_CHANNEL_ID, VInt (TextChannel_id c));
    (_COLUMN_NAME_DAILY_LATEST_MESSAGE_ID, VNone) ].

(** The settings dict of [AutoDailySettings.reset]. *)
Definition autodaily_reset_settings : Settings :=
  [ (_COLUMN_NAME_DAILY_CHANNEL_ID, VNone);
    (_COLUMN_NAME_DAILY_LATEST_MESSAGE_ID, VNone);
    (_COLUMN_NAME_DAILY_CHANGE_MODE,
       VInt (change_mode_value DEFAULT_AUTODAILY_CHANGE_MODE));
    (_COLUMN_NAME_DAILY_NOTIFY_ID, VNone);
    (_COLUMN_NAME_DAILY_NOTIFY_TYPE, VNone);
    (_COLUMN_NAME_DAILY_LATEST_MESSAGE_CREATED_AT, VNone);
    (_COLUMN_NAME_DAILY_LATEST_MESSAGE_MODIFIED_AT, VNone) ].

(** What [AutoDailySettings.reset] assigns once its write went through. *)
Definition autodaily_after_reset (a : AutoDailySettings.t) : AutoDailySettings.t :=
  AutoDailySettings.with_latest_message_modified_at None
    (AutoDailySettings.with_latest_message_created_at None
       (AutoDailySettings.with_latest_message_id None
          (AutoDailySettings.with_notify None
             (AutoDailySettings.with_delete_on_change None
                (AutoDailySettings.with_channel None a))))).

(** The Gateway's answer to the i-th coming call. *)
Definition answer (g : Gateway) (i : nat) : bool := nth i (faults g) true.

(** The row an UPDATE leaves in place of a row it matches. *)
Definition patched (settings : Settings) (r : Row) : Row :=
  default r (set_columns settings r).

(** A computation stays within a guild: whatever the Gateway answers, it
    leaves the rows of every other guild as they were and neither adds nor
    removes a key of the table. *)
Definition stays_within {A : Type} (guild : option Z) (m : M A) : Prop :=
  ∀ g,
    (∀ other, Some other ≠ guild →
              rows_of other (table (m g).2) = rows_of other (table g)) ∧
    guildid <$> table (m g).2 = guildid <$> table g.

(** A mutation is all or nothing: whatever the Gateway answers, when it
    raises or reports failure the table is as it was, and when it reports
    failure the entity is as it was too. *)
Definition all_or_nothing {S : Type} (self : S) (m : M (bool * S)) : Prop :=
  ∀ g,
    match m g with
    | (Ok (true, _), _) => True
    | (Ok (false, self'), g') => self' = self ∧ table g' = table g
    | (Raise _, g') => table g' = table g
    end.

(** Every entity of the collection is kept under its own guild id. *)
Definition keyed_by_id (self : gmap Z GuildSettings.t) : Prop :=
  ∀ k guild_settings,
    self !! k = Some guild_settings → GuildSettings.id guild_settings = k.

(** The rows a read of the whole table, or of one guild, returns: none when
    the Gateway fails the call. *)
Definition fetched (guild : option Z) (g : Gateway) : list Row :=
  if next_ok g
  then match guild with
       | Some i => rows_of i (table g)
       | None => table g
       end
  else [].

(** The rows of a guild once its default row has been created if it had
    none. *)
Definition materialized (guild : Z) (tbl : list Row) : list Row :=
  match rows_of guild tbl with
  | [] => [inserted_row guild (Some (change_mode_value POST_NEW))]
  | rows => rows
  end.

(** The entity with no latest message. *)
Definition without_latest_message (a : AutoDailySettings.t) : AutoDailySettings.t :=
  AutoDailySettings.with_latest_message_modified_at None
    (AutoDailySettings.with_latest_message_created_at None
       (AutoDailySettings.with_latest_message_id None a)).

(** A row with no latest message. *)
Definition no_latest_message (r : Row) : Prop :=
  dailylatestmessageid r = None ∧
  dailylatestmessagecreatedate r = None ∧
  dailylatestmessagemodifydate r = None.

(** The sub-settings a restart of the bot would read from a row. *)
Definition reload (bot : Bot) (row : Row) : AutoDailySettings.t :=
  GuildSettings.autodaily (GuildSettings.__init__ bot row).

(** The directory knows the member or role of a mention in a guild. *)
Definition resolves (bot : Bot) (guild : Z) (n : Mention) : Prop :=
  ∃ gd, get_guild bot guild = Some gd ∧
        match n with
        | MentionRole r => is_Some (get_role gd (Role_id r))
        | MentionMember m => is_Some (get_member gd (Member_id m))
        | MentionUser u => is_Some (get_member gd (User_id u))
        end.

(** The row [fix_prefixes] leaves in place of a row: a prefix that starts
    with a space is stripped of its leading whitespace, or unset when
    nothing else is left; the rows of the guild id 0 and the rows without
    such a prefix are kept. *)
Definition with_row_prefix (p : option string) (r : Row) : Row :=
  mk_row (guildid r) p (usepagination r) (dailycanpost r) (dailychannelid r)
    (dailylatestmessageid r) (dailychangemode r) (dailynotifyid r)
    (dailynotifytype r) (dailylatestmessagecreatedate r)
    (dailylatestmessagemodifydate r) (botnewschannelid r).

Definition fixed_row (r : Row) : Row :=
  match prefix r with
  | Some p =>
      if (negb (guildid r =? 0) && startswith_space p)%bool
      then with_row_prefix
             (if String.eqb (lstrip p) "" then None else Some (lstrip p)) r
      else r
  | None => r
  end.

(** Sub-settings that [get_autodaily_settings] keeps: all of them, or with
    [no_post_yet] those whose latest message was not created on today's day
    of the month. *)
Definition still_due (utc_now : datetime) (no_post_yet : bool)
    (a : AutoDailySettings.t) : bool :=
  negb (no_post_yet &&
        match AutoDailySettings.latest_message_created_at a with
        | Some created => day created =? day utc_now
        | None => false
        end).

(** ** The concrete states used below *)

Definition example_settings : AppSettings :=
  {| DEFAULT_PREFIX := "/"; DEFAULT_USE_EMOJI_PAGINATOR := true |}.

Definition example_guild : Guild := mk_guild 1 [] [].

Definition morning : datetime := mk_datetime 2021 3 14 8 0 0.
Definition noon : datetime := mk_datetime 2021 3 14 12 0 0.

Definition example_channel : TextChannel := mk_channel 10 "daily".
Definition other_channel : TextChannel := mk_channel 20 "news".

(** A guild whose daily post, message 7, went out this morning in channel
    10, in EDIT mode; and its row. *)
Definition example_autodaily : AutoDailySettings.t :=
  AutoDailySettings.__init__ (Some example_guild) (Some example_channel)
    (Some true) (Some 7) (Some (change_mode_value EDIT)) None
    (Some morning) (Some morning).

Definition example_row : Row :=
  mk_row 1 (Some "!") (Some false) (Some true) (Some 10) (Some 7)
    (Some (change_mode_value EDIT)) None None (Some morning) (Some morning)
    (Some 30).

Definition example_gateway : Gateway := mk_gateway [example_row] [] [].

(** The same message, edited at noon. *)
Definition edited_message : Message := mk_message 7 morning (Some noon).

(** A row whose prefix is the empty string. *)
Definition empty_prefix_row : Row :=
  mk_row 1 (Some "") None None None None (Some 1) None None None None None.

Definition empty_prefix_gateway : Gateway := mk_gateway [empty_prefix_row] [] [].

(** An empty table behind a Gateway that answers the first call and fails
    the second. *)
Definition failing_gateway : Gateway := mk_gateway [] [true; false] [].

Definition example_bot : Bot := mk_bot [example_channel; other_channel] [example_guild].

(** Conditions read as equality with the value, null matching null. *)
Definition where_equal : Utility :=
  {| db_get_where_string := λ c v r,
       match row_get r c, v with
       | VNone, VNone => true
       | VInt a, VInt b => a =? b
       | VBool a, VBool b => Bool.eqb a b
       | VStr a, VStr b => String.eqb a b
       | VTime a, VTime b => bool_decide (a = b)
       | _, _ => false
       end |}.

(** An argument check that accepts everything. *)
Definition accept_all : PssAssert :=
  {| valid_parameter_value := λ _ _ _, None |}.

(** The entity of the example row, and a Gateway that fails the second
    call it receives. *)
Definition example_guild_settings : GuildSettings.t :=
  GuildSettings.__init__ example_bot example_row.

Definition second_call_fails : Gateway :=
  mk_gateway [example_row] [true; false; true; true] [].

(** ** Tactics *)

(** A settings dict of literals is well typed: by cases on the row. *)
Ltac solve_well_typed :=
  let r := fresh "r" in
  intros r; destruct r; simpl; eauto.

(** Runs a closed call and takes the entity and Gateway it returns as the
    witnesses of the goal. *)
Ltac run_exists :=
  lazymatch goal with
  | |- ∃ _ _, ?call = _ ∧ _ =>
      let v := eval vm_compute in call in
      lazymatch v with
      | (Ok (_, ?s), ?g) => exists s, g
      end
  end.

(** * Properties *)

(** ** Setting codec *)

Lemma dict_get_None {V : Type} (d : list (string * V)) (k : string) :
  ¬ In k (d.*1) → dict_get d k = None.
Proof.
  induction d as [|[k' v] d IH]; simpl; intros Hk; [reflexivity|].
  destruct (String.eqb_spec k k') as [->|Hne].
  - exfalso. apply Hk. now left.
  - apply IH. intros Hin. apply Hk. now right.
Qed.

Example convert_from_on_off_ON :
  convert_from_on_off (Some "ON") = Some true.
Proof. reflexivity. Qed.

Example convert_from_on_off_thumbs_down :
  convert_from_on_off (Some thumbs_down) = Some false.
Proof. reflexivity. Qed.

Example convert_from_on_off_None : convert_from_on_off None = None.
Proof. reflexivity. Qed.

(** C9.  Round trip of the pagination switch: a token that reads, in any
    case, as one of on, true, 1, yes or the thumbs-up sign decodes and
    prints as "ON" (so do the five tokens the specification lists); one that
    reads as off, false, 0, no or thumbs-down prints as "OFF"; any other
    string decodes to no value, without an error, and that prints as
    "<NOT SET>". *)
Theorem on_off_round_trip :
  (∀ s, In (lower s) on_tokens →
        convert_to_on_off (convert_from_on_off (Some s)) = "ON") ∧
  Forall (λ s, convert_to_on_off (convert_from_on_off (Some s)) = "ON")
         ["on"; "ON"; "1"; "yes"; thumbs_up] ∧
  (∀ s, In (lower s) off_tokens →
        convert_to_on_off (convert_from_on_off (Some s)) = "OFF") ∧
  Forall (λ s, convert_to_on_off (convert_from_on_off (Some s)) = "OFF")
         ["off"; "0"; "no"; thumbs_down] ∧
  (∀ s, ¬ In (lower s) (on_tokens ++ off_tokens) →
        convert_from_on_off (Some s) = None ∧
        convert_to_on_off (convert_from_on_off (Some s)) = "<NOT SET>").
Proof.
  repeat split.
  - intros s Hs. unfold convert_from_on_off.
    simpl in Hs. destruct Hs as [<-|[<-|[<-|[<-|[<-|[]]]]]]; reflexivity.
  - repeat constructor.
  - intros s Hs. unfold convert_from_on_off.
    simpl in Hs. destruct Hs as [<-|[<-|[<-|[<-|[<-|[]]]]]]; reflexivity.
  - repeat constructor.
  - unfold convert_from_on_off. apply dict_get_None. exact H.
  - unfold convert_from_on_off. rewrite dict_get_None; [reflexivity|exact H].
Qed.

Lemma on_off_round_trip_witness :
  convert_to_on_off (convert_from_on_off (Some "YeS")) = "ON" ∧
  convert_to_on_off (convert_from_on_off (Some "Off")) = "OFF" ∧
  convert_from_on_off (Some "maybe") = None.
Proof.
  destruct on_off_round_trip as (Hon & _ & Hoff & _ & Hother).
  split; [|split].
  - apply Hon. simpl. tauto.
  - apply Hoff. simpl. tauto.
  - apply Hother. simpl. intuition discriminate.
Defined.

(** ** The Gateway *)

Lemma healthy_next_ok (g : Gateway) : healthy g → next_ok g = true.
Proof.
  unfold healthy, next_ok. destruct (faults g) as [|b l]; simpl; [reflexivity|].
  intros H. now inversion H.
Qed.

Lemma healthy_after_read (g : Gateway) : healthy g → healthy (after_read g).
Proof.
  unfold healthy, after_read. simpl. destruct (faults g) as [|b l]; simpl;
    [constructor|]. intros H. now inversion H.
Qed.

Lemma healthy_after_write (s : Statement) (g : Gateway) :
  healthy g → healthy (after_write s g).
Proof.
  unfold healthy, after_write. simpl. destruct (faults g) as [|b l]; simpl;
    [constructor|]. intros H. now inversion H.
Qed.

Lemma fetchall_eq (guild : option Z) (g : Gateway) :
  fetchall guild g =
    (Ok (if next_ok g
         then match guild with
              | Some i => rows_of i (table g)
              | None => table g
              end
         else []),
     after_read g).
Proof. reflexivity. Qed.

Lemma _db_get_server_settings_eq (guild : option Z) (g : Gateway) :
  _db_get_server_settings guild g =
    (Ok (if next_ok g
         then match guild with
              | Some i => rows_of i (table g)
              | None => table g
              end
         else []),
     after_read g).
Proof.
  unfold _db_get_server_settings, mbind, M_bind. rewrite fetchall_eq.
  destruct (if next_ok g then _ else _); reflexivity.
Qed.

Lemma update_rows_is_Some (settings : Settings) (guild : Z) (tbl : list Row) :
  well_typed settings → is_Some (update_rows settings guild tbl).
Proof.
  intros Hwt. induction tbl as [|r tbl [tbl' IH]]; simpl; [eauto|].
  rewrite IH. destruct (guildid r =? guild); simpl; [|eauto].
  destruct (Hwt r) as [r' ->]. simpl. eauto.
Qed.

Lemma try_execute_UPDATE (settings : Settings) (guild : option Z) (g : Gateway) :
  well_typed settings →
  try_execute (UPDATE settings guild) g =
    (Ok (next_ok g), after_write (UPDATE settings guild) g).
Proof.
  intros Hwt. unfold try_execute, after_write, next_ok.
  destruct (hd true (faults g)); [|reflexivity].
  destruct guild as [i|]; simpl; [|reflexivity].
  destruct (update_rows_is_Some settings i (table g) Hwt) as [t' ->].
  reflexivity.
Qed.

Lemma _db_update_server_settings_eq (guild : option Z) (c : Column) (v : Value)
    (rest : Settings) (g : Gateway) :
  well_typed ((c, v) :: rest) →
  _db_update_server_settings guild ((c, v) :: rest) g =
    (Ok (next_ok g), after_write (UPDATE ((c, v) :: rest) guild) g).
Proof. intros Hwt. simpl. now apply try_execute_UPDATE. Qed.

Lemma rows_of_nil_has_row (guild : Z) (tbl : list Row) :
  rows_of guild tbl = [] → has_row guild tbl = false.
Proof.
  unfold rows_of, has_row. induction tbl as [|r tbl IH]; simpl; [reflexivity|].
  rewrite filter_cons. destruct (decide (guildid r = guild)) as [Heq|Hne].
  - discriminate.
  - intros H. rewrite (IH H). apply Z.eqb_neq in Hne. now rewrite Hne.
Qed.

Lemma rows_of_app (guild : Z) (a b : list Row) :
  rows_of guild (a ++ b) = (rows_of guild a ++ rows_of guild b)%list.
Proof. unfold rows_of. apply filter_app. Qed.

Lemma rows_of_inserted (guild : Z) (cm : option Z) :
  rows_of guild [inserted_row guild cm] = [inserted_row guild cm].
Proof.
  unfold rows_of. rewrite filter_cons. simpl.
  destruct (decide (guild = guild)); [reflexivity|congruence].
Qed.

(** On a healthy Gateway the default row of a guild exists once
    [db_create_server_settings] has returned, and the call reports success. *)
Lemma db_create_server_settings_healthy (guild_id : Z) (g : Gateway) :
  healthy g →
  ∃ g', db_create_server_settings guild_id g = (Ok true, g') ∧
        healthy g' ∧
        rows_of guild_id (table g') =
          match rows_of guild_id (table g) with
          | [] => [inserted_row guild_id (Some (change_mode_value POST_NEW))]
          | rows => rows
          end.
Proof.
  intros Hg. unfold db_create_server_settings, db_get_has_settings, mbind, M_bind.
  rewrite _db_get_server_settings_eq, (healthy_next_ok g Hg).
  pose proof (healthy_after_read g Hg) as Hg1.
  destruct (rows_of guild_id (table g)) as [|r rows] eqn:Hrows.
  - unfold mret, M_ret, try_execute. fold (next_ok (after_read g)).
    rewrite (healthy_next_ok _ Hg1). simpl.
    rewrite (rows_of_nil_has_row _ _ Hrows). simpl.
    eexists. split; [reflexivity|]. split.
    + unfold healthy in *. simpl in *. destruct (faults g) as [|b [|b' l]];
        simpl in *; try constructor.
      inversion Hg1; assumption.
    + simpl. rewrite rows_of_app, Hrows, rows_of_inserted. reflexivity.
  - unfold mret, M_ret. eexists. split; [reflexivity|]. split; [exact Hg1|].
    simpl. exact Hrows.
Qed.

(** ** get_prefix_or_default *)

Example get_prefix_or_default_fresh_guild :
  (@get_prefix_or_default example_settings 5 example_gateway).1 = Ok "/".
Proof. reflexivity. Qed.

Example get_prefix_or_default_stored :
  (@get_prefix_or_default example_settings 1 example_gateway).1 = Ok "!".
Proof. reflexivity. Qed.

(** C10, as the code has it.  With the Gateway answering,
    [get_prefix_or_default] returns the default prefix when the stored prefix
    is null, is the empty string, or reads "none" in any case; in every other
    case it returns the stored prefix unchanged. *)
Theorem get_prefix_or_default_spec `{AppSettings} (guild_id : Z) (g : Gateway) :
  healthy g →
  (get_prefix_or_default guild_id g).1 =
    Ok (match stored_prefix guild_id (table g) with
        | None => DEFAULT_PREFIX
        | Some s =>
            if (String.eqb s "" || String.eqb (lower s) "none")%bool
            then DEFAULT_PREFIX else s
        end).
Proof.
  intros Hg. unfold get_prefix_or_default, db_get_prefix, mbind, M_bind.
  destruct (db_create_server_settings_healthy guild_id g Hg) as (g' & -> & Hg' & Hrows).
  unfold _db_get_server_setting, mbind, M_bind.
  rewrite _db_get_server_settings_eq, (healthy_next_ok g' Hg'), Hrows.
  unfold stored_prefix.
  destruct (rows_of guild_id (table g)) as [|r rows]; [reflexivity|].
  unfold mret, M_ret, str_or_None, truthy_str.
  destruct (prefix r) as [s|]; [|reflexivity].
  destruct (String.eqb s ""); simpl; [reflexivity|].
  destruct (String.eqb (lower s) "none"); reflexivity.
Qed.

Lemma get_prefix_or_default_spec_witness :
  healthy example_gateway ∧
  (@get_prefix_or_default example_settings 1 example_gateway).1 = Ok "!".
Proof.
  assert (Hg : healthy example_gateway) by constructor.
  split; [exact Hg|].
  exact (@get_prefix_or_default_spec example_settings 1 example_gateway Hg).
Defined.

(** C10, as stated, fails: for a stored prefix that is the empty string the
    default prefix is returned, not the stored prefix. *)
Lemma get_prefix_or_default_empty_prefix :
  stored_prefix 1 (table empty_prefix_gateway) = Some "" ∧
  (@get_prefix_or_default example_settings 1 empty_prefix_gateway).1 = Ok "/" ∧
  ¬ @prefix_or_default_as_specified example_settings.
Proof.
  split; [reflexivity|]. split; [reflexivity|].
  intros Hspec.
  assert (Hg : healthy empty_prefix_gateway) by constructor.
  specialize (Hspec 1 empty_prefix_gateway Hg).
  vm_compute in Hspec. discriminate Hspec.
Qed.

(** ** AutoDailySettings *)

Lemma change_mode_settings_well_typed (n : Z) :
  well_typed [(_COLUMN_NAME_DAILY_CHANGE_MODE, VInt n)].
Proof. solve_well_typed. Qed.

Lemma AutoDailyChangeMode_call_next (m : AutoDailyChangeMode) :
  AutoDailyChangeMode_call (change_mode_value m mod 3 + 1) = Ok (next_mode m).
Proof. destruct m; reflexivity. Qed.

(** One toggle, whatever the Gateway answers: the new mode is computed from
    the three codes, the write is sent, and the entity follows when the
    write succeeded. *)
Lemma toggle_change_mode_eq (self : AutoDailySettings.t) (m : AutoDailyChangeMode)
    (g : Gateway) :
  AutoDailySettings.change_mode self = change_mode_value m →
  AutoDailySettings.toggle_change_mode self g =
    (Ok (next_ok g,
         if next_ok g
         then AutoDailySettings.with_change_mode (change_mode_value (next_mode m)) self
         else self),
     after_write
       (UPDATE [(_COLUMN_NAME_DAILY_CHANGE_MODE, VInt (change_mode_value (next_mode m)))]
               (AutoDailySettings.guild_id self)) g).
Proof.
  intros Hm. unfold AutoDailySettings.toggle_change_mode.
  rewrite Hm, AutoDailyChangeMode_call_next. unfold mbind, M_bind.
  rewrite _db_update_server_settings_eq by apply change_mode_settings_well_typed.
  destruct (next_ok g); reflexivity.
Qed.

(** C4.  From each of the three change modes, a toggle whose write succeeds
    moves to the next mode of the cycle POST_NEW, DELETE_AND_POST_NEW, EDIT,
    POST_NEW; the code of the new mode is (code mod 3) + 1, which is again
    one of the three codes, and three toggles in a row bring the entity back
    to where it started. *)
Theorem toggle_change_mode_cycle (self : AutoDailySettings.t)
    (m : AutoDailyChangeMode) (g : Gateway) :
  healthy g →
  AutoDailySettings.change_mode self = change_mode_value m →
  ∃ self1 g1 self2 g2 self3 g3,
    AutoDailySettings.toggle_change_mode self g = (Ok (true, self1), g1) ∧
    AutoDailySettings.change_mode self1 = change_mode_value (next_mode m) ∧
    change_mode_value (next_mode m) = (change_mode_value m) mod 3 + 1 ∧
    AutoDailyChangeMode_call (AutoDailySettings.change_mode self1) = Ok (next_mode m) ∧
    AutoDailySettings.toggle_change_mode self1 g1 = (Ok (true, self2), g2) ∧
    AutoDailySettings.toggle_change_mode self2 g2 = (Ok (true, self3), g3) ∧
    self3 = self.
Proof.
  intros Hg Hm.
  pose proof (toggle_change_mode_eq self m g Hm) as E1.
  rewrite (healthy_next_ok g Hg) in E1.
  set (self1 := AutoDailySettings.with_change_mode _ self) in E1.
  set (g1 := after_write _ g) in E1.
  assert (Hg1 : healthy g1) by now apply healthy_after_write.
  pose proof (toggle_change_mode_eq self1 (next_mode m) g1 eq_refl) as E2.
  rewrite (healthy_next_ok g1 Hg1) in E2.
  set (self2 := AutoDailySettings.with_change_mode _ self1) in E2.
  set (g2 := after_write _ g1) in E2.
  assert (Hg2 : healthy g2) by now apply healthy_after_write.
  pose proof (toggle_change_mode_eq self2 (next_mode (next_mode m)) g2 eq_refl) as E3.
  rewrite (healthy_next_ok g2 Hg2) in E3.
  eexists self1, g1, self2, g2, _, _.
  split; [exact E1|]. split; [reflexivity|].
  split; [destruct m; reflexivity|].
  split; [destruct m; reflexivity|].
  split; [exact E2|]. split; [exact E3|].
  destruct self. unfold AutoDailySettings.change_mode in Hm. simpl in Hm.
  subst. destruct m; reflexivity.
Qed.

Lemma toggle_change_mode_cycle_witness :
  ∃ self1 g1 self2 g2 g3,
    AutoDailySettings.toggle_change_mode example_autodaily example_gateway
      = (Ok (true, self1), g1) ∧
    AutoDailySettings.change_mode self1 = change_mode_value POST_NEW ∧
    AutoDailySettings.toggle_change_mode self1 g1 = (Ok (true, self2), g2) ∧
    AutoDailySettings.toggle_change_mode self2 g2 = (Ok (true, example_autodaily), g3).
Proof.
  assert (Hg : healthy example_gateway) by constructor.
  destruct (toggle_change_mode_cycle example_autodaily EDIT example_gateway Hg eq_refl)
    as (self1 & g1 & self2 & g2 & self3 & g3 & E1 & M1 & _ & _ & E2 & E3 & ->).
  exists self1, g1, self2, g2, g3. repeat split; assumption.
Defined.

(** Never a fourth value: the constructor call of the toggle cannot fail,
    whatever integer the entity holds. *)
Lemma toggle_code_in_range (n : Z) :
  ∃ m, AutoDailyChangeMode_call (n mod 3 + 1) = Ok m.
Proof.
  assert (H : 0 ≤ n mod 3 < 3) by (apply Z.mod_pos_bound; lia).
  assert (C : n mod 3 = 0 ∨ n mod 3 = 1 ∨ n mod 3 = 2) by lia.
  destruct C as [E | [E | E]]; rewrite E; eexists; reflexivity.
Qed.

Lemma differs_false (current : option Z) (new : Z) :
  current = Some new → new ≠ 0 → AutoDailySettings.differs current new = false.
Proof.
  intros -> Hnz. unfold AutoDailySettings.differs, truthy_int.
  apply Z.eqb_neq in Hnz. rewrite Hnz, Z.eqb_refl. reflexivity.
Qed.

Lemma differs_true (current : option Z) (new : Z) :
  current ≠ Some new ∨ new = 0 → AutoDailySettings.differs current new = true.
Proof.
  unfold AutoDailySettings.differs, truthy_int.
  destruct current as [c|]; [|reflexivity].
  destruct (Z.eqb_spec c 0) as [->|Hc]; [reflexivity|]. simpl.
  destruct (Z.eqb_spec new c) as [->|Hne]; [|reflexivity].
  intros [H|H]; congruence.
Qed.

Lemma latest_message_settings_well_typed (stored : option datetime) (m : Message) :
  well_typed (latest_message_settings stored m).
Proof.
  unfold latest_message_settings.
  destruct (new_day stored (Message_created_at m)); solve_well_typed.
Qed.

(** C1, as the code has it.  For a message and a stored state: when the
    stored message id is set (not zero) and is the id of the message, the
    call changes nothing, sends no write and reports success, whatever the
    timestamps are.  Otherwise one UPDATE is sent; when it goes through, the
    id becomes the message's id, modified-at becomes the message's creation
    time on a new day (no stored created-at, or another day of the month)
    and otherwise its edit time, or its creation time if it was never
    edited, and created-at becomes the message's creation time on a new day
    and is left as it was otherwise. *)
Theorem set_latest_message_merge (self : AutoDailySettings.t) (m : Message)
    (g : Gateway) :
  let stored := AutoDailySettings.latest_message_created_at self in
  (AutoDailySettings.latest_message_id self = Some (Message_id m) →
   Message_id m ≠ 0 →
   AutoDailySettings.set_latest_message self (Some m) g = (Ok (true, self), g))
  ∧
  (AutoDailySettings.latest_message_id self ≠ Some (Message_id m)
     ∨ Message_id m = 0 →
   next_ok g = true →
   ∃ self',
     AutoDailySettings.set_latest_message self (Some m) g =
       (Ok (true, self'),
        after_write (UPDATE (latest_message_settings stored m)
                            (AutoDailySettings.guild_id self)) g) ∧
     AutoDailySettings.latest_message_id self' = Some (Message_id m) ∧
     AutoDailySettings.latest_message_modified_at self'
       = Some (recorded_modified_at stored m) ∧
     AutoDailySettings.latest_message_created_at self'
       = (if new_day stored (Message_created_at m)
          then Some (Message_created_at m) else stored)).
Proof.
  intros stored. split.
  - intros Hid Hnz. unfold AutoDailySettings.set_latest_message.
    rewrite (differs_false _ _ Hid Hnz). reflexivity.
  - intros Hid Hok. unfold AutoDailySettings.set_latest_message.
    rewrite (differs_true _ _ Hid).
    fold stored. fold (new_day stored (Message_created_at m)).
    fold (recorded_modified_at stored m).
    fold (latest_message_settings stored m).
    pose proof (latest_message_settings_well_typed stored m) as Hwt.
    unfold latest_message_settings in *.
    destruct (new_day stored (Message_created_at m)) eqn:Hday; cbn [app] in *;
      unfold mbind, M_bind;
      rewrite _db_update_server_settings_eq by exact Hwt;
      rewrite Hok; simpl;
      eexists; (split; [reflexivity|]); repeat split.
Qed.

Lemma set_latest_message_merge_witness :
  ∃ self',
    (AutoDailySettings.set_latest_message example_autodaily
       (Some (mk_message 8 noon None)) example_gateway).1 = Ok (true, self') ∧
    AutoDailySettings.latest_message_id self' = Some 8 ∧
    AutoDailySettings.latest_message_modified_at self' = Some noon ∧
    AutoDailySettings.latest_message_created_at self' = Some morning.
Proof.
  destruct (set_latest_message_merge example_autodaily (mk_message 8 noon None)
              example_gateway) as [_ Hwrite].
  destruct Hwrite as (self' & E & Hid & Hmod & Hcre).
  - left. discriminate.
  - reflexivity.
  - exists self'. rewrite E. repeat split; assumption.
Defined.

(** C1, as stated, fails: the daily post (message 7, created and last
    modified this morning) is edited at noon and recorded again; the call
    reports success, sends no write and leaves modified-at at this
    morning's time. *)
Lemma set_latest_message_same_message_edited :
  AutoDailySettings.set_latest_message example_autodaily (Some edited_message)
    example_gateway = (Ok (true, example_autodaily), example_gateway) ∧
  AutoDailySettings.latest_message_modified_at example_autodaily = Some morning ∧
  default (Message_created_at edited_message) (Message_edited_at edited_message)
    = noon ∧
  ¬ same_day_edit_as_specified.
Proof.
  split; [reflexivity|]. split; [reflexivity|]. split; [reflexivity|].
  intros Hspec.
  assert (Hg : healthy example_gateway) by constructor.
  destruct (Hspec example_autodaily edited_message morning example_gateway Hg)
    as (self' & g' & E & Hmod & _).
  - reflexivity.
  - repeat split.
  - discriminate.
  - change (AutoDailySettings.set_latest_message example_autodaily
              (Some edited_message) example_gateway)
      with (Ok (true, example_autodaily), example_gateway) in E.
    injection E as <- <-. discriminate Hmod.
Qed.

Lemma notify_settings_well_typed (n : Mention) : well_typed (notify_settings n).
Proof. solve_well_typed. Qed.

(** C6, as the code has it.  A null argument, or any other falsy object,
    makes [set_notify] return false, without a write and without an error.
    A truthy object that is neither a member, a user nor a role makes it
    raise: TypeError when the object has an id, AttributeError when it has
    none; nothing is written.  For a member, user or role: when the current
    notify id is set (not zero) and is the argument's id, the call changes
    nothing and reports success without a write; otherwise it sends one
    UPDATE that sets the notify id and the kind derived from the argument
    together, reports the Gateway's answer, and stores the argument when the
    write went through. *)
Theorem set_notify_spec (self : AutoDailySettings.t) (notify : PyObject)
    (g : Gateway) :
  match notify with
  | PyNone | PyOther false _ =>
      AutoDailySettings.set_notify self notify g = (Ok (false, self), g)
  | PyOther true (Some _) =>
      AutoDailySettings.set_notify self notify g = (Raise TypeError, g)
  | PyOther true None =>
      AutoDailySettings.set_notify self notify g = (Raise AttributeError, g)
  | PyMention n =>
      (AutoDailySettings.notify_id self = Some (mention_id n) →
       mention_id n ≠ 0 →
       AutoDailySettings.set_notify self notify g = (Ok (true, self), g))
      ∧
      (AutoDailySettings.notify_id self ≠ Some (mention_id n)
         ∨ mention_id n = 0 →
       AutoDailySettings.set_notify self notify g =
         (Ok (next_ok g,
              if next_ok g then AutoDailySettings.with_notify (Some n) self
              else self),
          after_write (UPDATE (notify_settings n) (AutoDailySettings.guild_id self)) g)
       ∧ AutoDailySettings.notify_id (AutoDailySettings.with_notify (Some n) self)
           = Some (mention_id n)
       ∧ AutoDailySettings.notify_type (AutoDailySettings.with_notify (Some n) self)
           = Some (mention_kind n))
  end.
Proof.
  destruct notify as [|n|[] [i|]]; try reflexivity.
  split.
  - intros Hid Hnz. unfold AutoDailySettings.set_notify.
    rewrite (differs_false _ _ Hid Hnz). reflexivity.
  - intros Hid. unfold AutoDailySettings.set_notify.
    rewrite (differs_true _ _ Hid). unfold mbind, M_bind.
    assert (E : [(_COLUMN_NAME_DAILY_NOTIFY_ID, VInt (mention_id n));
                 (_COLUMN_NAME_DAILY_NOTIFY_TYPE,
                  of_int (convert_from_autodaily_notify_type
                            (Some match n with
                                  | MentionRole _ => ROLE
                                  | _ => USER
                                  end)))] = notify_settings n)
      by (destruct n; reflexivity).
    rewrite E. unfold notify_settings at 1.
    rewrite _db_update_server_settings_eq by apply notify_settings_well_typed.
    split; [destruct (next_ok g); reflexivity|].
    split; [reflexivity|]. destruct n; reflexivity.
Qed.

Lemma set_notify_spec_witness :
  AutoDailySettings.set_notify example_autodaily
    (PyMention (MentionRole (mk_role 40))) example_gateway =
    (Ok (true,
         AutoDailySettings.with_notify (Some (MentionRole (mk_role 40)))
           example_autodaily),
     after_write
       (UPDATE [ (_COLUMN_NAME_DAILY_NOTIFY_ID, VInt 40);
                 (_COLUMN_NAME_DAILY_NOTIFY_TYPE, VInt 2) ] (Some 1))
       example_gateway).
Proof.
  pose proof (set_notify_spec example_autodaily
                (PyMention (MentionRole (mk_role 40))) example_gateway) as H.
  destruct H as [_ H]. destruct H as (E & _ & _).
  - left. discriminate.
  - exact E.
Defined.

(** C6, as stated, fails: a null argument is neither a user nor a role, yet
    the call raises nothing; it returns false and writes nothing. *)
Lemma set_notify_None_returns_false :
  AutoDailySettings.set_notify example_autodaily PyNone example_gateway
    = (Ok (false, example_autodaily), example_gateway) ∧
  ¬ notify_check_as_specified.
Proof.
  split; [reflexivity|].
  intros Hspec.
  destruct (Hspec example_autodaily PyNone example_gateway) as (e & g' & E).
  - intros n. discriminate.
  - discriminate E.
Qed.

Lemma channel_settings_well_typed (c : TextChannel) : well_typed (channel_settings c).
Proof. solve_well_typed. Qed.

Lemma set_channel_eq (self : AutoDailySettings.t) (c : TextChannel) (g : Gateway) :
  AutoDailySettings.set_channel self c g =
    if AutoDailySettings.differs (AutoDailySettings.channel_id self) (TextChannel_id c)
    then (Ok (next_ok g,
              if next_ok g then AutoDailySettings.with_channel (Some c) self
              else self),
          after_write (UPDATE (channel_settings c) (AutoDailySettings.guild_id self)) g)
    else (Ok (true, self), g).
Proof.
  unfold AutoDailySettings.set_channel.
  destruct (AutoDailySettings.differs _ _); [|reflexivity].
  unfold mbind, M_bind.
  rewrite _db_update_server_settings_eq by apply channel_settings_well_typed.
  destruct (next_ok g); reflexivity.
Qed.

(** C8.  Setting the same channel twice in a row (a channel's id is a
    snowflake, never zero; the write, if one is sent, goes through): both
    calls report success, the second one changes neither the entity nor the
    Gateway, so that at most one write is sent in all, and the state after
    the second call is the state after the first. *)
Theorem set_channel_idempotent (self : AutoDailySettings.t) (c : TextChannel)
    (g : Gateway) :
  TextChannel_id c ≠ 0 →
  next_ok g = true →
  ∃ self1 g1,
    AutoDailySettings.set_channel self c g = (Ok (true, self1), g1) ∧
    AutoDailySettings.set_channel self1 c g1 = (Ok (true, self1), g1) ∧
    AutoDailySettings.channel_id self1 = Some (TextChannel_id c) ∧
    (journal g1 = journal g ∨
     journal g1 = (journal g ++
       [(UPDATE (channel_settings c) (AutoDailySettings.guild_id self), true)])%list).
Proof.
  intros Hnz Hok. rewrite set_channel_eq.
  destruct (AutoDailySettings.differs _ _) eqn:Hd.
  - rewrite Hok.
    eexists _, _. split; [reflexivity|]. split; [|split].
    + rewrite set_channel_eq.
      rewrite differs_false; [reflexivity|reflexivity|exact Hnz].
    + reflexivity.
    + right. unfold after_write. rewrite Hok. reflexivity.
  - exists self, g. split; [reflexivity|]. split; [|split].
    + rewrite set_channel_eq, Hd. reflexivity.
    + unfold AutoDailySettings.differs in Hd.
      destruct (AutoDailySettings.channel_id self) as [i|]; [|discriminate].
      apply orb_false_elim in Hd as [_ Hd]. apply negb_false_iff in Hd.
      apply Z.eqb_eq in Hd. now subst.
    + now left.
Qed.

Lemma set_channel_idempotent_witness :
  ∃ self1 g1,
    AutoDailySettings.set_channel example_autodaily other_channel example_gateway
      = (Ok (true, self1), g1) ∧
    AutoDailySettings.set_channel self1 other_channel g1 = (Ok (true, self1), g1) ∧
    length (journal g1) = 1%nat.
Proof.
  destruct (set_channel_idempotent example_autodaily other_channel example_gateway)
    as (self1 & g1 & E1 & E2 & _ & _).
  - discriminate.
  - reflexivity.
  - exists self1, g1. split; [exact E1|]. split; [exact E2|].
    vm_compute in E1. injection E1 as _ <-. reflexivity.
Defined.

Example set_channel_twice_example :
  ∃ self1 g1,
    AutoDailySettings.set_channel example_autodaily other_channel example_gateway
      = (Ok (true, self1), g1) ∧
    AutoDailySettings.set_channel self1 other_channel g1 = (Ok (true, self1), g1) ∧
    dailychannelid <$> table g1 = [Some 20].
Proof. run_exists. repeat split. Qed.

(** C2.  The entity and its row part ways.  After a reset whose UPDATE went
    through, the row's change mode is POST_NEW while the entity still says
    EDIT: the method assigns [__delete_on_change], an attribute nothing
    reads, where [toggle_change_mode] assigns [__change_mode].  After a
    [set_channel] to another channel whose UPDATE went through, the row's
    latest message id is null while the entity still holds message 7: the
    method assigns the channel only, where [reset_channel] also clears the
    message id. *)
Theorem reset_and_set_channel_leave_stale_fields :
  (∃ self' g',
     AutoDailySettings.reset example_autodaily example_gateway
       = (Ok (true, self'), g') ∧
     dailychangemode <$> rows_of 1 (table g') = [Some (change_mode_value POST_NEW)] ∧
     AutoDailySettings.change_mode self' = change_mode_value EDIT ∧
     AutoDailySettings.__delete_on_change self' = Some None)
  ∧
  (∃ self' g',
     AutoDailySettings.set_channel example_autodaily other_channel example_gateway
       = (Ok (true, self'), g') ∧
     dailychannelid <$> rows_of 1 (table g') = [Some 20] ∧
     dailylatestmessageid <$> rows_of 1 (table g') = [None] ∧
     AutoDailySettings.channel_id self' = Some 20 ∧
     AutoDailySettings.latest_message_id self' = Some 7).
Proof. split; run_exists; repeat split. Qed.

(** ** GuildSettings *)

Lemma autodaily_reset_eq (a : AutoDailySettings.t) (g : Gateway) :
  AutoDailySettings.reset a g =
    (Ok (next_ok g, if next_ok g then autodaily_after_reset a else a),
     after_write (UPDATE autodaily_reset_settings (AutoDailySettings.guild_id a)) g).
Proof.
  unfold AutoDailySettings.reset, mbind, M_bind.
  rewrite _db_update_server_settings_eq by solve_well_typed.
  destruct (next_ok g); reflexivity.
Qed.

Lemma reset_prefix_eq (self : GuildSettings.t) (g : Gateway) :
  GuildSettings.reset_prefix self g =
    if truthy_str (GuildSettings.__prefix self)
    then (Ok (next_ok g,
              if next_ok g then GuildSettings.with_prefix None self else self),
          after_write (UPDATE [(_COLUMN_NAME_PREFIX, VNone)]
                              (Some (GuildSettings.__guild_id self))) g)
    else (Ok (true, self), g).
Proof.
  unfold GuildSettings.reset_prefix.
  destruct (truthy_str _); [|reflexivity]. unfold mbind, M_bind.
  rewrite _db_update_server_settings_eq by solve_well_typed.
  destruct (next_ok g); reflexivity.
Qed.

Lemma reset_use_pagination_eq (self : GuildSettings.t) (g : Gateway) :
  GuildSettings.reset_use_pagination self g =
    if is_set (GuildSettings.__use_pagination self)
    then (Ok (next_ok g,
              if next_ok g then GuildSettings.with_use_pagination None self
              else self),
          after_write (UPDATE [(_COLUMN_NAME_USE_PAGINATION, VNone)]
                              (Some (GuildSettings.__guild_id self))) g)
    else (Ok (true, self), g).
Proof.
  unfold GuildSettings.reset_use_pagination.
  destruct (GuildSettings.__use_pagination self); [|reflexivity].
  unfold mbind, M_bind.
  rewrite _db_update_server_settings_eq by solve_well_typed.
  destruct (next_ok g); reflexivity.
Qed.

Lemma reset_bot_news_channel_eq (self : GuildSettings.t) (g : Gateway) :
  GuildSettings.reset_bot_news_channel self g =
    if truthy_int (GuildSettings.__bot_news_channel_id self)
    then (Ok (next_ok g,
              if next_ok g
              then GuildSettings.with_bot_news_channel None
                     (GuildSettings.with_bot_news_channel_id None self)
              else self),
          after_write (UPDATE [(_COLUMN_NAME_BOT_NEWS_CHANNEL_ID, VNone)]
                              (Some (GuildSettings.__guild_id self))) g)
    else (Ok (true, self), g).
Proof.
  unfold GuildSettings.reset_bot_news_channel.
  destruct (truthy_int _); [|reflexivity]. unfold mbind, M_bind.
  rewrite _db_update_server_settings_eq by solve_well_typed.
  destruct (next_ok g); reflexivity.
Qed.

(** The example of the specification: the second write, that of the
    pagination flag, fails at the Gateway; the three other resets go
    through. *)
Example reset_pagination_write_fails :
  ∃ self' g',
    GuildSettings.reset example_guild_settings second_call_fails
      = (Ok ((true, false, true, true), self'), g') ∧
    GuildSettings.__prefix self' = None ∧
    GuildSettings.__use_pagination self' = Some false ∧
    GuildSettings.__bot_news_channel_id self' = None ∧
    AutoDailySettings.channel (GuildSettings.autodaily self') = None ∧
    table g' =
      [ mk_row 1 None (Some false) (Some true) None None
          (Some (change_mode_value POST_NEW)) None None None None None ].
Proof.
  run_exists. repeat split.
Qed.

(** C7.  [GuildSettings.reset] returns, never raises, and sends at most four
    writes: that of the prefix (when one is set), of the pagination flag
    (when one is set), of the autodaily columns (always) and of the bot-news
    channel (when one is set).  Each component of the result is the
    Gateway's answer to that reset's own write, or true when the reset had
    nothing to write, whatever the answers to the other three were; and each
    part of the entity is cleared exactly when its own write went through. *)
Theorem reset_components_independent (self : GuildSettings.t) (g : Gateway) :
  let w1 := truthy_str (GuildSettings.__prefix self) in
  let w2 := is_set (GuildSettings.__use_pagination self) in
  let w4 := truthy_int (GuildSettings.__bot_news_channel_id self) in
  let i2 := (if w1 then 1 else 0)%nat in
  let i3 := (i2 + if w2 then 1 else 0)%nat in
  let i4 := S i3 in
  let guild := Some (GuildSettings.__guild_id self) in
  ∃ self' g',
    GuildSettings.reset self g =
      (Ok ((negb w1 || answer g 0, negb w2 || answer g i2, answer g i3,
            negb w4 || answer g i4), self'), g') ∧
    journal g' =
      (journal g
       ++ (if w1 then [(UPDATE [(_COLUMN_NAME_PREFIX, VNone)] guild, answer g 0)]
           else [])
       ++ (if w2 then [(UPDATE [(_COLUMN_NAME_USE_PAGINATION, VNone)] guild,
                        answer g i2)]
           else [])
       ++ [(UPDATE autodaily_reset_settings
              (AutoDailySettings.guild_id (GuildSettings.autodaily self)),
            answer g i3)]
       ++ (if w4 then [(UPDATE [(_COLUMN_NAME_BOT_NEWS_CHANNEL_ID, VNone)] guild,
                        answer g i4)]
           else []))%list ∧
    GuildSettings.__prefix self' =
      (if w1 && answer g 0 then None else GuildSettings.__prefix self) ∧
    GuildSettings.__use_pagination self' =
      (if w2 && answer g i2 then None else GuildSettings.__use_pagination self) ∧
    GuildSettings.autodaily self' =
      (if answer g i3 then autodaily_after_reset (GuildSettings.autodaily self)
       else GuildSettings.autodaily self) ∧
    GuildSettings.__bot_news_channel_id self' =
      (if w4 && answer g i4 then None
       else GuildSettings.__bot_news_channel_id self).
Proof.
  intros w1 w2 w4 i2 i3 i4 guild.
  subst w1 w2 w4 i2 i3 i4 guild.
  unfold GuildSettings.reset, mbind, M_bind.
  destruct self as [gid p up bn gd bc ad], g as [tbl fl jr].
  rewrite reset_prefix_eq.
  cbn [GuildSettings.__prefix GuildSettings.__use_pagination
       GuildSettings.__bot_news_channel_id GuildSettings.__guild_id
       GuildSettings.autodaily GuildSettings.__autodaily_settings].
  destruct (truthy_str p), up as [b|], (truthy_int bn) eqn:Hbn;
    destruct fl as [|[] [|[] [|[] [|[] fl]]]].
  all: repeat
         (cbn [GuildSettings.__prefix GuildSettings.__use_pagination
               GuildSettings.__bot_news_channel_id GuildSettings.__guild_id
               GuildSettings.autodaily GuildSettings.__autodaily_settings
               GuildSettings.with_prefix GuildSettings.with_use_pagination
               GuildSettings.with_autodaily GuildSettings.with_bot_news_channel
               GuildSettings.with_bot_news_channel_id
               next_ok after_write answer faults table journal hd tl nth
               is_set negb orb andb Nat.add];
          first [ rewrite reset_use_pagination_eq
                | rewrite autodaily_reset_eq
                | rewrite reset_bot_news_channel_eq
                | rewrite Hbn ]).
  all: eexists _, _; (split; [reflexivity|]);
       cbn [journal GuildSettings.__prefix GuildSettings.__use_pagination
            GuildSettings.__bot_news_channel_id GuildSettings.autodaily
            GuildSettings.__autodaily_settings andb
            next_ok after_write faults hd tl];
       rewrite <- ?app_assoc; repeat split.
Qed.

(** ** GuildSettingsCollection *)

Lemma prefix_of_fresh_row `{AppSettings} (bot : Bot) (guild_id : Z) (cm : option Z) :
  GuildSettings.prefix (GuildSettings.__init__ bot (inserted_row guild_id cm))
    = DEFAULT_PREFIX.
Proof. reflexivity. Qed.

(** C3.  With the Gateway answering, [get] for a guild that is neither in
    the collection nor in the table returns an entity whose prefix reads as
    the configured default prefix (so does [get_prefix]), keeps that entity
    in the collection, and leaves in the table exactly one row for the
    guild: the default row, with change mode POST_NEW. *)
Theorem get_materializes_default_row `{AppSettings}
    (self : gmap Z GuildSettings.t) (bot : Bot) (guild_id : Z) (g : Gateway) :
  healthy g →
  self !! guild_id = None →
  rows_of guild_id (table g) = [] →
  ∃ guild_settings self' g',
    GuildSettingsCollection.get self bot guild_id g
      = (Ok (guild_settings, self'), g') ∧
    GuildSettings.prefix guild_settings = DEFAULT_PREFIX ∧
    (get_prefix self bot guild_id g).1 = Ok (DEFAULT_PREFIX, self') ∧
    self' !! guild_id = Some guild_settings ∧
    rows_of guild_id (table g')
      = [inserted_row guild_id (Some (change_mode_value POST_NEW))] ∧
    AutoDailySettings.change_mode (GuildSettings.autodaily guild_settings)
      = change_mode_value POST_NEW.
Proof.
  intros Hg Hself Hrows.
  destruct (db_create_server_settings_healthy guild_id g Hg)
    as (g1 & Ecreate & Hg1 & Hrows1).
  rewrite Hrows in Hrows1.
  assert (Eget :
    GuildSettingsCollection.get self bot guild_id g =
      (Ok (GuildSettings.__init__ bot
             (inserted_row guild_id (Some (change_mode_value POST_NEW))),
           <[guild_id :=
               GuildSettings.__init__ bot
                 (inserted_row guild_id (Some (change_mode_value POST_NEW)))]>
             self),
       after_read g1)).
  { unfold GuildSettingsCollection.get, GuildSettingsCollection.create_guild_settings,
      mbind, M_bind.
    rewrite Hself, Ecreate, _db_get_server_settings_eq.
    rewrite (healthy_next_ok g1 Hg1), Hrows1.
    unfold mret, M_ret. rewrite lookup_insert_eq. reflexivity. }
  eexists _, _, _. split; [exact Eget|].
  split; [apply prefix_of_fresh_row|].
  split; [unfold get_prefix, mbind, M_bind; rewrite Eget; reflexivity|].
  split; [apply lookup_insert_eq|].
  split; [exact Hrows1|reflexivity].
Qed.

Lemma get_materializes_default_row_witness :
  ∃ guild_settings self' g',
    @GuildSettingsCollection.get ∅ example_bot 5 example_gateway
      = (Ok (guild_settings, self'), g') ∧
    @GuildSettings.prefix example_settings guild_settings = "/" ∧
    rows_of 5 (table g') = [inserted_row 5 (Some 1)].
Proof.
  assert (Hg : healthy example_gateway) by constructor.
  destruct (@get_materializes_default_row example_settings ∅ example_bot 5
              example_gateway Hg (lookup_empty 5) eq_refl)
    as (gs & self' & g' & E & Hp & _ & _ & Hr & _).
  exists gs, self', g'. repeat split; assumption.
Defined.

(** C5.  A storage failure that raises: the table is empty, the Gateway
    answers the existence check and fails the INSERT of the default row.
    [create_guild_settings] reports false, as a storage failure should be
    reported, but [get], which does not look at that result, then reads the
    entity it expects in the collection and raises KeyError. *)
Theorem get_raises_KeyError_when_insert_fails :
  (GuildSettingsCollection.create_guild_settings ∅ example_bot 5 failing_gateway).1
    = Ok (false, ∅) ∧
  (GuildSettingsCollection.get ∅ example_bot 5 failing_gateway).1 = Raise KeyError ∧
  journal (GuildSettingsCollection.get ∅ example_bot 5 failing_gateway).2
    = [(INSERT 5 (VInt 1), false)].
Proof. repeat split. Qed.

(** * Further properties of the module *)

(** ** Codec of the notify type *)

(** X1.  The notify type and its stored code: decoding the code of a type
    gives the type back; a code other than 1 and 2 (null and 0 included)
    decodes to no value; and what decodes is encoded back to the same
    code. *)
Theorem notify_type_codec_round_trip :
  (∀ t, convert_to_autodaily_notify_type
          (convert_from_autodaily_notify_type (Some t)) = Some t) ∧
  convert_from_autodaily_notify_type None = None ∧
  (∀ code, code ≠ Some 1 → code ≠ Some 2 →
           convert_to_autodaily_notify_type code = None) ∧
  (∀ code t, convert_to_autodaily_notify_type code = Some t →
             convert_from_autodaily_notify_type (Some t) = code).
Proof.
  split; [intros []; reflexivity|]. split; [reflexivity|]. split.
  - intros [n|] H1 H2; [|reflexivity].
    unfold convert_to_autodaily_notify_type, truthy_int.
    destruct (n =? 0); [reflexivity|]. simpl.
    destruct n as [|[[p|p|]|[p|p|]|]|]; simpl; try reflexivity; congruence.
  - intros [n|] t; unfold convert_to_autodaily_notify_type, truthy_int;
      [|discriminate].
    destruct (n =? 0); [discriminate|]. simpl.
    destruct n as [|[[p|p|]|[p|p|]|]|]; simpl; intros E; try discriminate E;
      injection E as E; subst t; reflexivity.
Qed.

Lemma notify_type_codec_round_trip_witness :
  convert_to_autodaily_notify_type (Some 7) = None ∧
  convert_from_autodaily_notify_type (Some ROLE) = Some 2.
Proof.
  destruct notify_type_codec_round_trip as (_ & _ & Hunknown & Hback).
  split.
  - apply Hunknown; discriminate.
  - apply (Hback (Some 2) ROLE). reflexivity.
Defined.

(** ** What an UPDATE does to the table *)

Lemma set_column_guildid (c : Column) (v : Value) (r r' : Row) :
  set_column c v r = Some r' → guildid r' = guildid r.
Proof.
  destruct r, c, v; simpl; intros H; try discriminate;
    injection H as H; subst r'; reflexivity.
Qed.

Lemma set_columns_guildid (settings : Settings) (r r' : Row) :
  set_columns settings r = Some r' → guildid r' = guildid r.
Proof.
  revert r. induction settings as [|[c v] rest IH]; simpl; intros r H.
  - now injection H as <-.
  - destruct (set_column c v r) as [r1|] eqn:E; [|discriminate]. simpl in H.
    rewrite (IH _ H). now apply (set_column_guildid c v).
Qed.

Lemma patched_guildid (settings : Settings) (r : Row) :
  guildid (patched settings r) = guildid r.
Proof.
  unfold patched. destruct (set_columns settings r) as [r'|] eqn:E; [|reflexivity].
  simpl. now apply (set_columns_guildid settings).
Qed.

(** An UPDATE that goes through replaces the rows of its guild by their
    patched versions and keeps every other row. *)
Lemma update_rows_Some (settings : Settings) (guild : Z) (tbl tbl' : list Row) :
  update_rows settings guild tbl = Some tbl' →
  tbl' = (λ r, if guildid r =? guild then patched settings r else r) <$> tbl.
Proof.
  revert tbl'. induction tbl as [|r tbl IH]; simpl; intros tbl' H.
  - now injection H as <-.
  - destruct (guildid r =? guild) eqn:Hk.
    + destruct (set_columns settings r) as [r'|] eqn:E; [|discriminate].
      simpl in H. destruct (update_rows settings guild tbl) as [t|]; [|discriminate].
      simpl in H. injection H as <-. rewrite (IH t eq_refl).
      unfold patched. rewrite E. reflexivity.
    + simpl in H. destruct (update_rows settings guild tbl) as [t|]; [|discriminate].
      simpl in H. injection H as <-. now rewrite (IH t eq_refl).
Qed.

Lemma rows_of_fmap_other (f : Row → Row) (guild other : Z) (tbl : list Row) :
  other ≠ guild →
  (∀ r, guildid (f r) = guildid r) →
  rows_of other ((λ r, if guildid r =? guild then f r else r) <$> tbl)
    = rows_of other tbl.
Proof.
  intros Hne Hf. unfold rows_of. induction tbl as [|r tbl IH]; [reflexivity|].
  rewrite fmap_cons, !filter_cons, IH.
  destruct (Z.eqb_spec (guildid r) guild) as [Hk|Hk].
  - rewrite Hf. destruct (decide (guildid r = other)); [congruence|reflexivity].
  - reflexivity.
Qed.

Lemma rows_of_fmap_same (f : Row → Row) (guild : Z) (tbl : list Row) :
  (∀ r, guildid (f r) = guildid r) →
  rows_of guild ((λ r, if guildid r =? guild then f r else r) <$> tbl)
    = f <$> rows_of guild tbl.
Proof.
  intros Hf. unfold rows_of. induction tbl as [|r tbl IH]; [reflexivity|].
  rewrite fmap_cons, !filter_cons, IH.
  destruct (Z.eqb_spec (guildid r) guild) as [Hk|Hk].
  - rewrite Hf. destruct (decide (guildid r = guild)); [reflexivity|congruence].
  - destruct (decide (guildid r = guild)); [congruence|reflexivity].
Qed.

Lemma keys_fmap (f : Row → Row) (guild : Z) (tbl : list Row) :
  (∀ r, guildid (f r) = guildid r) →
  guildid <$> ((λ r, if guildid r =? guild then f r else r) <$> tbl)
    = guildid <$> tbl.
Proof.
  intros Hf. induction tbl as [|r tbl IH]; [reflexivity|].
  rewrite !fmap_cons, IH. destruct (guildid r =? guild); [now rewrite Hf|reflexivity].
Qed.

(** The table after a well-typed UPDATE that the Gateway let through. *)
Lemma table_after_update (settings : Settings) (guild : Z) (g : Gateway) :
  well_typed settings →
  next_ok g = true →
  table (after_write (UPDATE settings (Some guild)) g)
    = (λ r, if guildid r =? guild then patched settings r else r) <$> table g.
Proof.
  intros Hwt Hok. unfold after_write. rewrite Hok. simpl.
  destruct (update_rows_is_Some settings guild (table g) Hwt) as [t' E].
  rewrite E. simpl. now apply update_rows_Some.
Qed.

Lemma rows_after_update (settings : Settings) (guild : Z) (g : Gateway) :
  well_typed settings →
  next_ok g = true →
  rows_of guild (table (after_write (UPDATE settings (Some guild)) g))
    = patched settings <$> rows_of guild (table g).
Proof.
  intros Hwt Hok. rewrite table_after_update by assumption.
  apply rows_of_fmap_same, patched_guildid.
Qed.

(** ** Staying within the guild *)

Lemma stays_within_ret {A : Type} (guild : option Z) (a : A) :
  stays_within guild (mret a).
Proof. intros g. split; reflexivity. Qed.

Lemma stays_within_raise {A : Type} (guild : option Z) (e : PyError) :
  stays_within guild (@raise A e).
Proof. intros g. split; reflexivity. Qed.

Lemma stays_within_bind {A B : Type} (guild : option Z) (m : M A) (f : A → M B) :
  stays_within guild m → (∀ a, stays_within guild (f a)) →
  stays_within guild (m ≫= f).
Proof.
  intros Hm Hf g. unfold mbind, M_bind.
  destruct (Hm g) as [H1 H2]. destruct (m g) as [[a|e] g1]; simpl in *.
  - destruct (Hf a g1) as [H3 H4]. split.
    + intros other Hne. rewrite (H3 other Hne). now apply H1.
    + now rewrite H4.
  - split; assumption.
Qed.

Lemma stays_within_update (guild : option Z) (settings : Settings) :
  stays_within guild (_db_update_server_settings guild settings).
Proof.
  intros g. destruct settings as [|cv rest]; [split; reflexivity|].
  unfold _db_update_server_settings, try_execute.
  destruct (hd true (faults g)); [|split; reflexivity].
  destruct guild as [i|]; simpl; [|split; reflexivity].
  destruct (update_rows (cv :: rest) i (table g)) as [t'|] eqn:E;
    [|split; reflexivity].
  simpl. apply update_rows_Some in E. subst t'. split.
  - intros other Hne. apply rows_of_fmap_other; [congruence|apply patched_guildid].
  - apply keys_fmap, patched_guildid.
Qed.

Ltac stays_within_tac :=
  repeat first
    [ apply stays_within_ret
    | apply stays_within_raise
    | apply stays_within_update
    | apply stays_within_bind; [|intros []]
    | match goal with
      | |- stays_within _ (match ?x with _ => _ end) => destruct x
      | |- stays_within _ (if ?x then _ else _) => destruct x
      end ].

Ltac split_conj := repeat match goal with |- _ ∧ _ => split end.

Lemma stays_within_None {A : Type} (guild : option Z) (m : M A) :
  stays_within None m → stays_within guild m.
Proof.
  intros H g. destruct (H g) as [H1 H2]. split; [|exact H2].
  intros other _. apply H1. discriminate.
Qed.

Lemma autodaily_reset_stays_within (a : AutoDailySettings.t) :
  stays_within (AutoDailySettings.guild_id a) (AutoDailySettings.reset a).
Proof. unfold AutoDailySettings.reset. cbv zeta. stays_within_tac. Qed.

(** X2.  No mutation of an AutoDailySettings reaches another guild: whatever
    the arguments and whatever the Gateway answers, each of the nine
    methods leaves the rows of every other guild as they were, and neither
    adds nor removes a row key. *)
Theorem autodaily_mutations_stay_within (self : AutoDailySettings.t) :
  let guild := AutoDailySettings.guild_id self in
  stays_within guild (AutoDailySettings.reset self) ∧
  stays_within guild (AutoDailySettings.reset_channel self) ∧
  stays_within guild (AutoDailySettings.reset_daily_delete_on_change self) ∧
  stays_within guild (AutoDailySettings.reset_latest_message self) ∧
  stays_within guild (AutoDailySettings.reset_notify self) ∧
  stays_within guild (AutoDailySettings.toggle_change_mode self) ∧
  (∀ channel, stays_within guild (AutoDailySettings.set_channel self channel)) ∧
  (∀ message,
     stays_within guild (AutoDailySettings.set_latest_message self message)) ∧
  (∀ notify, stays_within guild (AutoDailySettings.set_notify self notify)).
Proof.
  intros guild. subst guild.
  split_conj; intros;
    unfold AutoDailySettings.reset, AutoDailySettings.reset_channel,
      AutoDailySettings.reset_daily_delete_on_change,
      AutoDailySettings.reset_latest_message, AutoDailySettings.reset_notify,
      AutoDailySettings.toggle_change_mode, AutoDailySettings.set_channel,
      AutoDailySettings.set_latest_message, AutoDailySettings.set_notify,
      AutoDailySettings.settings_item;
    cbv zeta; stays_within_tac.
Qed.

Lemma stays_within_bind_post {A B : Type} (guild : option Z) (P : A → Prop)
    (m : M A) (f : A → M B) :
  stays_within guild m →
  (∀ g a g', m g = (Ok a, g') → P a) →
  (∀ a, P a → stays_within guild (f a)) →
  stays_within guild (m ≫= f).
Proof.
  intros Hm HP Hf g. unfold mbind, M_bind.
  destruct (Hm g) as [H1 H2]. destruct (m g) as [[a|e] g1] eqn:E; simpl in *.
  - destruct (Hf a (HP g a g1 E) g1) as [H3 H4]. split.
    + intros other Hne. rewrite (H3 other Hne). now apply H1.
    + now rewrite H4.
  - split; assumption.
Qed.

Lemma reset_prefix_keeps (self s : GuildSettings.t) (r : bool) (g g' : Gateway) :
  GuildSettings.reset_prefix self g = (Ok (r, s), g') →
  GuildSettings.__guild_id s = GuildSettings.__guild_id self ∧
  GuildSettings.autodaily s = GuildSettings.autodaily self.
Proof.
  rewrite reset_prefix_eq.
  destruct (truthy_str _), (next_ok g); intros [= _ <- _]; split; reflexivity.
Qed.

Lemma reset_use_pagination_keeps (self s : GuildSettings.t) (r : bool)
    (g g' : Gateway) :
  GuildSettings.reset_use_pagination self g = (Ok (r, s), g') →
  GuildSettings.__guild_id s = GuildSettings.__guild_id self ∧
  GuildSettings.autodaily s = GuildSettings.autodaily self.
Proof.
  rewrite reset_use_pagination_eq.
  destruct (is_set _), (next_ok g); intros [= _ <- _]; split; reflexivity.
Qed.

(** The entity's sub-settings belong to the entity's guild. *)
Lemma init_autodaily_guild (bot : Bot) (row : Row) :
  AutoDailySettings.guild_id
    (GuildSettings.autodaily (GuildSettings.__init__ bot row)) = None ∨
  AutoDailySettings.guild_id
    (GuildSettings.autodaily (GuildSettings.__init__ bot row))
    = Some (guildid row).
Proof.
  unfold GuildSettings.__init__, GuildSettings.autodaily,
    AutoDailySettings.guild_id, AutoDailySettings.guild.
  cbn [GuildSettings.__autodaily_settings AutoDailySettings.__init__
       AutoDailySettings.__guild].
  unfold get_guild.
  destruct (find _ _) as [gd|] eqn:E; [|now left].
  right. apply find_some in E as [_ E]. apply Z.eqb_eq in E. now rewrite E.
Qed.

(** X3.  No mutation of a GuildSettings built from its row reaches another
    guild: the three resets, the compound reset and the three setters leave
    the rows of every other guild as they were, whatever the Gateway and
    the argument check answer. *)
Theorem guild_mutations_stay_within `{AppSettings} `{PssAssert}
    (bot : Bot) (row : Row) :
  let self := GuildSettings.__init__ bot row in
  let guild := Some (guildid row) in
  stays_within guild (GuildSettings.reset_prefix self) ∧
  stays_within guild (GuildSettings.reset_use_pagination self) ∧
  stays_within guild (GuildSettings.reset_bot_news_channel self) ∧
  stays_within guild (GuildSettings.reset self) ∧
  (∀ channel, stays_within guild (GuildSettings.set_bot_news_channel self channel)) ∧
  (∀ prefix, stays_within guild (GuildSettings.set_prefix self prefix)) ∧
  (∀ switch, stays_within guild (GuildSettings.set_use_pagination self switch)).
Proof.
  intros self guild.
  assert (Hreset : ∀ s, GuildSettings.__guild_id s = guildid row →
            stays_within guild (GuildSettings.reset_prefix s) ∧
            stays_within guild (GuildSettings.reset_use_pagination s) ∧
            stays_within guild (GuildSettings.reset_bot_news_channel s)).
  { intros s Hs. subst guild. rewrite <- Hs.
    split_conj;
      unfold GuildSettings.reset_prefix, GuildSettings.reset_use_pagination,
        GuildSettings.reset_bot_news_channel; cbv zeta; stays_within_tac. }
  assert (Hauto : stays_within guild
            (AutoDailySettings.reset (GuildSettings.autodaily self))).
  { pose proof (autodaily_reset_stays_within (GuildSettings.autodaily self)) as Hr.
    destruct (init_autodaily_guild bot row) as [E|E]; fold self in E;
      rewrite E in Hr; [now apply stays_within_None|exact Hr]. }
  destruct (Hreset self eq_refl) as (H1 & H2 & H3).
  split; [exact H1|]. split; [exact H2|]. split; [exact H3|]. split.
  - unfold GuildSettings.reset.
    apply (stays_within_bind_post guild
             (λ a, GuildSettings.__guild_id a.2 = guildid row ∧
                   GuildSettings.autodaily a.2 = GuildSettings.autodaily self));
      [exact H1| |].
    { intros g [r s] g' E. apply reset_prefix_keeps in E. exact E. }
    intros [r1 s1] [Hid1 Hauto1]. simpl in Hid1, Hauto1.
    apply (stays_within_bind_post guild
             (λ a, GuildSettings.__guild_id a.2 = guildid row ∧
                   GuildSettings.autodaily a.2 = GuildSettings.autodaily self));
      [apply (Hreset s1 Hid1)| |].
    { intros g [r s] g' E. apply reset_use_pagination_keeps in E.
      simpl. destruct E as [-> ->]. split; assumption. }
    intros [r2 s2] [Hid2 Hauto2]. simpl in Hid2, Hauto2.
    rewrite Hauto2.
    apply stays_within_bind; [exact Hauto|]. intros [r3 a3].
    apply stays_within_bind;
      [apply (Hreset (GuildSettings.with_autodaily a3 s2)); exact Hid2|].
    intros [r4 s4]. apply stays_within_ret.
  - subst guild self. split_conj; intros;
      unfold GuildSettings.set_bot_news_channel, GuildSettings.set_prefix,
        GuildSettings.set_use_pagination, GuildSettings.id; cbv zeta;
      stays_within_tac.
Qed.

(** ** All or nothing *)

Lemma all_or_nothing_write {S : Type} (guild : option Z) (settings : Settings)
    (self new : S) (k : bool → M (bool * S)) :
  (∀ g, k true g = (Ok (true, new), g)) →
  (∀ g, k false g = (Ok (false, self), g)) →
  all_or_nothing self (_db_update_server_settings guild settings ≫= k).
Proof.
  intros Ht Hf g. unfold mbind, M_bind.
  destruct settings as [|cv rest].
  - simpl. rewrite Ht. exact I.
  - unfold _db_update_server_settings, try_execute.
    destruct (if hd true (faults g) then _ else _) as [t'|].
    + rewrite Ht. exact I.
    + rewrite Hf. simpl. split; reflexivity.
Qed.

Lemma all_or_nothing_ret {S : Type} (self s : S) :
  all_or_nothing self (mret (true, s)).
Proof. intros g. exact I. Qed.

Lemma all_or_nothing_unchanged {S : Type} (self : S) (r : bool) :
  all_or_nothing self (mret (r, self)).
Proof. intros g. destruct r; simpl; [exact I|split; reflexivity]. Qed.

Lemma all_or_nothing_raise {S : Type} (self : S) (e : PyError) :
  all_or_nothing self (raise e).
Proof. intros g. reflexivity. Qed.

Ltac all_or_nothing_tac :=
  repeat first
    [ apply all_or_nothing_ret
    | apply all_or_nothing_unchanged
    | apply all_or_nothing_raise
    | eapply all_or_nothing_write; intros; reflexivity
    | match goal with
      | |- all_or_nothing _ (match ?x with _ => _ end) => destruct x
      | |- all_or_nothing _ (if ?x then _ else _) => destruct x
      end ].

Lemma set_latest_message_all_or_nothing (self : AutoDailySettings.t)
    (message : option Message) :
  all_or_nothing self (AutoDailySettings.set_latest_message self message).
Proof.
  unfold AutoDailySettings.set_latest_message.
  destruct message as [m|]; cbv zeta.
  - destruct (AutoDailySettings.differs _ _);
      [|apply all_or_nothing_unchanged].
    destruct (match AutoDailySettings.latest_message_created_at self with
              | Some _ => _ | None => _ end);
      cbn [app]; cbv iota; all_or_nothing_tac.
  - cbv iota. all_or_nothing_tac.
Qed.

(** X4.  The mutations of an AutoDailySettings are all or nothing: whatever
    the arguments and whatever the Gateway answers, a call that reports
    failure, or raises, has changed neither the table nor the entity. *)
Theorem autodaily_mutations_all_or_nothing (self : AutoDailySettings.t) :
  all_or_nothing self (AutoDailySettings.reset self) ∧
  all_or_nothing self (AutoDailySettings.reset_channel self) ∧
  all_or_nothing self (AutoDailySettings.reset_daily_delete_on_change self) ∧
  all_or_nothing self (AutoDailySettings.reset_latest_message self) ∧
  all_or_nothing self (AutoDailySettings.reset_notify self) ∧
  all_or_nothing self (AutoDailySettings.toggle_change_mode self) ∧
  (∀ channel, all_or_nothing self (AutoDailySettings.set_channel self channel)) ∧
  (∀ message,
     all_or_nothing self (AutoDailySettings.set_latest_message self message)) ∧
  (∀ notify, all_or_nothing self (AutoDailySettings.set_notify self notify)).
Proof.
  split_conj; intros;
    unfold AutoDailySettings.reset, AutoDailySettings.reset_channel,
      AutoDailySettings.reset_daily_delete_on_change,
      AutoDailySettings.reset_latest_message, AutoDailySettings.reset_notify,
      AutoDailySettings.toggle_change_mode, AutoDailySettings.set_channel,
      AutoDailySettings.set_notify;
    cbv zeta; try apply set_latest_message_all_or_nothing; all_or_nothing_tac.
Qed.

Lemma all_or_nothing_ret_bind {A S : Type} (self : S) (a : A)
    (f : A → M (bool * S)) :
  all_or_nothing self (f a) → all_or_nothing self (mret a ≫= f).
Proof. intros H g. exact (H g). Qed.

Lemma all_or_nothing_raise_bind {A S : Type} (self : S) (e : PyError)
    (f : A → M (bool * S)) :
  all_or_nothing self (raise e ≫= f).
Proof. intros g. reflexivity. Qed.

(** X5.  So are the single-field mutations of a GuildSettings: the three
    resets and the three setters, whatever the argument check answers. *)
Theorem guild_mutations_all_or_nothing `{AppSettings} `{PssAssert}
    (self : GuildSettings.t) :
  all_or_nothing self (GuildSettings.reset_prefix self) ∧
  all_or_nothing self (GuildSettings.reset_use_pagination self) ∧
  all_or_nothing self (GuildSettings.reset_bot_news_channel self) ∧
  (∀ channel, all_or_nothing self (GuildSettings.set_bot_news_channel self channel)) ∧
  (∀ prefix, all_or_nothing self (GuildSettings.set_prefix self prefix)) ∧
  (∀ switch, all_or_nothing self (GuildSettings.set_use_pagination self switch)).
Proof.
  split_conj; intros;
    unfold GuildSettings.reset_prefix, GuildSettings.reset_use_pagination,
      GuildSettings.reset_bot_news_channel, GuildSettings.set_bot_news_channel,
      GuildSettings.set_prefix, GuildSettings.set_use_pagination;
    cbv zeta;
    repeat match goal with
           | |- all_or_nothing _ ((match ?x with _ => _ end) ≫= _) => destruct x
           | |- all_or_nothing _ (mret _ ≫= _) => apply all_or_nothing_ret_bind
           | |- all_or_nothing _ (raise _ ≫= _) => apply all_or_nothing_raise_bind
           end;
    all_or_nothing_tac.
Qed.

(** ** The collection, whatever the Gateway answers *)

Lemma db_create_server_settings_cases (guild_id : Z) (g : Gateway) :
  ∃ b g', db_create_server_settings guild_id g = (Ok b, g') ∧
          (b = true → rows_of guild_id (table g') ≠ []).
Proof.
  unfold db_create_server_settings, db_get_has_settings, mbind, M_bind.
  rewrite _db_get_server_settings_eq.
  destruct (next_ok g) eqn:Hok.
  - destruct (rows_of guild_id (table g)) as [|r rows] eqn:Hrows.
    + unfold mret, M_ret, try_execute.
      destruct (hd true (faults (after_read g))); simpl.
      * rewrite (rows_of_nil_has_row _ _ Hrows). simpl.
        eexists _, _. split; [reflexivity|]. intros _. simpl.
        rewrite rows_of_app, Hrows, rows_of_inserted. discriminate.
      * eexists _, _. split; [reflexivity|]. discriminate.
    + eexists _, _. split; [reflexivity|]. intros _. simpl. rewrite Hrows.
      discriminate.
  - unfold mret, M_ret, try_execute.
    destruct (hd true (faults (after_read g))); simpl.
    + destruct (has_row guild_id (table g)) eqn:Hhas; simpl.
      * eexists _, _. split; [reflexivity|]. discriminate.
      * eexists _, _. split; [reflexivity|]. intros _. simpl.
        rewrite rows_of_app, rows_of_inserted.
        destruct (rows_of guild_id (table g)); discriminate.
    + eexists _, _. split; [reflexivity|]. discriminate.
Qed.

Lemma rows_of_elem (guild : Z) (tbl : list Row) (r : Row) :
  r ∈ rows_of guild tbl ↔ r ∈ tbl ∧ guildid r = guild.
Proof. unfold rows_of. rewrite list_elem_of_filter. tauto. Qed.

(** X6.  [create_guild_settings] never raises, and its result can be
    trusted whatever the Gateway answers: when it returns true, the
    collection holds under the guild's id the entity of a row of that guild
    that is in the table (and nothing else of the collection changed);
    when it returns false, the collection is as it was. *)
Theorem create_guild_settings_sound (self : gmap Z GuildSettings.t) (bot : Bot)
    (guild_id : Z) (g : Gateway) :
  ∃ success self' g',
    GuildSettingsCollection.create_guild_settings self bot guild_id g
      = (Ok (success, self'), g') ∧
    if success
    then ∃ row, row ∈ table g' ∧ guildid row = guild_id ∧
                self' = <[guild_id := GuildSettings.__init__ bot row]> self
    else self' = self.
Proof.
  unfold GuildSettingsCollection.create_guild_settings, mbind, M_bind.
  destruct (db_create_server_settings_cases guild_id g) as (b & g1 & -> & _).
  destruct b.
  - rewrite _db_get_server_settings_eq.
    destruct (next_ok g1);
      [|eexists false, _, _; split; reflexivity].
    destruct (rows_of guild_id (table g1)) as [|row rows] eqn:Hrows;
      [eexists false, _, _; split; reflexivity|].
    eexists true, _, _. split; [reflexivity|]. exists row.
    assert (Hin : row ∈ rows_of guild_id (table g1))
      by (rewrite Hrows; apply list_elem_of_here).
    apply rows_of_elem in Hin as [Hin Hk]. repeat split; assumption.
  - eexists false, _, _. split; reflexivity.
Qed.

Lemma create_guild_settings_returns (self : gmap Z GuildSettings.t) (bot : Bot)
    (guild_id : Z) (g : Gateway) :
  ∃ success self' g',
    GuildSettingsCollection.create_guild_settings self bot guild_id g
      = (Ok (success, self'), g') ∧
    if success then is_Some (self' !! guild_id) else self' = self.
Proof.
  unfold GuildSettingsCollection.create_guild_settings, mbind, M_bind.
  destruct (db_create_server_settings_cases guild_id g) as (b & g1 & -> & _).
  destruct b; [|eexists false, _, _; split; reflexivity].
  rewrite _db_get_server_settings_eq.
  destruct (if next_ok g1 then _ else _) as [|row rows].
  - eexists false, _, _. split; reflexivity.
  - eexists true, _, _. split; [reflexivity|]. rewrite lookup_insert_eq. eauto.
Qed.

Lemma init_id (bot : Bot) (row : Row) :
  GuildSettings.id (GuildSettings.__init__ bot row) = guildid row.
Proof. reflexivity. Qed.

Lemma keyed_by_id_insert (self : gmap Z GuildSettings.t) (bot : Bot) (row : Row) :
  keyed_by_id self →
  keyed_by_id (<[guildid row := GuildSettings.__init__ bot row]> self).
Proof.
  intros Hself k gs. rewrite lookup_insert.
  destruct (decide (guildid row = k)) as [<-|Hne].
  - intros [= <-]. apply init_id.
  - apply Hself.
Qed.

Lemma keyed_by_id_foldl (bot : Bot) (rows : list Row) (self : gmap Z GuildSettings.t) :
  keyed_by_id self →
  keyed_by_id
    (foldl (λ data row, <[guildid row := GuildSettings.__init__ bot row]> data)
           self rows).
Proof.
  revert self. induction rows as [|row rows IH]; intros self Hself; [exact Hself|].
  simpl. apply IH. now apply keyed_by_id_insert.
Qed.

Lemma get_cases (self : gmap Z GuildSettings.t) (bot : Bot) (guild_id : Z)
    (g : Gateway) :
  match self !! guild_id with
  | Some guild_settings =>
      GuildSettingsCollection.get self bot guild_id g = (Ok (guild_settings, self), g)
  | None =>
      ∃ success self' g',
        GuildSettingsCollection.create_guild_settings self bot guild_id g
          = (Ok (success, self'), g') ∧
        GuildSettingsCollection.get self bot guild_id g =
          (match self' !! guild_id with
           | Some guild_settings => Ok (guild_settings, self')
           | None => Raise KeyError
           end, g')
  end.
Proof.
  unfold GuildSettingsCollection.get, mbind, M_bind.
  destruct (self !! guild_id) as [gs|] eqn:Hself.
  - unfold mret, M_ret. rewrite Hself. reflexivity.
  - destruct (create_guild_settings_returns self bot guild_id g)
      as (b & self' & g' & E & _).
    exists b, self', g'. split; [exact E|]. rewrite E. unfold mret, M_ret.
    destruct (self' !! guild_id); reflexivity.
Qed.

(** X7.  [get] hands out the entry of the requested guild and nothing else,
    whatever the Gateway answers: for a cached guild it returns the cached
    entity without a call to the Gateway and leaves the collection as it
    is; otherwise it either returns the entity it has just put under the
    guild's id, or raises KeyError, the only error it can raise, and then
    the collection is as it was. *)
Theorem get_returns_the_entry (self : gmap Z GuildSettings.t) (bot : Bot)
    (guild_id : Z) (g : Gateway) :
  match GuildSettingsCollection.get self bot guild_id g with
  | (Ok (guild_settings, self'), g') =>
      self' !! guild_id = Some guild_settings ∧
      (∀ cached, self !! guild_id = Some cached →
                 guild_settings = cached ∧ self' = self ∧ g' = g)
  | (Raise e, _) => e = KeyError ∧ self !! guild_id = None
  end ∧
  (self !! guild_id = None →
   ∀ e g', GuildSettingsCollection.get self bot guild_id g = (Raise e, g') →
           (GuildSettingsCollection.create_guild_settings self bot guild_id g).1
             = Ok (false, self)).
Proof.
  pose proof (get_cases self bot guild_id g) as Hget.
  destruct (self !! guild_id) as [gs|] eqn:Hself.
  - rewrite Hget. split.
    + split; [exact Hself|]. intros cached [= <-]. repeat split.
    + discriminate.
  - destruct Hget as (b & self' & g' & Ecreate & ->).
    destruct (create_guild_settings_returns self bot guild_id g)
      as (b0 & self0 & g0 & E0 & Hb).
    rewrite Ecreate in E0. injection E0 as <- <- <-.
    destruct (self' !! guild_id) as [gs|] eqn:Hnew.
    + split; [|discriminate]. split; [exact Hnew|]. discriminate.
    + split; [split; reflexivity|]. intros _ e g1 _. rewrite Ecreate. simpl.
      destruct b; [|now subst].
      destruct Hb as [x Hx]. discriminate Hx.
Qed.

Lemma create_guild_settings_keyed (self : gmap Z GuildSettings.t) (bot : Bot)
    (guild_id : Z) (g : Gateway) (success : bool)
    (self' : gmap Z GuildSettings.t) (g' : Gateway) :
  keyed_by_id self →
  GuildSettingsCollection.create_guild_settings self bot guild_id g
    = (Ok (success, self'), g') →
  keyed_by_id self'.
Proof.
  intros Hself.
  unfold GuildSettingsCollection.create_guild_settings, mbind, M_bind.
  destruct (db_create_server_settings_cases guild_id g) as (b & g1 & -> & _).
  destruct b; [|intros [= _ <- _]; exact Hself].
  rewrite _db_get_server_settings_eq.
  destruct (next_ok g1); [|intros [= _ <- _]; exact Hself].
  destruct (rows_of guild_id (table g1)) as [|row rows] eqn:Hrows;
    [intros [= _ <- _]; exact Hself|].
  intros [= _ <- _].
  assert (Hin : row ∈ rows_of guild_id (table g1))
    by (rewrite Hrows; apply list_elem_of_here).
  apply rows_of_elem in Hin as [_ <-]. now apply keyed_by_id_insert.
Qed.

(** X8.  The collection keeps every entity under its own guild id: when it
    does so before, it does so after [create_guild_settings],
    [delete_guild_settings], [get] and [init], whatever the Gateway answers;
    and the entity [get] returns then has the id that was asked for. *)
Theorem collection_keyed_by_id (self : gmap Z GuildSettings.t) (bot : Bot)
    (guild_id : Z) (g : Gateway) :
  keyed_by_id self →
  (∀ success self' g',
     GuildSettingsCollection.create_guild_settings self bot guild_id g
       = (Ok (success, self'), g') → keyed_by_id self') ∧
  (∀ success self' g',
     GuildSettingsCollection.delete_guild_settings self guild_id g
       = (Ok (success, self'), g') → keyed_by_id self') ∧
  (∀ guild_settings self' g',
     GuildSettingsCollection.get self bot guild_id g
       = (Ok (guild_settings, self'), g') →
     keyed_by_id self' ∧ GuildSettings.id guild_settings = guild_id) ∧
  (∀ self' g',
     GuildSettingsCollection.init self bot g = (Ok self', g') → keyed_by_id self').
Proof.
  intros Hself. split_conj.
  - intros success self' g'. now apply create_guild_settings_keyed.
  - intros success self' g'.
    unfold GuildSettingsCollection.delete_guild_settings,
      db_delete_server_settings, mbind, M_bind, try_execute.
    destruct (if hd true (faults g) then _ else _);
      intros [= _ <- _]; [|exact Hself].
    intros k gs Hk. apply lookup_delete_Some in Hk as [_ Hk]. now apply Hself.
  - intros gs self' g' E.
    pose proof (get_cases self bot guild_id g) as Hget.
    destruct (self !! guild_id) as [cached|] eqn:Hc.
    + rewrite Hget in E. injection E as <- <- <-.
      split; [exact Hself|]. now apply Hself.
    + destruct Hget as (b & self1 & g1 & Ecreate & Eget).
      rewrite Eget in E.
      destruct (self1 !! guild_id) as [gs1|] eqn:Hnew; [|discriminate].
      injection E as <- <- <-.
      assert (Hk : keyed_by_id self1)
        by exact (create_guild_settings_keyed _ _ _ _ _ _ _ Hself Ecreate).
      split; [exact Hk|]. now apply Hk.
  - intros self' g'. unfold GuildSettingsCollection.init, mbind, M_bind.
    rewrite _db_get_server_settings_eq. intros [= <- _].
    now apply keyed_by_id_foldl.
Qed.

Lemma collection_keyed_by_id_witness :
  ∃ guild_settings self' g',
    GuildSettingsCollection.get ∅ example_bot 5 example_gateway
      = (Ok (guild_settings, self'), g') ∧
    keyed_by_id self' ∧ GuildSettings.id guild_settings = 5.
Proof.
  assert (H0 : keyed_by_id (∅ : gmap Z GuildSettings.t)).
  { intros k gs Hk. rewrite lookup_empty in Hk. discriminate. }
  destruct (collection_keyed_by_id ∅ example_bot 5 example_gateway H0)
    as (_ & _ & Hget & _).
  lazymatch goal with
  | |- ∃ _ _ _, ?call = _ ∧ _ =>
      let v := eval vm_compute in call in
      lazymatch v with
      | (Ok (?gs, ?s), ?g) => exists gs, s, g
      end
  end.
  split; [reflexivity|]. eapply Hget. reflexivity.
Defined.

(** The table after a DELETE that the Gateway let through holds no row of
    the guild and every row of the others. *)
Lemma rows_of_filter_ne (guild other : Z) (tbl : list Row) :
  rows_of other (filter (λ r, guildid r ≠ guild) tbl)
    = if decide (other = guild) then [] else rows_of other tbl.
Proof.
  unfold rows_of. induction tbl as [|r tbl IH]; simpl.
  - destruct (decide (other = guild)); reflexivity.
  - rewrite !filter_cons.
    destruct (decide (guildid r ≠ guild)) as [Hne|Heq].
    + rewrite filter_cons, IH.
      destruct (decide (guildid r = other)) as [Hk|Hk];
        destruct (decide (other = guild)); try reflexivity; congruence.
    + rewrite IH. apply dec_stable in Heq.
      destruct (decide (guildid r = other)) as [Hk|Hk];
        destruct (decide (other = guild)); try reflexivity; congruence.
Qed.

(** X9.  [delete_guild_settings] reports the Gateway's answer.  When the
    DELETE went through, the table holds no row of the guild and the
    collection no entry for it, while the rows and entries of every other
    guild are as they were; when it failed, table and collection are as
    they were. *)
Theorem delete_guild_settings_spec (self : gmap Z GuildSettings.t)
    (guild_id : Z) (g : Gateway) :
  ∃ self' g',
    GuildSettingsCollection.delete_guild_settings self guild_id g
      = (Ok (next_ok g, self'), g') ∧
    if next_ok g
    then rows_of guild_id (table g') = [] ∧
         self' !! guild_id = None ∧
         (∀ other, other ≠ guild_id →
            rows_of other (table g') = rows_of other (table g) ∧
            self' !! other = self !! other)
    else table g' = table g ∧ self' = self.
Proof.
  unfold GuildSettingsCollection.delete_guild_settings,
    db_delete_server_settings, mbind, M_bind, try_execute.
  fold (next_ok g). destruct (next_ok g); simpl.
  - eexists _, _. split; [reflexivity|]. simpl. split_conj.
    + fold (rows_of guild_id (filter (λ r, guildid r ≠ guild_id) (table g))).
      rewrite rows_of_filter_ne. now rewrite decide_True.
    + apply lookup_delete_eq.
    + intros other Hne. split.
      * fold (rows_of other (filter (λ r, guildid r ≠ guild_id) (table g))).
        rewrite rows_of_filter_ne. now rewrite decide_False.
      * now apply lookup_delete_ne.
  - eexists _, _. split; [reflexivity|]. split; reflexivity.
Qed.

Lemma lookup_foldl_insert (bot : Bot) (rows : list Row)
    (self : gmap Z GuildSettings.t) (k : Z) :
  foldl (λ data row, <[guildid row := GuildSettings.__init__ bot row]> data)
        self rows !! k
  = match last (rows_of k rows) with
    | Some row => Some (GuildSettings.__init__ bot row)
    | None => self !! k
    end.
Proof.
  revert self. induction rows as [|r rows IH]; intros self; [reflexivity|].
  simpl. rewrite IH. unfold rows_of. rewrite filter_cons.
  destruct (decide (guildid r = k)) as [Hk|Hk].
  - rewrite last_cons. destruct (last (filter _ rows)); [reflexivity|].
    rewrite Hk. apply lookup_insert_eq.
  - destruct (last (filter _ rows)); [reflexivity|].
    now apply lookup_insert_ne.
Qed.

(** X10.  [init] loads what the read of the whole table returns: it never
    raises, sends no write, and afterwards every guild with a row is kept
    with the entity of its (last) row, while the entries of guilds without
    a row are kept as they were: the collection is extended and
    overwritten, not emptied first.  When the Gateway fails the read, the
    collection is as it was. *)
Theorem init_loads_the_table (self : gmap Z GuildSettings.t) (bot : Bot)
    (g : Gateway) :
  ∃ self',
    GuildSettingsCollection.init self bot g = (Ok self', after_read g) ∧
    (∀ k, self' !! k =
            match last (rows_of k (fetched None g)) with
            | Some row => Some (GuildSettings.__init__ bot row)
            | None => self !! k
            end) ∧
    (next_ok g = false → self' = self).
Proof.
  unfold GuildSettingsCollection.init, mbind, M_bind.
  rewrite _db_get_server_settings_eq. eexists. split; [reflexivity|]. split.
  - intros k. apply lookup_foldl_insert.
  - intros ->. reflexivity.
Qed.

Example init_keeps_other_entries :
  (GuildSettingsCollection.init {[ 9 := example_guild_settings ]} example_bot
     example_gateway).1
  = Ok (<[1 := example_guild_settings]> {[ 9 := example_guild_settings ]}).
Proof. reflexivity. Qed.

(** ** The collection on a Gateway that answers *)

Lemma get_uncached_healthy (self : gmap Z GuildSettings.t) (bot : Bot)
    (guild_id : Z) (g : Gateway) :
  healthy g →
  self !! guild_id = None →
  rows_of guild_id (table g) = [] →
  ∃ g',
    GuildSettingsCollection.get self bot guild_id g =
      (Ok (GuildSettings.__init__ bot
             (inserted_row guild_id (Some (change_mode_value POST_NEW))),
           <[guild_id :=
               GuildSettings.__init__ bot
                 (inserted_row guild_id (Some (change_mode_value POST_NEW)))]>
             self),
       g') ∧
    healthy g' ∧
    rows_of guild_id (table g')
      = [inserted_row guild_id (Some (change_mode_value POST_NEW))].
Proof.
  intros Hg Hself Hrows.
  destruct (db_create_server_settings_healthy guild_id g Hg)
    as (g1 & Ecreate & Hg1 & Hrows1).
  rewrite Hrows in Hrows1.
  exists (after_read g1). split; [|split].
  - unfold GuildSettingsCollection.get,
      GuildSettingsCollection.create_guild_settings, mbind, M_bind.
    rewrite Hself, Ecreate, _db_get_server_settings_eq.
    rewrite (healthy_next_ok g1 Hg1), Hrows1.
    unfold mret, M_ret. rewrite lookup_insert_eq. reflexivity.
  - now apply healthy_after_read.
  - exact Hrows1.
Qed.

Lemma delete_guild_settings_rows (self : gmap Z GuildSettings.t)
    (guild_id : Z) (g : Gateway) :
  healthy g →
  ∃ self1 g1,
    GuildSettingsCollection.delete_guild_settings self guild_id g
      = (Ok (true, self1), g1) ∧
    healthy g1 ∧ self1 !! guild_id = None ∧ rows_of guild_id (table g1) = [].
Proof.
  intros Hg.
  unfold GuildSettingsCollection.delete_guild_settings,
    db_delete_server_settings, mbind, M_bind, try_execute.
  fold (next_ok g). rewrite (healthy_next_ok g Hg). simpl.
  eexists _, _. split; [reflexivity|]. split_conj.
  - unfold healthy in *. simpl. destruct (faults g) as [|b l]; simpl;
      [constructor|now inversion Hg].
  - apply lookup_delete_eq.
  - simpl. fold (rows_of guild_id (filter (λ r, guildid r ≠ guild_id) (table g))).
    rewrite rows_of_filter_ne. now rewrite decide_True.
Qed.

(** X11.  Deleting a guild's settings forgets them.  With the Gateway
    answering, [delete_guild_settings] followed by [get] for the same guild
    returns an entity read from a fresh default row: its prefix is the
    default prefix, its pagination flag the default flag, its change mode
    POST_NEW, whatever the deleted row and entity held; and the table holds
    that default row as the guild's only row. *)
Theorem delete_then_get_starts_afresh `{AppSettings}
    (self : gmap Z GuildSettings.t) (bot : Bot) (guild_id : Z) (g : Gateway) :
  healthy g →
  ∃ self1 g1 guild_settings self2 g2,
    GuildSettingsCollection.delete_guild_settings self guild_id g
      = (Ok (true, self1), g1) ∧
    GuildSettingsCollection.get self1 bot guild_id g1
      = (Ok (guild_settings, self2), g2) ∧
    GuildSettings.prefix guild_settings = DEFAULT_PREFIX ∧
    GuildSettings.use_pagination guild_settings = DEFAULT_USE_EMOJI_PAGINATOR ∧
    AutoDailySettings.change_mode (GuildSettings.autodaily guild_settings)
      = change_mode_value POST_NEW ∧
    AutoDailySettings.channel (GuildSettings.autodaily guild_settings) = None ∧
    rows_of guild_id (table g2)
      = [inserted_row guild_id (Some (change_mode_value POST_NEW))].
Proof.
  intros Hg.
  destruct (delete_guild_settings_rows self guild_id g Hg)
    as (self1 & g1 & Edel & Hg1 & Hself1 & Hrows1).
  destruct (get_uncached_healthy self1 bot guild_id g1 Hg1 Hself1 Hrows1)
    as (g2 & Eget & _ & Hrows2).
  eexists self1, g1, _, _, g2.
  split; [exact Edel|]. split; [exact Eget|]. split_conj; try reflexivity.
  exact Hrows2.
Qed.

Lemma delete_then_get_starts_afresh_witness :
  ∃ guild_settings,
    (∃ self1 g1 self2 g2,
       GuildSettingsCollection.delete_guild_settings
         {[ 1 := example_guild_settings ]} 1 example_gateway
         = (Ok (true, self1), g1) ∧
       GuildSettingsCollection.get self1 example_bot 1 g1
         = (Ok (guild_settings, self2), g2)) ∧
    @GuildSettings.prefix example_settings example_guild_settings = "!" ∧
    @GuildSettings.prefix example_settings guild_settings = "/".
Proof.
  assert (Hg : healthy example_gateway) by constructor.
  destruct (@delete_then_get_starts_afresh example_settings
              {[ 1 := example_guild_settings ]} example_bot 1 example_gateway Hg)
    as (self1 & g1 & gs & self2 & g2 & E1 & E2 & Hp & _).
  exists gs. split; [exists self1, g1, self2, g2; split; assumption|].
  split; [reflexivity|exact Hp].
Defined.

(** ** The free functions on a Gateway that answers *)

Lemma materialized_nonempty (guild : Z) (tbl : list Row) :
  materialized guild tbl ≠ [].
Proof. unfold materialized. destruct (rows_of guild tbl); discriminate. Qed.

Lemma materialized_id (guild : Z) (tbl tbl' : list Row) :
  rows_of guild tbl' = materialized guild tbl →
  materialized guild tbl' = rows_of guild tbl'.
Proof.
  intros E. unfold materialized at 1. rewrite E.
  pose proof (materialized_nonempty guild tbl).
  destruct (materialized guild tbl); [congruence|reflexivity].
Qed.

Lemma stored_prefix_materialized (guild : Z) (tbl tbl' : list Row) :
  rows_of guild tbl' = materialized guild tbl →
  stored_prefix guild tbl' = stored_prefix guild tbl.
Proof.
  unfold stored_prefix, materialized. intros ->.
  destruct (rows_of guild tbl); reflexivity.
Qed.

Lemma db_get_prefix_healthy (guild_id : Z) (g : Gateway) :
  healthy g →
  ∃ g', db_get_prefix guild_id g
          = (Ok (str_or_None (stored_prefix guild_id (table g))), g') ∧
        healthy g' ∧
        rows_of guild_id (table g') = materialized guild_id (table g).
Proof.
  intros Hg. unfold db_get_prefix, mbind, M_bind.
  destruct (db_create_server_settings_healthy guild_id g Hg)
    as (g1 & -> & Hg1 & Hrows1).
  fold (materialized guild_id (table g)) in Hrows1.
  unfold _db_get_server_setting, mbind, M_bind.
  rewrite _db_get_server_settings_eq, (healthy_next_ok g1 Hg1).
  exists (after_read g1).
  rewrite <- (stored_prefix_materialized _ _ _ Hrows1).
  unfold stored_prefix.
  pose proof (materialized_nonempty guild_id (table g)) as Hne.
  rewrite <- Hrows1 in Hne.
  destruct (rows_of guild_id (table g1)) as [|r rows] eqn:E; [congruence|].
  split; [reflexivity|]. split; [now apply healthy_after_read|].
  simpl. now rewrite E, <- Hrows1.
Qed.

Lemma update_healthy (guild : Z) (c : Column) (v : Value) (rest : Settings)
    (g : Gateway) :
  well_typed ((c, v) :: rest) →
  healthy g →
  ∃ g', _db_update_server_settings (Some guild) ((c, v) :: rest) g = (Ok true, g') ∧
        healthy g' ∧
        rows_of guild (table g') = patched ((c, v) :: rest) <$> rows_of guild (table g).
Proof.
  intros Hwt Hg. rewrite _db_update_server_settings_eq by exact Hwt.
  rewrite (healthy_next_ok g Hg). eexists. split; [reflexivity|]. split.
  - now apply healthy_after_write.
  - apply rows_after_update; [exact Hwt|now apply healthy_next_ok].
Qed.

Lemma str_differs_false (current : option string) (new : string) :
  str_differs current new = false → current = Some new ∧ new ≠ "".
Proof.
  unfold str_differs, truthy_str. destruct current as [c|]; [|discriminate].
  destruct (String.eqb_spec c "") as [->|Hc]; [discriminate|]. simpl.
  destruct (String.eqb_spec new c) as [->|Hne]; [|discriminate].
  intros _. split; [reflexivity|exact Hc].
Qed.

Lemma str_or_None_Some (x : option string) (s : string) :
  str_or_None x = Some s → x = Some s.
Proof.
  unfold str_or_None. destruct (truthy_str x); [trivial|discriminate].
Qed.

Lemma set_prefix_healthy (guild_id : Z) (prefix' : string) (g : Gateway) :
  healthy g →
  ∃ g', set_prefix guild_id prefix' g = (Ok true, g') ∧
        healthy g' ∧
        stored_prefix guild_id (table g') = Some prefix'.
Proof.
  intros Hg. unfold set_prefix, db_update_prefix, mbind, M_bind.
  destruct (db_create_server_settings_healthy guild_id g Hg)
    as (g1 & -> & Hg1 & _).
  destruct (db_get_prefix_healthy guild_id g1 Hg1) as (g2 & -> & Hg2 & Hrows2).
  destruct (str_differs _ prefix') eqn:Hd.
  - destruct (update_healthy guild_id _COLUMN_NAME_PREFIX (VStr prefix') [] g2)
      as (g3 & -> & Hg3 & Hrows3); [solve_well_typed|exact Hg2|].
    exists g3. split; [reflexivity|]. split; [exact Hg3|].
    unfold stored_prefix. rewrite Hrows3, Hrows2.
    pose proof (materialized_nonempty guild_id (table g1)) as Hne.
    destruct (materialized guild_id (table g1)) as [|r rows]; [congruence|].
    destruct r; reflexivity.
  - exists g2. split; [reflexivity|]. split; [exact Hg2|].
    apply str_differs_false in Hd as [Hd _]. apply str_or_None_Some in Hd.
    now rewrite (stored_prefix_materialized _ _ _ Hrows2).
Qed.

Lemma get_prefix_or_default_healthy `{AppSettings} (guild_id : Z) (g : Gateway) :
  healthy g →
  ∃ g', get_prefix_or_default guild_id g =
          (Ok (match stored_prefix guild_id (table g) with
               | None => DEFAULT_PREFIX
               | Some s =>
                   if (String.eqb s "" || String.eqb (lower s) "none")%bool
                   then DEFAULT_PREFIX else s
               end), g') ∧
        healthy g'.
Proof.
  intros Hg. unfold get_prefix_or_default, mbind, M_bind.
  destruct (db_get_prefix_healthy guild_id g Hg) as (g1 & -> & Hg1 & _).
  exists g1. split; [|exact Hg1].
  unfold str_or_None, truthy_str.
  destruct (stored_prefix guild_id (table g)) as [s|]; [|reflexivity].
  destruct (String.eqb s ""); simpl; [reflexivity|].
  destruct (String.eqb (lower s) "none"); reflexivity.
Qed.

(** X12.  A prefix that is set is the prefix that is read.  With the Gateway
    answering, [set_prefix] for any guild and prefix reports success, and
    [get_prefix_or_default] then returns that prefix; unless it is the empty
    string or reads "none" in some case, for which the default prefix is
    returned. *)
Theorem set_prefix_then_get_prefix_or_default `{AppSettings} (guild_id : Z)
    (new_prefix : string) (g : Gateway) :
  healthy g →
  ∃ g1,
    set_prefix guild_id new_prefix g = (Ok true, g1) ∧
    (get_prefix_or_default guild_id g1).1 =
      Ok (if (String.eqb new_prefix "" || String.eqb (lower new_prefix) "none")%bool
          then DEFAULT_PREFIX else new_prefix).
Proof.
  intros Hg.
  destruct (set_prefix_healthy guild_id new_prefix g Hg) as (g1 & E & Hg1 & Hst).
  exists g1. split; [exact E|].
  destruct (get_prefix_or_default_healthy guild_id g1 Hg1) as (g2 & -> & _).
  rewrite Hst. reflexivity.
Qed.

Lemma set_prefix_then_get_prefix_or_default_witness :
  ∃ g1,
    set_prefix 5 "%" example_gateway = (Ok true, g1) ∧
    (@get_prefix_or_default example_settings 5 g1).1 = Ok "%".
Proof.
  assert (Hg : healthy example_gateway) by constructor.
  exact (@set_prefix_then_get_prefix_or_default example_settings 5 "%"
           example_gateway Hg).
Defined.

(** X13.  A prefix that is reset reads as the default.  With the Gateway
    answering, [reset_prefix] reports success for any guild, whatever its
    stored prefix, and [get_prefix_or_default] then returns the default
    prefix. *)
Theorem reset_prefix_then_get_prefix_or_default `{AppSettings} (guild_id : Z)
    (g : Gateway) :
  healthy g →
  ∃ g1,
    reset_prefix guild_id g = (Ok true, g1) ∧
    (get_prefix_or_default guild_id g1).1 = Ok DEFAULT_PREFIX.
Proof.
  intros Hg. unfold reset_prefix, db_reset_prefix, mbind, M_bind.
  destruct (db_get_prefix_healthy guild_id g Hg) as (g1 & -> & Hg1 & Hrows1).
  pose proof (stored_prefix_materialized _ _ _ Hrows1) as Hst1.
  destruct (str_or_None (stored_prefix guild_id (table g))) as [c|] eqn:Hc.
  - destruct (update_healthy guild_id _COLUMN_NAME_PREFIX VNone [] g1)
      as (g2 & -> & Hg2 & Hrows2); [solve_well_typed|exact Hg1|].
    exists g2. split; [reflexivity|].
    destruct (get_prefix_or_default_healthy guild_id g2 Hg2) as (g3 & -> & _).
    unfold stored_prefix. rewrite Hrows2, Hrows1.
    pose proof (materialized_nonempty guild_id (table g)) as Hne.
    destruct (materialized guild_id (table g)) as [|r rows]; [congruence|].
    destruct r; reflexivity.
  - exists g1. split; [reflexivity|].
    destruct (get_prefix_or_default_healthy guild_id g1 Hg1) as (g3 & -> & _).
    rewrite Hst1. unfold str_or_None, truthy_str in Hc.
    destruct (stored_prefix guild_id (table g)) as [s|]; [|reflexivity].
    destruct (String.eqb s ""); [reflexivity|discriminate].
Qed.

Lemma reset_prefix_then_get_prefix_or_default_witness :
  ∃ g1,
    reset_prefix 1 example_gateway = (Ok true, g1) ∧
    (@get_prefix_or_default example_settings 1 g1).1 = Ok "/".
Proof.
  assert (Hg : healthy example_gateway) by constructor.
  exact (@reset_prefix_then_get_prefix_or_default example_settings 1
           example_gateway Hg).
Defined.

(** X14.  [get_pagination_mode] never raises and never says "<NOT SET>",
    whatever the Gateway answers.  Without a guild, or when no row comes
    back, it shows the default flag; for a row whose flag is null it says
    "ON", whatever the default flag is, where the guild's entity, read from
    the same row, shows the default flag; for a row with a flag it shows
    that flag. *)
Theorem get_pagination_mode_spec `{AppSettings} (guild : option Guild)
    (g : Gateway) :
  ∃ shown g',
    get_pagination_mode guild g = (Ok shown, g') ∧
    (shown = "ON" ∨ shown = "OFF") ∧
    shown =
      match guild with
      | None => convert_to_on_off (Some DEFAULT_USE_EMOJI_PAGINATOR)
      | Some guild =>
          match fetched (Some (Guild_id guild)) g with
          | [] => convert_to_on_off (Some DEFAULT_USE_EMOJI_PAGINATOR)
          | row :: _ =>
              match usepagination row with
              | None => "ON"
              | Some flag => convert_to_on_off (Some flag)
              end
          end
      end ∧
    (∀ bot row, usepagination row = None →
       GuildSettings.pretty_use_pagination (GuildSettings.__init__ bot row)
         = convert_to_on_off (Some DEFAULT_USE_EMOJI_PAGINATOR)).
Proof.
  unfold get_pagination_mode, db_get_use_pagination, mbind, M_bind.
  destruct guild as [gd|].
  - rewrite _db_get_server_settings_eq. fold (fetched (Some (Guild_id gd)) g).
    destruct (fetched (Some (Guild_id gd)) g) as [|row rows].
    + eexists _, _. split; [reflexivity|]. split_conj.
      * destruct DEFAULT_USE_EMOJI_PAGINATOR; auto.
      * reflexivity.
      * intros bot row Hrow. unfold GuildSettings.pretty_use_pagination,
          GuildSettings.use_pagination. simpl. now rewrite Hrow.
    + destruct (usepagination row) as [flag|]; eexists _, _;
        (split; [reflexivity|]); split_conj; try reflexivity.
      * destruct flag; auto.
      * intros bot row' Hrow. unfold GuildSettings.pretty_use_pagination,
          GuildSettings.use_pagination. simpl. now rewrite Hrow.
      * auto.
      * intros bot row' Hrow. unfold GuildSettings.pretty_use_pagination,
          GuildSettings.use_pagination. simpl. now rewrite Hrow.
  - eexists _, _. split; [reflexivity|]. split_conj.
    + destruct DEFAULT_USE_EMOJI_PAGINATOR; auto.
    + reflexivity.
    + intros bot row Hrow. unfold GuildSettings.pretty_use_pagination,
        GuildSettings.use_pagination. simpl. now rewrite Hrow.
Qed.

Lemma get_pagination_mode_spec_witness :
  (@get_pagination_mode example_settings (Some example_guild) example_gateway).1
    = Ok "OFF" ∧
  @GuildSettings.pretty_use_pagination example_settings
    (GuildSettings.__init__ example_bot (inserted_row 5 (Some 1))) = "ON".
Proof.
  destruct (@get_pagination_mode_spec example_settings (Some example_guild)
              example_gateway) as (shown & g' & E & _ & Hshown & Hentity).
  split.
  - rewrite E. simpl. rewrite Hshown. reflexivity.
  - apply (Hentity example_bot (inserted_row 5 (Some 1))). reflexivity.
Defined.

Lemma get_returns_the_entry_witness :
  GuildSettingsCollection.get ∅ example_bot 5 failing_gateway
    = (Raise KeyError, (GuildSettingsCollection.get ∅ example_bot 5 failing_gateway).2) ∧
  (GuildSettingsCollection.create_guild_settings ∅ example_bot 5 failing_gateway).1
    = Ok (false, ∅).
Proof.
  destruct (get_returns_the_entry ∅ example_bot 5 failing_gateway) as [_ H].
  split; [reflexivity|].
  eapply H; [apply lookup_empty|reflexivity].
Defined.

Lemma delete_guild_settings_spec_witness :
  ∃ self' g',
    GuildSettingsCollection.delete_guild_settings
      {[ 1 := example_guild_settings; 9 := example_guild_settings ]} 1
      example_gateway = (Ok (true, self'), g') ∧
    self' !! 1 = None ∧ self' !! 9 = Some example_guild_settings ∧
    rows_of 1 (table g') = [].
Proof.
  destruct (delete_guild_settings_spec
              {[ 1 := example_guild_settings; 9 := example_guild_settings ]} 1
              example_gateway) as (self' & g' & E & Hrows & Hself & Hother).
  exists self', g'. split; [exact E|]. split; [exact Hself|]. split; [|exact Hrows].
  destruct (Hother 9) as [_ H9]; [discriminate|]. rewrite H9. reflexivity.
Defined.

Lemma init_loads_the_table_witness :
  ∃ self',
    (GuildSettingsCollection.init {[ 9 := example_guild_settings ]} example_bot
       (mk_gateway [example_row] [false] [])).1 = Ok self' ∧
    self' = {[ 9 := example_guild_settings ]}.
Proof.
  destruct (init_loads_the_table {[ 9 := example_guild_settings ]} example_bot
              (mk_gateway [example_row] [false] [])) as (self' & E & _ & Hfail).
  exists self'. split; [now rewrite E|]. apply Hfail. reflexivity.
Defined.

(** ** The setters of GuildSettings *)

(** X15.  [set_use_pagination] without an argument toggles: it always sends
    the write of the negated effective flag (the stored flag, or the default
    when none is stored), reports the Gateway's answer, and when the write
    went through the effective flag of the entity is negated; two toggles
    on a Gateway that answers give back the flag one started from. *)
Theorem set_use_pagination_toggles `{AppSettings} `{PssAssert}
    (self : GuildSettings.t) (g : Gateway) :
  let flipped := negb (GuildSettings.use_pagination self) in
  GuildSettings.set_use_pagination self None g =
    (Ok (next_ok g,
         if next_ok g then GuildSettings.with_use_pagination (Some flipped) self
         else self),
     after_write (UPDATE [(_COLUMN_NAME_USE_PAGINATION, VBool flipped)]
                         (Some (GuildSettings.id self))) g) ∧
  GuildSettings.use_pagination
    (GuildSettings.with_use_pagination (Some flipped) self) = flipped ∧
  (healthy g →
   ∃ self1 g1 self2 g2,
     GuildSettings.set_use_pagination self None g = (Ok (true, self1), g1) ∧
     GuildSettings.set_use_pagination self1 None g1 = (Ok (true, self2), g2) ∧
     GuildSettings.use_pagination self2 = GuildSettings.use_pagination self).
Proof.
  intros flipped.
  assert (Eq : ∀ (s : GuildSettings.t) (g0 : Gateway),
    GuildSettings.set_use_pagination s None g0 =
      (Ok (next_ok g0,
           if next_ok g0
           then GuildSettings.with_use_pagination
                  (Some (negb (GuildSettings.use_pagination s))) s
           else s),
       after_write
         (UPDATE [(_COLUMN_NAME_USE_PAGINATION,
                   VBool (negb (GuildSettings.use_pagination s)))]
                 (Some (GuildSettings.id s))) g0)).
  { intros s g0. unfold GuildSettings.set_use_pagination, mbind, M_bind.
    unfold mret at 1, M_ret at 1. cbv beta iota.
    unfold GuildSettings.use_pagination.
    destruct (GuildSettings.__use_pagination s) as [b|] eqn:Hb.
    - cbn [is_set negb orb].
      rewrite bool_decide_true by (destruct b; discriminate).
      cbn [of_bool].
      rewrite _db_update_server_settings_eq by solve_well_typed.
      destruct (next_ok g0); reflexivity.
    - cbn [is_set negb orb of_bool].
      rewrite _db_update_server_settings_eq by solve_well_typed.
      destruct (next_ok g0); reflexivity. }
  split; [apply Eq|]. split; [reflexivity|].
  intros Hg. rewrite Eq, (healthy_next_ok g Hg).
  eexists _, _, _, _. split; [reflexivity|].
  rewrite Eq, (healthy_next_ok _ (healthy_after_write _ g Hg)).
  split; [reflexivity|].
  unfold GuildSettings.use_pagination. simpl. apply negb_involutive.
Qed.

Lemma set_use_pagination_toggles_witness :
  ∃ self1 g1 self2 g2,
    @GuildSettings.set_use_pagination example_settings accept_all
      example_guild_settings None example_gateway = (Ok (true, self1), g1) ∧
    @GuildSettings.set_use_pagination example_settings accept_all
      self1 None g1 = (Ok (true, self2), g2) ∧
    @GuildSettings.use_pagination example_settings self2 = false.
Proof.
  assert (Hg : healthy example_gateway) by constructor.
  destruct (@set_use_pagination_toggles example_settings accept_all
              example_guild_settings example_gateway) as (_ & _ & H).
  exact (H Hg).
Defined.

(** X16.  What a setter of GuildSettings reports as set can be read back,
    whatever the Gateway answers.  When [set_prefix] returns true for a
    non-empty prefix (the argument check accepting it), the entity's prefix
    reads as that prefix; when [set_bot_news_channel] returns true, the
    entity's bot-news channel id is the channel's id, and without a channel
    it raises ValueError before any call to the Gateway; when
    [set_use_pagination] returns true for an accepted token, the entity's
    flag is what the token decodes to, true for an "on" token and false for
    an "off" token. *)
Theorem guild_setters_read_back `{AppSettings} `{PssAssert}
    (self : GuildSettings.t) (g : Gateway) :
  (∀ new_prefix self' g',
     valid_parameter_value new_prefix (column_name _COLUMN_NAME_PREFIX) None = None →
     new_prefix ≠ "" →
     GuildSettings.set_prefix self new_prefix g = (Ok (true, self'), g') →
     GuildSettings.prefix self' = new_prefix) ∧
  (∀ channel self' g',
     GuildSettings.set_bot_news_channel self (Some channel) g
       = (Ok (true, self'), g') →
     GuildSettings.bot_news_channel_id self' = Some (TextChannel_id channel)) ∧
  GuildSettings.set_bot_news_channel self None g = (Raise ValueError, g) ∧
  (∀ switch self' g',
     valid_parameter_value switch "use_pagination"
       (Some (_VALID_PAGINATION_SWITCH_VALUES.*1)) = None →
     GuildSettings.set_use_pagination self (Some switch) g
       = (Ok (true, self'), g') →
     GuildSettings.__use_pagination self' = convert_from_on_off (Some switch) ∧
     (In (lower switch) on_tokens → GuildSettings.use_pagination self' = true) ∧
     (In (lower switch) off_tokens → GuildSettings.use_pagination self' = false)).
Proof.
  split_conj.
  - intros p self' g' Hvalid Hp. unfold GuildSettings.set_prefix. rewrite Hvalid.
    assert (Hread : ∀ s, GuildSettings.__prefix s = Some p →
                         GuildSettings.prefix s = p).
    { intros s Hs. unfold GuildSettings.prefix. rewrite Hs. simpl.
      destruct (String.eqb_spec p ""); [congruence|reflexivity]. }
    destruct (str_differs _ p) eqn:Hd.
    + unfold mbind, M_bind.
      rewrite _db_update_server_settings_eq by solve_well_typed.
      destruct (next_ok g); [|discriminate].
      intros [= <- _]. now apply Hread.
    + intros [= <- _]. apply Hread. now apply str_differs_false in Hd as [-> _].
  - intros c self' g'. unfold GuildSettings.set_bot_news_channel.
    destruct (AutoDailySettings.differs _ _) eqn:Hd.
    + unfold mbind, M_bind.
      rewrite _db_update_server_settings_eq by solve_well_typed.
      destruct (next_ok g); [|discriminate].
      intros [= <- _]. reflexivity.
    + intros [= <- _]. unfold AutoDailySettings.differs in Hd.
      unfold GuildSettings.bot_news_channel_id.
      destruct (GuildSettings.__bot_news_channel_id self) as [i|]; [|discriminate].
      apply orb_false_elim in Hd as [_ Hd]. apply negb_false_iff in Hd.
      apply Z.eqb_eq in Hd. now subst.
  - reflexivity.
  - intros switch self' g' Hvalid.
    unfold GuildSettings.set_use_pagination, mbind, M_bind.
    rewrite Hvalid. unfold mret at 1, M_ret at 1. cbv beta iota.
    assert (Htok : ∀ s, GuildSettings.__use_pagination s
                          = convert_from_on_off (Some switch) →
              (In (lower switch) on_tokens → GuildSettings.use_pagination s = true) ∧
              (In (lower switch) off_tokens → GuildSettings.use_pagination s = false)).
    { intros s Hs. unfold GuildSettings.use_pagination. rewrite Hs.
      unfold convert_from_on_off. split; intros Hin; simpl in Hin;
        destruct Hin as [<-|[<-|[<-|[<-|[<-|[]]]]]]; reflexivity. }
    destruct (negb _ || bool_decide _)%bool eqn:Hd.
    + rewrite _db_update_server_settings_eq
        by (destruct (convert_from_on_off (Some switch)); solve_well_typed).
      destruct (next_ok g); [|discriminate].
      intros [= <- _]. split; [reflexivity|]. now apply Htok.
    + intros [= <- _]. apply orb_false_elim in Hd as [_ Hd].
      apply bool_decide_eq_false in Hd. apply dec_stable in Hd.
      split; [now symmetry|]. apply Htok. now symmetry.
Qed.

Lemma guild_setters_read_back_witness :
  ∃ self' g',
    @GuildSettings.set_prefix accept_all example_guild_settings "?" example_gateway
      = (Ok (true, self'), g') ∧
    @GuildSettings.prefix example_settings self' = "?".
Proof.
  destruct (@guild_setters_read_back example_settings accept_all
              example_guild_settings example_gateway) as (Hp & _).
  lazymatch goal with
  | |- ∃ _ _, ?call = _ ∧ _ =>
      let v := eval vm_compute in call in
      lazymatch v with
      | (Ok (_, ?s), ?g) =>
          exists s, g; split; [reflexivity|];
          apply (Hp "?" s g); [reflexivity|discriminate|reflexivity]
      end
  end.
Defined.

(** ** Recording and clearing the latest message *)

Lemma update_rows_ext (s1 s2 : Settings) (guild : Z) (tbl : list Row) :
  (∀ r, set_columns s1 r = set_columns s2 r) →
  update_rows s1 guild tbl = update_rows s2 guild tbl.
Proof.
  intros Hext. induction tbl as [|r tbl IH]; [reflexivity|].
  simpl. now rewrite IH, Hext.
Qed.

(** X17.  Recording no message is resetting the latest message:
    [set_latest_message(None)] and [reset_latest_message] return the same
    result, leave the same entity and the same table, whatever the Gateway
    answers.  When the write went through, the entity has no message id, no
    created-at and no modified-at, and neither has any row of its guild. *)
Theorem set_latest_message_None_is_reset (self : AutoDailySettings.t)
    (g : Gateway) :
  (AutoDailySettings.set_latest_message self None g).1
    = (AutoDailySettings.reset_latest_message self g).1 ∧
  table (AutoDailySettings.set_latest_message self None g).2
    = table (AutoDailySettings.reset_latest_message self g).2 ∧
  (AutoDailySettings.reset_latest_message self g).1
    = Ok (next_ok g, if next_ok g then without_latest_message self else self) ∧
  (next_ok g = true →
   ∀ guild row,
     AutoDailySettings.guild_id self = Some guild →
     row ∈ rows_of guild (table (AutoDailySettings.reset_latest_message self g).2) →
     no_latest_message row).
Proof.
  assert (Hwt1 : well_typed
            [ (_COLUMN_NAME_DAILY_LATEST_MESSAGE_ID, VNone);
              (_COLUMN_NAME_DAILY_LATEST_MESSAGE_MODIFIED_AT, VNone);
              (_COLUMN_NAME_DAILY_LATEST_MESSAGE_CREATED_AT, VNone) ])
    by solve_well_typed.
  assert (Hwt2 : well_typed
            [ (_COLUMN_NAME_DAILY_LATEST_MESSAGE_ID, VNone);
              (_COLUMN_NAME_DAILY_LATEST_MESSAGE_CREATED_AT, VNone);
              (_COLUMN_NAME_DAILY_LATEST_MESSAGE_MODIFIED_AT, VNone) ])
    by solve_well_typed.
  assert (E1 : AutoDailySettings.set_latest_message self None g =
            (Ok (next_ok g, if next_ok g then without_latest_message self else self),
             after_write
               (UPDATE [ (_COLUMN_NAME_DAILY_LATEST_MESSAGE_ID, VNone);
                         (_COLUMN_NAME_DAILY_LATEST_MESSAGE_MODIFIED_AT, VNone);
                         (_COLUMN_NAME_DAILY_LATEST_MESSAGE_CREATED_AT, VNone) ]
                       (AutoDailySettings.guild_id self)) g)).
  { unfold AutoDailySettings.set_latest_message, mbind, M_bind. cbv zeta iota.
    rewrite _db_update_server_settings_eq by exact Hwt1.
    destruct (next_ok g); [|reflexivity]. destruct self; reflexivity. }
  assert (E2 : AutoDailySettings.reset_latest_message self g =
            (Ok (next_ok g, if next_ok g then without_latest_message self else self),
             after_write
               (UPDATE [ (_COLUMN_NAME_DAILY_LATEST_MESSAGE_ID, VNone);
                         (_COLUMN_NAME_DAILY_LATEST_MESSAGE_CREATED_AT, VNone);
                         (_COLUMN_NAME_DAILY_LATEST_MESSAGE_MODIFIED_AT, VNone) ]
                       (AutoDailySettings.guild_id self)) g)).
  { unfold AutoDailySettings.reset_latest_message, mbind, M_bind. cbv zeta.
    rewrite _db_update_server_settings_eq by exact Hwt2.
    destruct (next_ok g); reflexivity. }
  rewrite E1, E2. split; [reflexivity|]. split; [|split; [reflexivity|]].
  - unfold after_write. simpl. destruct (next_ok g); [|reflexivity].
    destruct (AutoDailySettings.guild_id self) as [k|]; [|reflexivity]. simpl.
    rewrite (update_rows_ext _
               [ (_COLUMN_NAME_DAILY_LATEST_MESSAGE_ID, VNone);
                 (_COLUMN_NAME_DAILY_LATEST_MESSAGE_CREATED_AT, VNone);
                 (_COLUMN_NAME_DAILY_LATEST_MESSAGE_MODIFIED_AT, VNone) ]);
      [reflexivity|]. intros r. destruct r; reflexivity.
  - intros Hok guild row Hguild. rewrite Hguild. cbn [snd].
    rewrite rows_after_update by assumption.
    intros Hin. apply list_elem_of_fmap in Hin as (r0 & -> & _).
    destruct r0; repeat split.
Qed.

Lemma set_latest_message_None_is_reset_witness :
  Forall no_latest_message
    (rows_of 1
       (table (AutoDailySettings.reset_latest_message example_autodaily
                 example_gateway).2)).
Proof.
  destruct (set_latest_message_None_is_reset example_autodaily example_gateway)
    as (_ & _ & _ & H).
  apply Forall_forall. intros row. apply (H eq_refl 1 row). reflexivity.
Defined.

(** ** What is written is what a restart reads *)

Lemma toggle_change_mode_general (self : AutoDailySettings.t) (g : Gateway) :
  ∃ m,
    (AutoDailySettings.change_mode self) mod 3 + 1 = change_mode_value m ∧
    AutoDailySettings.toggle_change_mode self g =
      (Ok (next_ok g,
           if next_ok g
           then AutoDailySettings.with_change_mode (change_mode_value m) self
           else self),
       after_write
         (UPDATE [(_COLUMN_NAME_DAILY_CHANGE_MODE, VInt (change_mode_value m))]
                 (AutoDailySettings.guild_id self)) g).
Proof.
  destruct (toggle_code_in_range (AutoDailySettings.change_mode self)) as [m Hm].
  exists m. split.
  - unfold AutoDailyChangeMode_call in Hm.
    destruct (Z.eqb_spec (AutoDailySettings.change_mode self mod 3 + 1) 1) as [E|_];
      [rewrite E; now injection Hm as <-|].
    destruct (Z.eqb_spec (AutoDailySettings.change_mode self mod 3 + 1) 2) as [E|_];
      [rewrite E; now injection Hm as <-|].
    destruct (Z.eqb_spec (AutoDailySettings.change_mode self mod 3 + 1) 3) as [E|_];
      [rewrite E; now injection Hm as <-|discriminate].
  - unfold AutoDailySettings.toggle_change_mode. rewrite Hm.
    unfold mbind, M_bind.
    rewrite _db_update_server_settings_eq by apply change_mode_settings_well_typed.
    destruct (next_ok g); reflexivity.
Qed.

Lemma set_latest_message_written (self : AutoDailySettings.t) (m : Message)
    (g : Gateway) :
  AutoDailySettings.differs (AutoDailySettings.latest_message_id self)
    (Message_id m) = true →
  next_ok g = true →
  ∃ self',
    AutoDailySettings.set_latest_message self (Some m) g =
      (Ok (true, self'),
       after_write
         (UPDATE (latest_message_settings
                    (AutoDailySettings.latest_message_created_at self) m)
                 (AutoDailySettings.guild_id self)) g) ∧
    AutoDailySettings.latest_message_id self' = Some (Message_id m) ∧
    AutoDailySettings.latest_message_modified_at self'
      = Some (recorded_modified_at
                (AutoDailySettings.latest_message_created_at self) m) ∧
    AutoDailySettings.latest_message_created_at self'
      = (if new_day (AutoDailySettings.latest_message_created_at self)
                    (Message_created_at m)
         then Some (Message_created_at m)
         else AutoDailySettings.latest_message_created_at self).
Proof.
  intros Hd Hok. unfold AutoDailySettings.set_latest_message. rewrite Hd.
  set (stored := AutoDailySettings.latest_message_created_at self).
  fold (new_day stored (Message_created_at m)).
  fold (recorded_modified_at stored m).
  fold (latest_message_settings stored m).
  pose proof (latest_message_settings_well_typed stored m) as Hwt.
  unfold latest_message_settings in *.
  destruct (new_day stored (Message_created_at m)) eqn:Hday; cbn [app] in *;
    unfold mbind, M_bind;
    rewrite _db_update_server_settings_eq by exact Hwt;
    rewrite Hok; simpl;
    eexists; (split; [reflexivity|]); repeat split.
Qed.

Lemma set_notify_written (self : AutoDailySettings.t) (n : Mention) (g : Gateway) :
  AutoDailySettings.differs (AutoDailySettings.notify_id self) (mention_id n)
    = true →
  AutoDailySettings.set_notify self (PyMention n) g =
    (Ok (next_ok g,
         if next_ok g then AutoDailySettings.with_notify (Some n) self else self),
     after_write (UPDATE (notify_settings n) (AutoDailySettings.guild_id self)) g).
Proof.
  intros Hd. unfold AutoDailySettings.set_notify. rewrite Hd.
  unfold mbind, M_bind.
  assert (E : [(_COLUMN_NAME_DAILY_NOTIFY_ID, VInt (mention_id n));
               (_COLUMN_NAME_DAILY_NOTIFY_TYPE,
                of_int (convert_from_autodaily_notify_type
                          (Some match n with
                                | MentionRole _ => ROLE
                                | _ => USER
                                end)))] = notify_settings n)
    by (destruct n; reflexivity).
  rewrite E. unfold notify_settings at 1.
  rewrite _db_update_server_settings_eq by apply notify_settings_well_typed.
  destruct (next_ok g); reflexivity.
Qed.

Lemma find_id_Some {A : Type} (f : A → Z) (i : Z) (l : list A) (x : A) :
  find (λ y, f y =? i) l = Some x → f x = i.
Proof. intros H. apply find_some in H as [_ H]. now apply Z.eqb_eq. Qed.

(** X18.  What a setter has written is what a restart reads.  For an entity
    that writes under its guild's id and a write the Gateway let through,
    the sub-settings rebuilt by [GuildSettings.__init__] from any row of the
    guild agree with the entity in memory: on the change mode after
    [toggle_change_mode]; on the channel after [set_channel] to a channel
    the bot can see; on the message id and modified-at, and on created-at
    on a new day, after [set_latest_message] of a message with a non-zero
    id; and on the notify id and kind after [set_notify] of a non-zero id
    the guild's directory resolves. *)
Theorem written_settings_survive_reload (self : AutoDailySettings.t) (bot : Bot)
    (guild : Z) (g : Gateway) :
  AutoDailySettings.guild_id self = Some guild →
  next_ok g = true →
  (∀ self' g' row,
     AutoDailySettings.toggle_change_mode self g = (Ok (true, self'), g') →
     row ∈ rows_of guild (table g') →
     AutoDailySettings.change_mode (reload bot row)
       = AutoDailySettings.change_mode self') ∧
  (∀ channel self' g' row,
     AutoDailySettings.differs (AutoDailySettings.channel_id self)
       (TextChannel_id channel) = true →
     get_channel bot (Some (TextChannel_id channel)) = Some channel →
     AutoDailySettings.set_channel self channel g = (Ok (true, self'), g') →
     row ∈ rows_of guild (table g') →
     AutoDailySettings.channel (reload bot row) = AutoDailySettings.channel self') ∧
  (∀ message self' g' row,
     AutoDailySettings.differs (AutoDailySettings.latest_message_id self)
       (Message_id message) = true →
     Message_id message ≠ 0 →
     AutoDailySettings.set_latest_message self (Some message) g
       = (Ok (true, self'), g') →
     row ∈ rows_of guild (table g') →
     AutoDailySettings.latest_message_id (reload bot row)
       = AutoDailySettings.latest_message_id self' ∧
     AutoDailySettings.latest_message_modified_at (reload bot row)
       = AutoDailySettings.latest_message_modified_at self' ∧
     (new_day (AutoDailySettings.latest_message_created_at self)
              (Message_created_at message) = true →
      AutoDailySettings.latest_message_created_at (reload bot row)
        = AutoDailySettings.latest_message_created_at self')) ∧
  (∀ n self' g' row,
     AutoDailySettings.differs (AutoDailySettings.notify_id self) (mention_id n)
       = true →
     mention_id n ≠ 0 →
     resolves bot guild n →
     AutoDailySettings.set_notify self (PyMention n) g = (Ok (true, self'), g') →
     row ∈ rows_of guild (table g') →
     AutoDailySettings.notify_id (reload bot row)
       = AutoDailySettings.notify_id self' ∧
     AutoDailySettings.notify_type (reload bot row)
       = AutoDailySettings.notify_type self').
Proof.
  intros Hguild Hok. split_conj.
  - intros self' g' row.
    destruct (toggle_change_mode_general self g) as (m & _ & ->).
    rewrite Hok, Hguild. intros [= <- <-].
    rewrite rows_after_update
      by (try apply change_mode_settings_well_typed; assumption).
    intros Hin. apply list_elem_of_fmap in Hin as (r0 & -> & _).
    destruct r0, m; reflexivity.
  - intros c self' g' row Hd Hbot. rewrite set_channel_eq, Hd, Hok, Hguild.
    intros [= <- <-].
    rewrite rows_after_update
      by (try apply channel_settings_well_typed; assumption).
    intros Hin. apply list_elem_of_fmap in Hin as (r0 & -> & _).
    destruct r0. unfold reload, GuildSettings.__init__, GuildSettings.autodaily.
    simpl. unfold get_channel in Hbot. rewrite Hbot. reflexivity.
  - intros m self' g' row Hd Hnz.
    destruct (set_latest_message_written self m g Hd Hok)
      as (s1 & -> & Hid & Hmod & Hcre).
    rewrite Hguild. intros [= <- <-].
    rewrite rows_after_update
      by (try apply latest_message_settings_well_typed; assumption).
    intros Hin. apply list_elem_of_fmap in Hin as (r0 & -> & _).
    rewrite Hid, Hmod, Hcre.
    unfold latest_message_settings.
    apply Z.eqb_neq in Hnz.
    destruct (new_day _ _), r0; unfold reload, GuildSettings.__init__,
      GuildSettings.autodaily; simpl; unfold int_or_None, truthy_int;
      rewrite Hnz; split_conj; try reflexivity; discriminate.
  - intros n self' g' row Hd Hnz (gd & Hgd & Hres).
    rewrite (set_notify_written self n g Hd), Hok, Hguild.
    intros [= <- <-].
    rewrite rows_after_update
      by (try apply notify_settings_well_typed; assumption).
    intros Hin. apply list_elem_of_fmap in Hin as (r0 & -> & Hr0).
    apply rows_of_elem in Hr0 as [_ Hr0].
    apply Z.eqb_neq in Hnz.
    destruct r0 as [gid0 ? ? ? ? ? ? ? ? ? ? ?]. simpl in Hr0. subst gid0.
    unfold reload, GuildSettings.__init__, GuildSettings.autodaily. simpl.
    rewrite Hgd, Hnz.
    unfold AutoDailySettings.notify_id, AutoDailySettings.notify_type,
      AutoDailySettings.notify.
    destruct n as [m|u|r]; simpl in *; destruct Hres as [x Hx]; rewrite Hx;
      simpl; (split; [|reflexivity]); f_equal;
      unfold get_member, get_role in Hx; now apply find_id_Some in Hx.
Qed.

Lemma written_settings_survive_reload_witness :
  Forall (λ row, AutoDailySettings.change_mode (reload example_bot row)
                   = change_mode_value POST_NEW)
    (rows_of 1
       (table (AutoDailySettings.toggle_change_mode example_autodaily
                 example_gateway).2)).
Proof.
  destruct (written_settings_survive_reload example_autodaily example_bot 1
              example_gateway eq_refl eq_refl) as (H & _).
  apply Forall_forall. intros row Hrow.
  rewrite (H (AutoDailySettings.with_change_mode 1 example_autodaily)
             (AutoDailySettings.toggle_change_mode example_autodaily
                example_gateway).2 row); [reflexivity|reflexivity|exact Hrow].
Defined.

(** ** fix_prefixes *)

Lemma is_ascii_space_space : is_ascii_space " "%char = true.
Proof. reflexivity. Qed.

Lemma not_space_startswith (c : ascii) (r : string) :
  is_ascii_space c = false → startswith_space (String c r) = false.
Proof.
  intros Hc. simpl. destruct (Ascii.eqb_spec c " "%char) as [->|]; [|reflexivity].
  rewrite is_ascii_space_space in Hc. discriminate.
Qed.

Lemma lstrip_no_leading_space_bounded (n : nat) (s : string) :
  (String.length s ≤ n)%nat → startswith_space (lstrip s) = false.
Proof.
  revert s. induction n as [|n IH]; intros s Hn.
  - destruct s; [reflexivity|simpl in Hn; lia].
  - destruct s as [|c r]; [reflexivity|]. simpl in Hn.
    cbn [lstrip]. destruct (is_ascii_space c) eqn:Hc; [apply IH; lia|].
    destruct r as [|d r']; [now apply not_space_startswith|].
    simpl in Hn.
    match goal with |- context [if ?b then lstrip r' else _] => destruct b end;
      [apply IH; lia|].
    destruct r' as [|e r'']; [now apply not_space_startswith|].
    simpl in Hn.
    match goal with |- context [if ?b then lstrip r'' else _] => destruct b end;
      [apply IH; lia|now apply not_space_startswith].
Qed.

Lemma lstrip_no_leading_space (s : string) : startswith_space (lstrip s) = false.
Proof. now apply (lstrip_no_leading_space_bounded (String.length s)). Qed.

Lemma lstrip_changes (s : string) : startswith_space s = true → lstrip s ≠ s.
Proof.
  intros Hs E. pose proof (lstrip_no_leading_space s) as H.
  rewrite E in H. congruence.
Qed.

Example lstrip_example : lstrip "  ! " = "! ".
Proof. reflexivity. Qed.

Lemma db_create_server_settings_existing (guild_id : Z) (g : Gateway) :
  healthy g →
  rows_of guild_id (table g) ≠ [] →
  db_create_server_settings guild_id g = (Ok true, after_read g).
Proof.
  intros Hg Hrows. unfold db_create_server_settings, db_get_has_settings,
    mbind, M_bind.
  rewrite _db_get_server_settings_eq, (healthy_next_ok g Hg).
  destruct (rows_of guild_id (table g)); [congruence|reflexivity].
Qed.

Lemma db_get_prefix_existing (guild_id : Z) (g : Gateway) (r : Row)
    (rest : list Row) :
  healthy g →
  rows_of guild_id (table g) = r :: rest →
  db_get_prefix guild_id g
    = (Ok (str_or_None (prefix r)), after_read (after_read g)).
Proof.
  intros Hg Hrows. unfold db_get_prefix, mbind, M_bind.
  rewrite db_create_server_settings_existing by (try rewrite Hrows; done).
  unfold _db_get_server_setting, mbind, M_bind.
  rewrite _db_get_server_settings_eq.
  rewrite (healthy_next_ok _ (healthy_after_read g Hg)).
  change (table (after_read g)) with (table g). rewrite Hrows. reflexivity.
Qed.

Lemma set_prefix_existing (guild_id : Z) (new_prefix : string) (g : Gateway)
    (r : Row) (rest : list Row) :
  healthy g →
  rows_of guild_id (table g) = r :: rest →
  str_differs (str_or_None (prefix r)) new_prefix = true →
  ∃ g',
    set_prefix guild_id new_prefix g = (Ok true, g') ∧ healthy g' ∧
    table g' =
      (λ x, if guildid x =? guild_id
            then patched [(_COLUMN_NAME_PREFIX, VStr new_prefix)] x else x)
        <$> table g.
Proof.
  intros Hg Hrows Hd. unfold set_prefix, db_update_prefix, mbind, M_bind.
  rewrite db_create_server_settings_existing by (try rewrite Hrows; done).
  pose proof (healthy_after_read g Hg) as Hg1.
  rewrite (db_get_prefix_existing guild_id (after_read g) r rest Hg1 Hrows).
  rewrite Hd.
  pose proof (healthy_after_read _ (healthy_after_read _ Hg1)) as Hg3.
  rewrite _db_update_server_settings_eq by solve_well_typed.
  rewrite (healthy_next_ok _ Hg3).
  eexists. split; [reflexivity|]. split; [now apply healthy_after_write|].
  rewrite table_after_update;
    [reflexivity|solve_well_typed|now apply healthy_next_ok].
Qed.

Lemma reset_prefix_existing (guild_id : Z) (g : Gateway) (r : Row)
    (rest : list Row) (current : string) :
  healthy g →
  rows_of guild_id (table g) = r :: rest →
  str_or_None (prefix r) = Some current →
  ∃ g',
    reset_prefix guild_id g = (Ok true, g') ∧ healthy g' ∧
    table g' =
      (λ x, if guildid x =? guild_id
            then patched [(_COLUMN_NAME_PREFIX, VNone)] x else x)
        <$> table g.
Proof.
  intros Hg Hrows Hc. unfold reset_prefix, db_reset_prefix, mbind, M_bind.
  rewrite (db_get_prefix_existing guild_id g r rest Hg Hrows), Hc.
  pose proof (healthy_after_read _ (healthy_after_read _ Hg)) as Hg2.
  rewrite _db_update_server_settings_eq by solve_well_typed.
  rewrite (healthy_next_ok _ Hg2).
  eexists. split; [reflexivity|]. split; [now apply healthy_after_write|].
  rewrite table_after_update;
    [reflexivity|solve_well_typed|now apply healthy_next_ok].
Qed.

Lemma fmap_update_absent (f : Row → Row) (k : Z) (l : list Row) :
  k ∉ guildid <$> l →
  (λ x, if guildid x =? k then f x else x) <$> l = l.
Proof.
  induction l as [|x l IH]; [reflexivity|]. rewrite !fmap_cons, not_elem_of_cons.
  intros [Hx Hl]. rewrite (IH Hl).
  destruct (Z.eqb_spec (guildid x) k); [congruence|reflexivity].
Qed.

Lemma fmap_update_unique (f : Row → Row) (k : Z) (l1 l2 : list Row) (r : Row) :
  guildid r = k → k ∉ guildid <$> l1 → k ∉ guildid <$> l2 →
  (λ x, if guildid x =? k then f x else x) <$> (l1 ++ r :: l2)%list
    = (l1 ++ f r :: l2)%list.
Proof.
  intros Hr H1 H2. rewrite fmap_app, fmap_cons.
  rewrite !fmap_update_absent by assumption.
  apply Z.eqb_eq in Hr. now rewrite Hr.
Qed.

Lemma rows_of_absent (k : Z) (l : list Row) :
  k ∉ guildid <$> l → rows_of k l = [].
Proof.
  unfold rows_of. induction l as [|x l IH]; [reflexivity|].
  rewrite fmap_cons, not_elem_of_cons. intros [Hx Hl].
  rewrite filter_cons, (IH Hl). destruct (decide (guildid x = k)); [congruence|done].
Qed.

Lemma rows_of_unique (k : Z) (l1 l2 : list Row) (r : Row) :
  guildid r = k → k ∉ guildid <$> l1 → k ∉ guildid <$> l2 →
  rows_of k (l1 ++ r :: l2)%list = [r].
Proof.
  intros Hr H1 H2. rewrite rows_of_app, (rows_of_absent k l1 H1).
  unfold rows_of. rewrite filter_cons.
  destruct (decide (guildid r = k)); [|congruence].
  fold (rows_of k l2). now rewrite (rows_of_absent k l2 H2).
Qed.

Lemma fixed_row_guildid (r : Row) : guildid (fixed_row r) = guildid r.
Proof.
  unfold fixed_row. destruct (prefix r); [|reflexivity].
  destruct (_ && _)%bool; reflexivity.
Qed.

Lemma fixed_row_keys (l : list Row) :
  guildid <$> (fixed_row <$> l) = guildid <$> l.
Proof.
  induction l as [|x l IH]; [reflexivity|].
  now rewrite !fmap_cons, IH, fixed_row_guildid.
Qed.

Lemma startswith_space_nonempty (p : string) :
  startswith_space p = true → String.eqb p "" = false.
Proof. destruct p; [discriminate|reflexivity]. Qed.

Lemma fix_prefixes_loop_spec (todo done : list Row) (gc : Gateway) (acc : bool) :
  healthy gc →
  table gc = ((fixed_row <$> done) ++ todo)%list →
  NoDup (guildid <$> (done ++ todo)%list) →
  ∃ g',
    fix_prefixes_loop todo acc gc = (Ok acc, g') ∧ healthy g' ∧
    table g' = fixed_row <$> (done ++ todo)%list.
Proof.
  revert done gc. induction todo as [|r todo IH]; intros done gc Hg Htbl Hnd.
  - exists gc. split; [reflexivity|]. split; [exact Hg|].
    now rewrite Htbl, !app_nil_r.
  - assert (Hnext : ∀ g1 r', r' = fixed_row r → healthy g1 →
              table g1 = ((fixed_row <$> done) ++ r' :: todo)%list →
              ∃ g', fix_prefixes_loop todo acc g1 = (Ok acc, g') ∧ healthy g' ∧
                    table g' = fixed_row <$> (done ++ r :: todo)%list).
    { intros g1 r' -> Hg1 Ht1.
      destruct (IH ((done ++ [r])%list) g1 Hg1) as (g' & E & Hg' & Ht').
      - now rewrite fmap_app, <- app_assoc.
      - now rewrite <- app_assoc.
      - exists g'. rewrite <- app_assoc in Ht'. auto. }
    assert (Hkeys : (guildid r ∉ guildid <$> (fixed_row <$> done)) ∧
                    (guildid r ∉ guildid <$> todo)).
    { rewrite fixed_row_keys. rewrite fmap_app, fmap_cons in Hnd.
      apply NoDup_app in Hnd as (_ & Hd & Ht). apply NoDup_cons in Ht as [Ht _].
      split; [|exact Ht]. intros Hin. apply (Hd _ Hin). apply list_elem_of_here. }
    destruct Hkeys as [Hk1 Hk2].
    assert (Hrows : rows_of (guildid r) (table gc) = [r])
      by (rewrite Htbl; now apply rows_of_unique).
    cbn [fix_prefixes_loop].
    destruct (prefix r) as [p|] eqn:Hp; cbn [truthy_str default from_option id].
    + destruct (negb (guildid r =? 0)) eqn:Hz; cbn [andb].
      2: { apply (Hnext gc r); [|exact Hg|exact Htbl].
           unfold fixed_row. now rewrite Hp, Hz. }
      destruct (startswith_space p) eqn:Hs.
      2: { rewrite andb_false_r. apply (Hnext gc r); [|exact Hg|exact Htbl].
           unfold fixed_row. now rewrite Hp, Hz, Hs. }
      rewrite (startswith_space_nonempty p Hs). cbn [negb andb].
      unfold mbind, M_bind.
      assert (Hcur : str_or_None (prefix r) = Some p).
      { rewrite Hp. unfold str_or_None, truthy_str.
        now rewrite (startswith_space_nonempty p Hs). }
      destruct (String.eqb (lstrip p) "") eqn:Hl; cbn [negb].
      * destruct (reset_prefix_existing (guildid r) gc r [] p Hg Hrows Hcur)
          as (g1 & -> & Hg1 & Ht1).
        apply (Hnext g1 (patched [(_COLUMN_NAME_PREFIX, VNone)] r)); [|exact Hg1|].
        -- unfold fixed_row. rewrite Hp, Hz, Hs, Hl. destruct r; reflexivity.
        -- rewrite Ht1, Htbl. now apply fmap_update_unique.
      * destruct (set_prefix_existing (guildid r) (lstrip p) gc r [] Hg Hrows)
          as (g1 & -> & Hg1 & Ht1).
        { rewrite Hcur. unfold str_differs, truthy_str.
          rewrite (startswith_space_nonempty p Hs). simpl.
          destruct (String.eqb_spec (lstrip p) p) as [E|]; [|reflexivity].
          now apply lstrip_changes in E. }
        apply (Hnext g1 (patched [(_COLUMN_NAME_PREFIX, VStr (lstrip p))] r));
          [|exact Hg1|].
        -- unfold fixed_row. rewrite Hp, Hz, Hs, Hl. destruct r; reflexivity.
        -- rewrite Ht1, Htbl. now apply fmap_update_unique.
    + rewrite andb_false_r. cbn [andb]. apply (Hnext gc r); [|exact Hg|exact Htbl].
      unfold fixed_row. now rewrite Hp.
Qed.

(** X19.  [fix_prefixes] fixes every prefix once.  On a table with one row a
    guild and a Gateway that answers, it returns true and leaves, in place
    of every row of a guild id other than 0 whose prefix starts with a
    space, that row with its prefix stripped of the leading whitespace (or
    unset when nothing else is left), every other row and every other
    column being as before; afterwards no prefix of such a guild starts
    with a space. *)
Theorem fix_prefixes_spec (g : Gateway) :
  healthy g →
  NoDup (guildid <$> table g) →
  ∃ g',
    fix_prefixes g = (Ok true, g') ∧
    table g' = fixed_row <$> table g ∧
    (∀ row p, row ∈ table g' → guildid row ≠ 0 → prefix row = Some p →
              startswith_space p = false).
Proof.
  intros Hg Hnd. unfold fix_prefixes, mbind, M_bind.
  rewrite _db_get_server_settings_eq, (healthy_next_ok g Hg).
  destruct (fix_prefixes_loop_spec (table g) [] (after_read g) true)
    as (g' & E & _ & Ht); [now apply healthy_after_read|reflexivity|exact Hnd|].
  exists g'. split; [exact E|]. split; [exact Ht|].
  intros row p Hin Hz Hp. rewrite Ht in Hin.
  apply list_elem_of_fmap in Hin as (r0 & -> & _).
  rewrite fixed_row_guildid in Hz. apply Z.eqb_neq in Hz.
  unfold fixed_row in Hp. destruct (prefix r0) as [p0|] eqn:Hp0;
    [|rewrite Hp0 in Hp; discriminate].
  rewrite Hz in Hp. cbn [negb andb] in Hp.
  destruct (startswith_space p0) eqn:Hs.
  - simpl in Hp. destruct (String.eqb (lstrip p0) ""); [discriminate|].
    injection Hp as <-. apply lstrip_no_leading_space.
  - rewrite Hp0 in Hp. injection Hp as <-. exact Hs.
Qed.

Lemma fix_prefixes_spec_witness :
  ∃ g',
    fix_prefixes
      (mk_gateway [with_row_prefix (Some "  ! ") example_row;
                   with_row_prefix (Some "   ") (inserted_row 2 (Some 1))] [] [])
      = (Ok true, g') ∧
    prefix <$> table g' = [Some "! "; None].
Proof.
  destruct (fix_prefixes_spec
              (mk_gateway [with_row_prefix (Some "  ! ") example_row;
                           with_row_prefix (Some "   ") (inserted_row 2 (Some 1))]
                 [] [])) as (g' & E & Ht & _).
  - constructor.
  - apply (bool_decide_unpack _). reflexivity.
  - exists g'. split; [exact E|]. rewrite Ht. reflexivity.
Defined.

(** ** get_autodaily_settings *)

Lemma get_autodaily_settings_loop_autodaily (utc_now : datetime)
    (no_post_yet : bool) (l : list AutoDailySettings.t)
    (result : list SettingsObject) :
  get_autodaily_settings_loop utc_now no_post_yet
    (AutoDailySettingsObject <$> l) result
  = Ok (result ++ (AutoDailySettingsObject <$>
                     filter (λ a, still_due utc_now no_post_yet a = true) l))%list.
Proof.
  revert result. induction l as [|a l IH]; intros result.
  - simpl. now rewrite app_nil_r.
  - rewrite fmap_cons.
    cbn [get_autodaily_settings_loop attr_latest_message_created_at].
    rewrite filter_cons.
    assert (Hkeep : still_due utc_now no_post_yet a = true →
              ((result ++ [AutoDailySettingsObject a]) ++
                (AutoDailySettingsObject <$>
                   filter (λ a, still_due utc_now no_post_yet a = true) l))%list
              = (result ++ (AutoDailySettingsObject <$>
                   (if decide (still_due utc_now no_post_yet a = true)
                    then a :: filter (λ a, still_due utc_now no_post_yet a = true) l
                    else filter (λ a, still_due utc_now no_post_yet a = true) l)))%list).
    { intros Hd. rewrite decide_True by exact Hd.
      now rewrite fmap_cons, <- app_assoc. }
    assert (Hdrop : still_due utc_now no_post_yet a = false →
              filter (λ a, still_due utc_now no_post_yet a = true) l
              = (if decide (still_due utc_now no_post_yet a = true)
                 then a :: filter (λ a, still_due utc_now no_post_yet a = true) l
                 else filter (λ a, still_due utc_now no_post_yet a = true) l)).
    { intros Hd. rewrite decide_False by congruence. reflexivity. }
    unfold still_due at 1 in Hkeep. unfold still_due at 1 in Hdrop.
    destruct no_post_yet; cbn [andb negb] in Hkeep, Hdrop.
    + destruct (AutoDailySettings.latest_message_created_at a) as [created|].
      * destruct (day created =? day utc_now); cbn [negb] in Hkeep, Hdrop.
        -- rewrite IH, <- Hdrop by reflexivity. reflexivity.
        -- rewrite IH, <- Hkeep by reflexivity. reflexivity.
      * rewrite IH, <- Hkeep by reflexivity. reflexivity.
    + rewrite IH, <- Hkeep by reflexivity. reflexivity.
Qed.

(** X20.  Without a guild id (none, or 0), [get_autodaily_settings] makes
    no call to the Gateway, never raises and leaves the collection as it
    is.  It returns the sub-settings of exactly those cached entities that
    have a channel and, with [no_post_yet], whose latest message was not
    created on today's day of the month (a message of the same day of
    another month counts as today's). *)
Theorem get_autodaily_settings_without_guild (self : gmap Z GuildSettings.t)
    (bot : Bot) (utc_now : datetime) (guild_id : option Z) (no_post_yet : bool)
    (g : Gateway) :
  truthy_int guild_id = false →
  ∃ result,
    get_autodaily_settings self bot utc_now guild_id no_post_yet g
      = (Ok (result, self), g) ∧
    ∀ obj,
      obj ∈ result ↔
      ∃ k guild_settings,
        self !! k = Some guild_settings ∧
        obj = AutoDailySettingsObject (GuildSettings.autodaily guild_settings) ∧
        AutoDailySettings.channel (GuildSettings.autodaily guild_settings) ≠ None ∧
        (no_post_yet = true →
         ∀ created,
           AutoDailySettings.latest_message_created_at
             (GuildSettings.autodaily guild_settings) = Some created →
           day created ≠ day utc_now).
Proof.
  intros Hid. unfold get_autodaily_settings, mbind, M_bind. rewrite Hid.
  unfold mret at 1, M_ret at 1. cbv beta iota.
  rewrite get_autodaily_settings_loop_autodaily. cbn [app].
  eexists. split; [reflexivity|]. intros obj.
  rewrite list_elem_of_fmap. setoid_rewrite list_elem_of_filter.
  unfold GuildSettingsCollection.autodaily_settings.
  split.
  - intros (a & -> & Hdue & Hin).
    apply list_elem_of_filter in Hin as [Hch Hin].
    apply list_elem_of_fmap in Hin as (gs & -> & Hin).
    apply list_elem_of_fmap in Hin as ([k gs'] & -> & Hin).
    apply elem_of_map_to_list in Hin. exists k, gs'. simpl in *.
    split; [exact Hin|]. split; [reflexivity|]. split.
    + destruct (AutoDailySettings.channel _); [discriminate|discriminate].
    + intros -> created Hc. unfold still_due in Hdue. rewrite Hc in Hdue.
      simpl in Hdue. apply negb_true_iff, Z.eqb_neq in Hdue. exact Hdue.
  - intros (k & gs & Hk & -> & Hch & Hdue).
    exists (GuildSettings.autodaily gs). split; [reflexivity|]. split.
    + unfold still_due. destruct no_post_yet; [|reflexivity]. simpl.
      destruct (AutoDailySettings.latest_message_created_at _) as [c|] eqn:Hc;
        [|reflexivity].
      apply negb_true_iff, Z.eqb_neq. now apply Hdue.
    + apply list_elem_of_filter. split.
      * destruct (AutoDailySettings.channel _); [reflexivity|congruence].
      * apply list_elem_of_fmap. exists gs. split; [reflexivity|].
        apply list_elem_of_fmap. exists (k, gs). split; [reflexivity|].
        now apply elem_of_map_to_list.
Qed.

Lemma get_autodaily_settings_without_guild_witness :
  (get_autodaily_settings {[ 1 := example_guild_settings ]} example_bot
     noon None true example_gateway).1
    = Ok ([], {[ 1 := example_guild_settings ]}) ∧
  (get_autodaily_settings {[ 1 := example_guild_settings ]} example_bot
     noon None false example_gateway).1
    = Ok ([AutoDailySettingsObject (GuildSettings.autodaily example_guild_settings)],
          {[ 1 := example_guild_settings ]}).
Proof.
  destruct (get_autodaily_settings_without_guild {[ 1 := example_guild_settings ]}
              example_bot noon None true example_gateway eq_refl) as (r & E & _).
  split; reflexivity.
Defined.

(** X21.  With a guild id, [get_autodaily_settings] collects what
    [GUILD_SETTINGS.get] returns, the GuildSettings of the guild and not its
    sub-settings.  Without [no_post_yet] it returns that entity as the only
    element; with [no_post_yet] it raises AttributeError, reading an
    attribute a GuildSettings does not have.  An error raised by [get] is
    passed on. *)
Theorem get_autodaily_settings_with_guild (self : gmap Z GuildSettings.t)
    (bot : Bot) (utc_now : datetime) (guild_id : Z) (no_post_yet : bool)
    (g : Gateway) :
  guild_id ≠ 0 →
  get_autodaily_settings self bot utc_now (Some guild_id) no_post_yet g =
    match GuildSettingsCollection.get self bot guild_id g with
    | (Ok (guild_settings, self'), g') =>
        (if no_post_yet then Raise AttributeError
         else Ok ([GuildSettingsObject guild_settings], self'), g')
    | (Raise e, g') => (Raise e, g')
    end.
Proof.
  intros Hid. unfold get_autodaily_settings, mbind, M_bind, truthy_int.
  apply Z.eqb_neq in Hid. rewrite Hid. cbn [negb default from_option id].
  destruct (GuildSettingsCollection.get self bot guild_id g) as [[[gs self']|e] g'];
    [|reflexivity].
  destruct no_post_yet; reflexivity.
Qed.

Lemma get_autodaily_settings_with_guild_witness :
  (get_autodaily_settings {[ 1 := example_guild_settings ]} example_bot
     noon (Some 1) true example_gateway).1 = Raise AttributeError ∧
  (get_autodaily_settings {[ 1 := example_guild_settings ]} example_bot
     noon (Some 1) false example_gateway).1
    = Ok ([GuildSettingsObject example_guild_settings],
          {[ 1 := example_guild_settings ]}).
Proof.
  split.
  - rewrite (get_autodaily_settings_with_guild {[ 1 := example_guild_settings ]}
               example_bot noon 1 true example_gateway); [reflexivity|discriminate].
  - reflexivity.
Defined.

(** ** clean_up_invalid_server_settings *)

Lemma delete_guild_settings_healthy (self : gmap Z GuildSettings.t)
    (guild_id : Z) (g : Gateway) :
  healthy g →
  ∃ g',
    GuildSettingsCollection.delete_guild_settings self guild_id g
      = (Ok (true, delete guild_id self), g') ∧
    healthy g' ∧
    table g' = filter (λ r, guildid r ≠ guild_id) (table g).
Proof.
  intros Hg.
  unfold GuildSettingsCollection.delete_guild_settings,
    db_delete_server_settings, mbind, M_bind, try_execute.
  fold (next_ok g). rewrite (healthy_next_ok g Hg). simpl.
  eexists. split; [reflexivity|]. split; [|reflexivity].
  unfold healthy in *. simpl. destruct (faults g) as [|b l]; simpl;
    [constructor|now inversion Hg].
Qed.

Lemma clean_up_loop_healthy (ids : list Z) (self : gmap Z GuildSettings.t)
    (g : Gateway) :
  healthy g →
  ∃ self' g',
    clean_up_loop ids self g = (Ok self', g') ∧
    (∀ k, self' !! k = if decide (k ∈ ids) then None else self !! k) ∧
    (∀ k, rows_of k (table g')
            = if decide (k ∈ ids) then [] else rows_of k (table g)).
Proof.
  revert self g. induction ids as [|i ids IH]; intros self g Hg.
  - exists self, g. split; [reflexivity|]. split; intros k;
      rewrite decide_False by apply not_elem_of_nil; reflexivity.
  - cbn [clean_up_loop]. unfold mbind, M_bind.
    destruct (delete_guild_settings_healthy self i g Hg) as (g1 & -> & Hg1 & Ht1).
    destruct (IH (delete i self) g1 Hg1) as (self' & g' & -> & Hs & Hr).
    exists self', g'. split; [reflexivity|]. split; intros k.
    + rewrite Hs. destruct (decide (k ∈ ids)) as [Hin|Hin].
      * rewrite decide_True by (now apply list_elem_of_further). reflexivity.
      * destruct (decide (k = i)) as [->|Hne].
        -- rewrite decide_True by apply list_elem_of_here. apply lookup_delete_eq.
        -- rewrite decide_False by (rewrite elem_of_cons; tauto).
           now apply lookup_delete_ne.
    + rewrite Hr, Ht1, rows_of_filter_ne.
      destruct (decide (k ∈ ids)) as [Hin|Hin].
      * rewrite decide_True by (now apply list_elem_of_further). reflexivity.
      * destruct (decide (k = i)) as [->|Hne].
        -- rewrite decide_True by apply list_elem_of_here. reflexivity.
        -- rewrite decide_False by (rewrite elem_of_cons; tauto). reflexivity.
Qed.

(** X22.  [clean_up_invalid_server_settings] removes the settings of the
    guilds the bot is not part of any more, and only those.  For a
    collection that keeps every entity under its own id and a Gateway that
    answers: an entity whose guild is unknown, or is not among the bot's
    guilds, is dropped from the collection and its rows are deleted; every
    other entity is kept as it is, with its rows. *)
Theorem clean_up_removes_the_invalid (self : gmap Z GuildSettings.t) (bot : Bot)
    (g : Gateway) :
  healthy g →
  keyed_by_id self →
  ∃ self' g',
    clean_up_invalid_server_settings self bot g = (Ok self', g') ∧
    ∀ k guild_settings,
      self !! k = Some guild_settings →
      if is_invalid (bot_guilds bot) guild_settings
      then self' !! k = None ∧ rows_of k (table g') = []
      else self' !! k = Some guild_settings ∧
           rows_of k (table g') = rows_of k (table g).
Proof.
  intros Hg Hkeyed. unfold clean_up_invalid_server_settings. cbv zeta.
  set (ids := GuildSettings.id <$> filter _ _).
  destruct (clean_up_loop_healthy ids self g Hg) as (self' & g' & E & Hs & Hr).
  exists self', g'. split; [exact E|]. intros k gs Hk.
  assert (Hids : k ∈ ids ↔ is_invalid (bot_guilds bot) gs = true).
  { unfold ids. rewrite list_elem_of_fmap. setoid_rewrite list_elem_of_filter.
    split.
    - intros (gs' & -> & Hinv & Hin).
      apply list_elem_of_fmap in Hin as ([k' gs''] & -> & Hin).
      apply elem_of_map_to_list in Hin. simpl in *.
      rewrite (Hkeyed _ _ Hin) in Hk. rewrite Hin in Hk. now injection Hk as <-.
    - intros Hinv. exists gs. split; [symmetry; now apply Hkeyed|].
      split; [exact Hinv|]. apply list_elem_of_fmap. exists (k, gs).
      split; [reflexivity|]. now apply elem_of_map_to_list. }
  rewrite Hs, Hr. destruct (is_invalid (bot_guilds bot) gs).
  - rewrite !decide_True by (now apply Hids). split; reflexivity.
  - rewrite !decide_False by (rewrite Hids; discriminate). split; [exact Hk|reflexivity].
Qed.

Lemma clean_up_removes_the_invalid_witness :
  ∃ self' g',
    clean_up_invalid_server_settings
      {[ 1 := example_guild_settings;
         5 := GuildSettings.__init__ example_bot (inserted_row 5 (Some 1)) ]}
      example_bot
      (mk_gateway [example_row; inserted_row 5 (Some 1)] [] [])
      = (Ok self', g') ∧
    self' !! 1 = Some example_guild_settings ∧ self' !! 5 = None ∧
    guildid <$> table g' = [1].
Proof.
  destruct (clean_up_removes_the_invalid
              {[ 1 := example_guild_settings;
                 5 := GuildSettings.__init__ example_bot (inserted_row 5 (Some 1)) ]}
              example_bot
              (mk_gateway [example_row; inserted_row 5 (Some 1)] [] []))
    as (self' & g' & E & H).
  - constructor.
  - apply (keyed_by_id_insert _ example_bot example_row).
    apply (keyed_by_id_insert ∅ example_bot (inserted_row 5 (Some 1))).
    intros k gs Hk. rewrite lookup_empty in Hk. discriminate.
  - exists self', g'. split; [exact E|].
    destruct (H 1 example_guild_settings eq_refl) as [H1 _].
    destruct (H 5 (GuildSettings.__init__ example_bot (inserted_row 5 (Some 1)))
                eq_refl) as [H5 _].
    split; [exact H1|]. split; [exact H5|].
    vm_compute in E. injection E as _ <-. reflexivity.
Defined.

(** ** The functions that work on the table alone *)

Lemma answer_1 (g : Gateway) : answer g 1 = next_ok (after_read g).
Proof.
  unfold answer, next_ok, after_read. simpl.
  destruct (faults g) as [|b [|c l]]; reflexivity.
Qed.

Lemma _db_get_server_setting_existing (guild_id : Z) (g : Gateway) (row : Row)
    (rest : list Row) :
  next_ok g = true →
  rows_of guild_id (table g) = row :: rest →
  _db_get_server_setting (Some guild_id) g = (Ok (Some row), after_read g).
Proof.
  intros Hok Hrows. unfold _db_get_server_setting, mbind, M_bind.
  rewrite _db_get_server_settings_eq, Hok, Hrows. reflexivity.
Qed.

(** [db_get_autodaily_settings] never returns an empty list: without a
    matching row it returns one tuple of [None]s. *)
Lemma db_get_autodaily_settings_nonempty `{Utility} (guild_id : option Z)
    (can_post : option bool) (only_guild_ids no_post_yet : bool) (g : Gateway) :
  ∃ first others,
    db_get_autodaily_settings guild_id can_post only_guild_ids no_post_yet g
      = (Ok (first :: others), after_read g).
Proof.
  unfold db_get_autodaily_settings, _db_get_server_settings_where,
    fetchall_where, mbind, M_bind, after_read.
  match goal with
  | |- context [if hd true (faults g) then ?rows else []] =>
      destruct (if hd true (faults g) then rows else []) as [|r l]
  end.
  - simpl. destruct (truthy_int guild_id); simpl; eauto.
  - simpl. eauto.
Qed.

Lemma db_reset_autodaily_eq `{Utility} (guild_id : Z) (c : Column) (v : Value)
    (rest : Settings) (g : Gateway) :
  well_typed ((c, v) :: rest) →
  db_reset_autodaily guild_id ((c, v) :: rest) g =
    (Ok (answer g 1),
     after_write (UPDATE ((c, v) :: rest) (Some guild_id)) (after_read g)).
Proof.
  intros Hwt. unfold db_reset_autodaily, mbind, M_bind.
  destruct (db_get_autodaily_settings_nonempty (Some guild_id) None false false g)
    as (first & others & ->).
  rewrite _db_update_server_settings_eq by exact Hwt.
  now rewrite answer_1.
Qed.

(** X24.  Each of the five [db_reset_autodaily_...] functions makes one read
    and then always sends its UPDATE for the guild, whatever the table holds
    and whatever the conditions of the read select: the list it reads is
    never empty, so the final [return True] is never reached.  The function
    returns the Gateway's answer to the UPDATE. *)
Theorem db_reset_autodaily_always_writes `{Utility} (guild_id : Z) (g : Gateway) :
  let sent settings :=
    (Ok (answer g 1),
     after_write (UPDATE settings (Some guild_id)) (after_read g)) in
  db_reset_autodaily_channel guild_id g =
    sent [ (_COLUMN_NAME_DAILY_CHANNEL_ID, VNone);
           (_COLUMN_NAME_DAILY_LATEST_MESSAGE_ID, VNone);
           (_COLUMN_NAME_DAILY_LATEST_MESSAGE_CREATED_AT, VNone);
           (_COLUMN_NAME_DAILY_LATEST_MESSAGE_MODIFIED_AT, VNone) ] ∧
  db_reset_autodaily_latest_message_id guild_id g =
    sent [ (_COLUMN_NAME_DAILY_LATEST_MESSAGE_ID, VNone);
           (_COLUMN_NAME_DAILY_LATEST_MESSAGE_CREATED_AT, VNone);
           (_COLUMN_NAME_DAILY_LATEST_MESSAGE_MODIFIED_AT, VNone) ] ∧
  db_reset_autodaily_mode guild_id g =
    sent [ (_COLUMN_NAME_DAILY_CHANGE_MODE,
              VInt (change_mode_value POST_NEW)) ] ∧
  db_reset_autodaily_notify guild_id g =
    sent [ (_COLUMN_NAME_DAILY_NOTIFY_ID, VNone);
           (_COLUMN_NAME_DAILY_NOTIFY_TYPE, VNone) ] ∧
  db_reset_autodaily_settings guild_id g =
    sent [ (_COLUMN_NAME_DAILY_CHANNEL_ID, VNone);
           (_COLUMN_NAME_DAILY_LATEST_MESSAGE_ID, VNone);
           (_COLUMN_NAME_DAILY_CHANGE_MODE,
              VInt (change_mode_value POST_NEW));
           (_COLUMN_NAME_DAILY_NOTIFY_ID, VNone);
           (_COLUMN_NAME_DAILY_NOTIFY_TYPE, VNone);
           (_COLUMN_NAME_DAILY_LATEST_MESSAGE_CREATED_AT, VNone);
           (_COLUMN_NAME_DAILY_LATEST_MESSAGE_MODIFIED_AT, VNone) ].
Proof.
  intros sent. unfold sent.
  split_conj;
    (unfold db_reset_autodaily_channel, db_reset_autodaily_latest_message_id,
       db_reset_autodaily_mode, db_reset_autodaily_notify,
       db_reset_autodaily_settings;
     apply db_reset_autodaily_eq; solve_well_typed).
Qed.

Lemma db_get_daily_latest_message_id_existing (guild_id : Z) (g : Gateway)
    (row : Row) (rest : list Row) :
  next_ok g = true →
  rows_of guild_id (table g) = row :: rest →
  db_get_daily_latest_message_id guild_id g =
    (Ok (int_or_None (dailylatestmessageid row)), after_read g).
Proof.
  intros Hok Hrows. unfold db_get_daily_latest_message_id, mbind, M_bind.
  now rewrite (_db_get_server_setting_existing _ _ _ _ Hok Hrows).
Qed.

Lemma db_get_daily_latest_message_create_date_existing (guild_id : Z)
    (g : Gateway) (row : Row) (rest : list Row) :
  next_ok g = true →
  rows_of guild_id (table g) = row :: rest →
  db_get_daily_latest_message_create_date guild_id g =
    (Ok (dailylatestmessagecreatedate row), after_read g).
Proof.
  intros Hok Hrows. unfold db_get_daily_latest_message_create_date, mbind, M_bind.
  now rewrite (_db_get_server_setting_existing _ _ _ _ Hok Hrows).
Qed.

Lemma table_after_update_read (settings : Settings) (guild : Z) (g : Gateway) :
  well_typed settings →
  healthy g →
  table (after_write (UPDATE settings (Some guild)) (after_read (after_read g)))
    = table (after_write (UPDATE settings (Some guild)) g).
Proof.
  intros Hwt Hg.
  rewrite !table_after_update; auto using healthy_next_ok, healthy_after_read.
Qed.

(** X23.  [db_update_daily_latest_message], which reads the stored message
    id and creation date from the guild's row, and the method
    [set_latest_message], which takes them from the entity, agree: on a
    Gateway that lets every call through, for an entity that mirrors the
    guild's first row, both return the same result and leave the same
    table, for a message as for [None]. *)
Theorem db_update_daily_latest_message_agrees `{Utility}
    (self : AutoDailySettings.t) (guild_id : Z) (row : Row) (rest : list Row)
    (message : option Message) (g : Gateway) :
  healthy g →
  rows_of guild_id (table g) = row :: rest →
  AutoDailySettings.guild_id self = Some guild_id →
  AutoDailySettings.latest_message_id self
    = int_or_None (dailylatestmessageid row) →
  AutoDailySettings.latest_message_created_at self
    = dailylatestmessagecreatedate row →
  ∃ success self' g1 g2,
    db_update_daily_latest_message guild_id message g = (Ok success, g1) ∧
    AutoDailySettings.set_latest_message self message g
      = (Ok (success, self'), g2) ∧
    table g1 = table g2.
Proof.
  intros Hg Hrows Hguild Hid Hcreated.
  pose proof (healthy_next_ok g Hg) as Hok.
  pose proof (healthy_after_read g Hg) as Hg1.
  pose proof (healthy_next_ok _ Hg1) as Hok1.
  pose proof (healthy_after_read _ Hg1) as Hg2.
  pose proof (healthy_next_ok _ Hg2) as Hok2.
  destruct message as [m|].
  - unfold db_update_daily_latest_message, AutoDailySettings.set_latest_message,
      mbind, M_bind.
    rewrite (db_get_daily_latest_message_id_existing _ _ _ _ Hok Hrows).
    rewrite (db_get_daily_latest_message_create_date_existing guild_id
               (after_read g) row rest Hok1 Hrows).
    rewrite Hid, Hcreated, Hguild.
    fold (new_day (dailylatestmessagecreatedate row) (Message_created_at m)).
    destruct (AutoDailySettings.differs (int_or_None (dailylatestmessageid row))
                (Message_id m)).
    + pose proof (latest_message_settings_well_typed
                    (dailylatestmessagecreatedate row) m) as Hwt.
      unfold latest_message_settings, recorded_modified_at in Hwt.
      destruct (new_day (dailylatestmessagecreatedate row) (Message_created_at m));
        cbn [app] in *;
        rewrite !_db_update_server_settings_eq by exact Hwt;
        rewrite Hok, Hok2; simpl;
        do 4 eexists; (split; [reflexivity|]); (split; [reflexivity|]);
        apply table_after_update_read; assumption.
    + simpl. do 4 eexists. split; [reflexivity|]. split; reflexivity.
  - unfold db_update_daily_latest_message,
      db_reset_autodaily_latest_message_id,
      AutoDailySettings.set_latest_message, mbind, M_bind.
    rewrite db_reset_autodaily_eq by solve_well_typed.
    rewrite _db_update_server_settings_eq by solve_well_typed.
    rewrite answer_1, Hok, Hok1, Hguild. simpl.
    do 4 eexists. split; [reflexivity|]. split; [reflexivity|].
    rewrite !table_after_update by (solve_well_typed || assumption).
    simpl. apply list_fmap_ext. intros _ r _.
    destruct (guildid r =? guild_id); [|reflexivity].
    destruct r; reflexivity.
Qed.

Lemma db_update_daily_latest_message_agrees_witness :
  ∃ success self' g1 g2,
    @db_update_daily_latest_message where_equal 1
      (Some (mk_message 8 noon None)) example_gateway = (Ok success, g1) ∧
    AutoDailySettings.set_latest_message example_autodaily
      (Some (mk_message 8 noon None)) example_gateway
      = (Ok (success, self'), g2) ∧
    table g1 = table g2.
Proof.
  apply (@db_update_daily_latest_message_agrees where_equal example_autodaily 1
           example_row [] (Some (mk_message 8 noon None)) example_gateway).
  - constructor.
  - reflexivity.
  - reflexivity.
  - reflexivity.
  - reflexivity.
Defined.

Lemma db_get_daily_notify_settings_eq (guild_id : Z) (g : Gateway) :
  db_get_daily_notify_settings guild_id g =
    (Ok (match fetched (Some guild_id) g with
         | row :: _ => Some (dailynotifyid row, dailynotifytype row)
         | [] => None
         end),
     after_read g).
Proof.
  unfold db_get_daily_notify_settings, _db_get_server_setting, mbind, M_bind,
    fetched.
  rewrite _db_get_server_settings_eq.
  destruct (if next_ok g then rows_of guild_id (table g) else []); reflexivity.
Qed.

Lemma notify_columns_well_typed (notify_id : Z)
    (notify_type : option AutoDailyNotifyType) :
  well_typed [ (_COLUMN_NAME_DAILY_NOTIFY_ID, VInt notify_id);
               (_COLUMN_NAME_DAILY_NOTIFY_TYPE,
                  of_int (convert_from_autodaily_notify_type notify_type)) ].
Proof. destruct notify_type; solve_well_typed. Qed.

(** X25.  On a Gateway that lets every call through,
    [set_autodaily_notify] creates the guild's default row if it had none
    and returns true.  It compares the notify id alone: when the row's
    notify id is unset, zero or another id, the id and the code of the
    notify type are written to the rows of the guild; when the row already
    holds the id, nothing is written, also when the given notify type is
    not the stored one. *)
Theorem set_autodaily_notify_spec (guild_id notify_id : Z)
    (notify_type : option AutoDailyNotifyType) (g : Gateway) :
  healthy g →
  ∃ g' row rest,
    set_autodaily_notify guild_id notify_id notify_type g = (Ok true, g') ∧
    materialized guild_id (table g) = row :: rest ∧
    rows_of guild_id (table g') =
      if AutoDailySettings.differs (dailynotifyid row) notify_id
      then patched [ (_COLUMN_NAME_DAILY_NOTIFY_ID, VInt notify_id);
                     (_COLUMN_NAME_DAILY_NOTIFY_TYPE,
                        of_int (convert_from_autodaily_notify_type notify_type)) ]
             <$> (row :: rest)
      else row :: rest.
Proof.
  intros Hg.
  destruct (db_create_server_settings_healthy guild_id g Hg)
    as (g1 & Ecreate & Hg1 & Hrows1).
  fold (materialized guild_id (table g)) in Hrows1.
  assert (∃ row rest, materialized guild_id (table g) = row :: rest)
    as (row & rest & Hmat).
  { unfold materialized. destruct (rows_of guild_id (table g)); eauto. }
  rewrite Hmat in Hrows1.
  unfold set_autodaily_notify, db_update_daily_notify_settings, mbind, M_bind.
  rewrite Ecreate, db_get_daily_notify_settings_eq.
  unfold fetched. rewrite (healthy_next_ok g1 Hg1), Hrows1.
  pose proof (healthy_after_read g1 Hg1) as Hg2.
  destruct (AutoDailySettings.differs (dailynotifyid row) notify_id) eqn:Hd.
  - rewrite _db_update_server_settings_eq by apply notify_columns_well_typed.
    rewrite (healthy_next_ok _ Hg2).
    eexists _, row, rest. rewrite Hd.
    split; [reflexivity|]. split; [exact Hmat|].
    rewrite rows_after_update
      by (apply notify_columns_well_typed || apply (healthy_next_ok _ Hg2)).
    simpl. rewrite Hrows1. reflexivity.
  - eexists _, row, rest. rewrite Hd.
    split; [reflexivity|]. split; [exact Hmat|].
    simpl. exact Hrows1.
Qed.

Lemma set_autodaily_notify_spec_witness :
  ∃ g',
    set_autodaily_notify 5 77 (Some ROLE) example_gateway = (Ok true, g') ∧
    rows_of 5 (table g') =
      [ mk_row 5 None None None None None (Some 1) (Some 77) (Some 2)
          None None None ].
Proof.
  destruct (set_autodaily_notify_spec 5 77 (Some ROLE) example_gateway)
    as (g' & row & rest & Erun & Hmat & Hrows).
  - constructor.
  - exists g'. split; [exact Erun|].
    vm_compute in Hmat. injection Hmat as <- <-. exact Hrows.
Defined.

(** X26.  [db_update_daily_notify_settings] raises TypeError when the read
    of the guild's row returns nothing, because the guild has no row or the
    Gateway failed the read: it unpacks the [None] it got.  No write is
    sent. *)
Theorem db_update_daily_notify_settings_without_row (guild_id notify_id : Z)
    (notify_type : option AutoDailyNotifyType) (g : Gateway) :
  fetched (Some guild_id) g = [] →
  db_update_daily_notify_settings guild_id notify_id notify_type g
    = (Raise TypeError, after_read g).
Proof.
  intros Hnone. unfold db_update_daily_notify_settings, mbind, M_bind.
  rewrite db_get_daily_notify_settings_eq, Hnone. reflexivity.
Qed.

Lemma db_update_daily_notify_settings_without_row_witness :
  db_update_daily_notify_settings 5 77 (Some ROLE) example_gateway
    = (Raise TypeError, after_read example_gateway).
Proof.
  apply (db_update_daily_notify_settings_without_row 5 77 (Some ROLE)
           example_gateway).
  reflexivity.
Defined.
